(** * wait-for-netlify-action: the polling and timeout state machine

    A shallow embedding of [src/index.js]: the three waiters
    ([waitForDeployCreation], [waitForReadiness], [waitForUrl]) and the
    orchestrator [run], followed by the properties of the specification.

    Conventions of the embedding.
    - JavaScript values that the program inspects dynamically are [jsval].
    - The outside world is an [Env]: what the k-th authenticated request and
      the k-th plain request answer.  The program is deterministic in it.
    - Effects are explicit: every function threads a [World], which counts
      the requests issued, holds the registered response interceptors and the
      active interval timers, and records the [trace] of observable calls.
    - A promise is an [option settlement]; awaiting an unsettled promise that
      nothing can settle any more is the completion [Pending].
    - A timer callback runs to completion before the next one fires (each
      request is answered within one interval).  The promise of an async
      callback has no handler: when it rejects, the process ends
      ([unhandled_rejection], the default of Node 15 and later), every
      timer is gone and whoever awaits stays [Pending].
    - Numbers are integers where the program prints them ([string_of_Z]
      renders the digits, which is what a template literal prints for
      magnitudes below 1e21) and rationals in the prober, whose division by
      3 is exact: the program's doubles take the same branch at every
      counter value, except for the least positive double, whose third
      rounds to zero ([exact_budget] names the budgets of agreement).  An
      infinite budget is outside [Config]. *)

From Stdlib Require Import ZArith QArith Qround List String Ascii Bool Lia.
From Stdlib Require Import DecimalString.
Import ListNotations.

Close Scope Q_scope.
Open Scope string_scope.
Open Scope Z_scope.

(** ** JavaScript values *)

Inductive jsval : Type :=
| JUndefined
| JNull
| JStr (s : string)
| JNum (n : Z).

(** [a === b] *)
Definition strict_eq (a b : jsval) : bool :=
  match a, b with
  | JUndefined, JUndefined => true
  | JNull, JNull => true
  | JStr s, JStr t => String.eqb s t
  | JNum n, JNum m => Z.eqb n m
  | _, _ => false
  end.

(** ToBoolean: [!v] is [negb (truthy v)]. *)
Definition truthy (v : jsval) : bool :=
  match v with
  | JUndefined | JNull => false
  | JStr s => negb (String.eqb s "")
  | JNum n => negb (Z.eqb n 0)
  end.

(** Decimal rendering of an integral number: what a template literal prints
    for magnitudes below 1e21 (from there on JavaScript switches to the
    exponent form, which this rendering does not follow). *)
Definition string_of_Z (n : Z) : string := NilZero.string_of_int (Z.to_int n).

(** ToString, as applied by template literals and by [RegExp.prototype.test]. *)
Definition ToString (v : jsval) : string :=
  match v with
  | JUndefined => "undefined"
  | JNull => "null"
  | JStr s => s
  | JNum n => string_of_Z n
  end.

(** ** Deployment records (the fields the program reads) *)

Record Deployment : Type := mkDeployment {
  deploy_id : string;        (* id *)
  deploy_name : string;      (* name *)
  commit_ref : jsval;
  deploy_state : jsval;      (* state *)
  error_message : jsval;
  deploy_ssl_url : string
}.

(** ** The environment *)

(** The body of an answered authenticated request ([response.data]). *)
Inductive body : Type :=
| BNull                          (* null *)
| BEmpty                         (* the empty string of an empty body *)
| BArray (l : list Deployment)   (* a listing *)
| BObject (d : Deployment).      (* a single record *)

(** Outcome of [getNetlifyUrl]: the request promise rejects or fulfils. *)
Inductive fetched : Type :=
| FetchRejected
| FetchData (data : body).

(** What reaches the response handlers of a plain [axios.get]. *)
Inductive axios_error : Type :=
| ErrResponse (status : Z)   (* error.response.status *)
| ErrNoResponse              (* network failure: error.response is undefined *)
| ErrTypeError.              (* raised by a handler *)

Inductive axios_result : Type :=
| AxResolved (status : Z)
| AxRejected (e : axios_error).

Record Env : Type := mkEnv {
  api : nat -> fetched;        (* k-th call of getNetlifyUrl *)
  site : nat -> axios_result   (* k-th plain axios.get, before interceptors *)
}.

(** ** Observable calls *)

Inductive event : Type :=
| NetlifyGet (url : string)
| AxiosGet (url : string)
| InterceptorUse
| SetInterval (handle : nat) (ms : Z)
| ClearInterval (handle : nat)
| SetTimeout (ms : Z)
| ConsoleLog (msg : string)
| CoreNotice (msg : string)
| CoreInfo (msg : string)
| SetOutput (key : string) (value : jsval)
| SetFailed (msg : string)
| UnhandledRejection.            (* the process ends with exit code 1 *)

Record World : Type := mkWorld {
  api_calls : nat;
  site_calls : nat;
  interceptors : nat;
  timers : list nat;
  next_handle : nat;
  trace : list event
}.

Definition initial_world : World := mkWorld 0 0 0 [] 0 [].

Definition emit (e : event) (w : World) : World :=
  mkWorld (api_calls w) (site_calls w) (interceptors w) (timers w)
          (next_handle w) (trace w ++ [e]).

(** ** Completions and the effect monad *)

Inductive thrown : Type :=
| ThrownStr (s : string)       (* a string used as rejection reason *)
| ThrownError (msg : string).  (* an Error object with its message *)

Inductive completion (A : Type) : Type :=
| Normal (a : A)
| Throw (e : thrown)
| Pending.
Arguments Normal {A} a.
Arguments Throw {A} e.
Arguments Pending {A}.

Definition M (A : Type) : Type := World -> completion A * World.

Definition ret {A} (a : A) : M A := fun w => (Normal a, w).

Definition bind {A B} (m : M A) (k : A -> M B) : M B :=
  fun w =>
    match m w with
    | (Normal a, w') => k a w'
    | (Throw e, w') => (Throw e, w')
    | (Pending, w') => (Pending, w')
    end.

Definition throw {A} (e : thrown) : M A := fun w => (Throw e, w).

Definition try_catch {A} (m : M A) (handler : thrown -> M A) : M A :=
  fun w =>
    match m w with
    | (Throw e, w') => handler e w'
    | r => r
    end.

Definition perform (e : event) : M unit := fun w => (Normal tt, emit e w).

Notation "x <- m ;; k" := (bind m (fun x => k))
  (at level 61, m at next level, right associativity).
Notation "m ;; k" := (bind m (fun _ => k))
  (at level 61, right associativity).

Definition when (b : bool) (m : M unit) : M unit := if b then m else ret tt.

(** ** Promises and interval timers *)

Inductive settlement (A : Type) : Type :=
| Fulfilled (a : A)
| RejectedWith (reason : string).
Arguments Fulfilled {A} a.
Arguments RejectedWith {A} reason.

(** [resolve] and [reject] do nothing on a settled promise. *)
Definition settle {A} (p : option (settlement A)) (r : settlement A)
  : option (settlement A) :=
  match p with
  | None => Some r
  | Some _ => p
  end.

Definition await {A} (p : option (settlement A)) : M A :=
  match p with
  | Some (Fulfilled a) => ret a
  | Some (RejectedWith reason) => throw (ThrownStr reason)
  | None => fun w => (Pending, w)
  end.

Definition setInterval (ms : Z) (w : World) : nat * World :=
  let h := next_handle w in
  (h, mkWorld (api_calls w) (site_calls w) (interceptors w) (h :: timers w)
              (S h) (trace w ++ [SetInterval h ms])).

Definition clearInterval (h : nat) (w : World) : World :=
  mkWorld (api_calls w) (site_calls w) (interceptors w)
          (filter (fun h' => negb (Nat.eqb h' h)) (timers w))
          (next_handle w) (trace w ++ [ClearInterval h]).

Definition timer_active (h : nat) (w : World) : bool :=
  existsb (Nat.eqb h) (timers w).

(** The promise returned by an async timer callback rejects and nobody
    handles it: the process ends, and its timers with it. *)
Definition unhandled_rejection (w : World) : World :=
  mkWorld (api_calls w) (site_calls w) (interceptors w) []
          (next_handle w) (trace w ++ [UnhandledRejection]).

(** The event loop fires the callback of timer [h] for as long as [h] is
    active; the awaiting caller resumes as soon as the promise is settled.
    [fuel] bounds the number of ticks looked at. *)
Fixpoint poll {S : Type} (settled : S -> bool)
         (callback : S -> World -> S * World) (h : nat)
         (fuel : nat) (s : S) (w : World) : S * World :=
  if settled s then (s, w)
  else match fuel with
       | O => (s, w)
       | Datatypes.S fuel' =>
           if timer_active h w
           then let '(s', w') := callback s w in
                poll settled callback h fuel' s' w'
           else (s, w)
       end.

(** ** getNetlifyUrl *)

Definition getNetlifyUrl (env : Env) (url : string) (w : World)
  : fetched * World :=
  (api env (api_calls w),
   mkWorld (S (api_calls w)) (site_calls w) (interceptors w) (timers w)
           (next_handle w) (trace w ++ [NetlifyGet url])).

(** ** waitForDeployCreation *)

Module Creation.

Definition increment : Z := 15.

(** The variables the timer callback closes over. *)
Record session : Type := mkSession {
  elapsedTimeSeconds : Z;
  promise : option (settlement Deployment)
}.

Definition timeout_message (MAX_TIMEOUT : Z) : string :=
  "Timeout reached: Deployment was not created within "
    ++ ToString (JNum MAX_TIMEOUT) ++ " seconds.".

Definition not_found_message : string := "Failed to get deployments for site".

Definition log_message : string :=
  "Not yet created, waiting " ++ ToString (JNum increment)
    ++ " more seconds...".

(** [netlifyDeployments.find((d) => d.commit_ref === commitSha)] *)
Definition find_commit (commitSha : jsval) (l : list Deployment)
  : option Deployment :=
  find (fun d => strict_eq (commit_ref d) commitSha) l.

(** One firing of the interval callback. *)
Definition callback (env : Env) (url : string) (commitSha : jsval)
           (MAX_TIMEOUT : Z) (handle : nat) (s : session) (w : World)
  : session * World :=
  let elapsed := elapsedTimeSeconds s + increment in
  if MAX_TIMEOUT <=? elapsed then
    (mkSession elapsed
       (settle (promise s) (RejectedWith (timeout_message MAX_TIMEOUT))),
     clearInterval handle w)
  else
    let '(r, w1) := getNetlifyUrl env url w in
    match r with
    | FetchRejected =>
        (* the await throws: the callback's own promise rejects *)
        (mkSession elapsed (promise s), unhandled_rejection w1)
    | FetchData BNull | FetchData BEmpty =>
        (mkSession elapsed
           (settle (promise s) (RejectedWith not_found_message)), w1)
    | FetchData (BObject _) =>
        (* .find is not a function: the callback's own promise rejects *)
        (mkSession elapsed (promise s), unhandled_rejection w1)
    | FetchData (BArray netlifyDeployments) =>
        match find_commit commitSha netlifyDeployments with
        | Some commitDeployment =>
            (mkSession elapsed
               (settle (promise s) (Fulfilled commitDeployment)),
             clearInterval handle w1)
        | None =>
            (mkSession elapsed (promise s), emit (ConsoleLog log_message) w1)
        end
    end.

Definition settled (s : session) : bool :=
  match promise s with Some _ => true | None => false end.

Definition initial : session := mkSession 0 None.

(** Ticks after which the timeout branch has certainly been taken. *)
Definition ticks_bound (MAX_TIMEOUT : Z) : nat :=
  S (Z.to_nat (MAX_TIMEOUT / increment)).

(** The promise constructor body and the ticks up to settlement. *)
Definition start (env : Env) (url : string) (commitSha : jsval)
           (MAX_TIMEOUT : Z) (w : World) : nat * session * World :=
  let '(handle, w1) := setInterval (increment * 1000) w in
  let '(s, w2) :=
    poll settled (callback env url commitSha MAX_TIMEOUT handle) handle
         (ticks_bound MAX_TIMEOUT) initial w1 in
  (handle, s, w2).

End Creation.

Definition waitForDeployCreation (env : Env) (url : string) (commitSha : jsval)
           (MAX_TIMEOUT : Z) : M Deployment :=
  fun w =>
    let '(_, s, w') := Creation.start env url commitSha MAX_TIMEOUT w in
    await (Creation.promise s) w'.

(** ** waitForReadiness *)

Definition READY_STATES : list jsval := [JStr "ready"; JStr "current"; JStr "error"].

(** [Array.prototype.includes] on an array of strings. *)
Definition includes (l : list jsval) (v : jsval) : bool :=
  existsb (fun x => strict_eq x v) l.

Module Readiness.

Definition increment : Z := 30.

Record session : Type := mkSession {
  elapsedTimeSeconds : Z;
  state : jsval;
  promise : option (settlement unit)
}.

Definition timeout_message (MAX_TIMEOUT : Z) (state : jsval) : string :=
  "Timeout reached: Deployment was not ready within "
    ++ ToString (JNum MAX_TIMEOUT)
    ++ " seconds. Last known deployment state: " ++ ToString state ++ ".".

Definition log_message : string :=
  "Not yet ready, waiting " ++ ToString (JNum increment)
    ++ " more seconds...".

(** [deploy.state]: [None] when the property access throws. *)
Definition state_of (data : body) : option jsval :=
  match data with
  | BNull => None
  | BEmpty => Some JUndefined
  | BArray _ => Some JUndefined
  | BObject deploy => Some (deploy_state deploy)
  end.

Definition callback (env : Env) (url : string) (MAX_TIMEOUT : Z)
           (handle : nat) (s : session) (w : World) : session * World :=
  let elapsed := elapsedTimeSeconds s + increment in
  if MAX_TIMEOUT <=? elapsed then
    (mkSession elapsed (state s)
       (settle (promise s)
               (RejectedWith (timeout_message MAX_TIMEOUT (state s)))),
     clearInterval handle w)
  else
    let '(r, w1) := getNetlifyUrl env url w in
    match r with
    | FetchRejected =>
        (* the await throws: the callback's own promise rejects *)
        (mkSession elapsed (state s) (promise s), unhandled_rejection w1)
    | FetchData deploy =>
        match state_of deploy with
        | None =>
            (* reading .state of null throws: the same *)
            (mkSession elapsed (state s) (promise s), unhandled_rejection w1)
        | Some st =>
            if includes READY_STATES st then
              (mkSession elapsed st (settle (promise s) (Fulfilled tt)),
               clearInterval handle w1)
            else
              (mkSession elapsed st (promise s),
               emit (ConsoleLog log_message) w1)
        end
    end.

Definition settled (s : session) : bool :=
  match promise s with Some _ => true | None => false end.

Definition initial : session := mkSession 0 JUndefined None.

Definition ticks_bound (MAX_TIMEOUT : Z) : nat :=
  S (Z.to_nat (MAX_TIMEOUT / increment)).

Definition start (env : Env) (url : string) (MAX_TIMEOUT : Z) (w : World)
  : nat * session * World :=
  let '(handle, w1) := setInterval (increment * 1000) w in
  let '(s, w2) :=
    poll settled (callback env url MAX_TIMEOUT handle) handle
         (ticks_bound MAX_TIMEOUT) initial w1 in
  (handle, s, w2).

End Readiness.

Definition waitForReadiness (env : Env) (url : string) (MAX_TIMEOUT : Z)
  : M unit :=
  fun w =>
    let '(_, s, w') := Readiness.start env url MAX_TIMEOUT w in
    await (Readiness.promise s) w'.

(** ** waitForUrl *)

(** The rejection handler registered by [axios.interceptors.response.use]. *)
Definition onRejected (error : axios_error) : axios_result :=
  match error with
  | ErrResponse status =>
      if status =? 401 then AxResolved status else AxRejected error
  | ErrNoResponse | ErrTypeError =>
      (* error.response is undefined: reading .status throws *)
      AxRejected ErrTypeError
  end.

(** One registered (fulfilled, rejected) handler pair. *)
Definition interceptor (r : axios_result) : axios_result :=
  match r with
  | AxResolved status => AxResolved status
  | AxRejected error => onRejected error
  end.

Definition use_interceptor (w : World) : World :=
  mkWorld (api_calls w) (site_calls w) (S (interceptors w)) (timers w)
          (next_handle w) (trace w ++ [InterceptorUse]).

(** [axios.get(url)]: the answer runs through every registered handler pair. *)
Definition axios_get (env : Env) (url : string) (w : World)
  : axios_result * World :=
  (Nat.iter (interceptors w) interceptor (site env (site_calls w)),
   mkWorld (api_calls w) (S (site_calls w)) (interceptors w) (timers w)
           (next_handle w) (trace w ++ [AxiosGet url])).

Definition unavailable_message (url : string) : string :=
  "URL " ++ url ++ " unavailable, retrying...".

Definition unable_message (url : string) : string :=
  "Timeout reached: Unable to connect to " ++ url.

(** [i < iterations], on exact quotients.  The program divides doubles:
    for a counter [i >= 1] the rounded third of a double budget up to 2^53
    exceeds [i] exactly when the exact third does, and for [i = 0] the two
    differ on the least positive double alone. *)
Definition lt_iterations (i : Z) (iterations : Q) : bool :=
  negb (Qle_bool iterations (inject_Z i)).

(** The [for] loop from counter [i] on; [fuel] bounds the iterations. *)
Fixpoint waitForUrl_loop (env : Env) (url : string) (iterations : Q)
         (flag : bool) (fuel : nat) (i : Z) : M unit :=
  fun w =>
    if lt_iterations i iterations then
      match fuel with
      | O => (Pending, w)
      | S fuel' =>
          let '(r, w1) := axios_get env url w in
          match r with
          | AxResolved _ => (Normal tt, w1)
          | AxRejected _ =>
              if flag then (Throw (ThrownStr "not found"), w1)
              else
                let w2 := emit (ConsoleLog (unavailable_message url)) w1 in
                let w3 := emit (SetTimeout 3000) w2 in
                waitForUrl_loop env url iterations flag fuel' (i + 1) w3
          end
      end
    else (Normal tt, emit (SetFailed (unable_message url)) w).

Definition waitForUrl (env : Env) (url : string) (MAX_TIMEOUT : Q)
           (flag : bool) : M unit :=
  fun w =>
    let w1 := use_interceptor w in
    let iterations := (MAX_TIMEOUT / 3)%Q in
    waitForUrl_loop env url iterations flag
                    (Z.to_nat (Qceiling iterations)) 0 w1.

(** ** The skip-phrase matcher *)

(** Case folding of a pattern without the unicode flag: letters compare by
    their upper-case form, and no other character folds onto an ASCII one. *)
Definition canonicalize (c : ascii) : ascii :=
  let n := nat_of_ascii c in
  if ((97 <=? n) && (n <=? 122))%nat then ascii_of_nat (n - 32) else c.

Fixpoint prefix_ci (p s : string) : bool :=
  match p, s with
  | EmptyString, _ => true
  | String a p', String b s' =>
      Ascii.eqb (canonicalize a) (canonicalize b) && prefix_ci p' s'
  | String _ _, EmptyString => false
  end.

Fixpoint search_ci (p s : string) : bool :=
  prefix_ci p s
  || match s with
     | EmptyString => false
     | String _ s' => search_ci p s'
     end.

(** [new RegExp(/canceled build due to no content change/i).test(v)] *)
Definition matcher_test (v : jsval) : bool :=
  search_ci "canceled build due to no content change" (ToString v).

(** ** run *)

Record Context : Type := mkContext {
  eventName : string;
  pull_request_head_sha : jsval;   (* payload.pull_request.head.sha *)
  sha : jsval
}.

Record Config : Type := mkConfig {
  NETLIFY_TOKEN : jsval;           (* process.env.NETLIFY_TOKEN *)
  context : Context;               (* github.context *)
  max_timeout : option Q;          (* Number(core.getInput("max_timeout")),
                                      [None] for NaN; finite otherwise *)
  site_id : string                 (* core.getInput("site_id") *)
}.

Definition MAX_CREATE_TIMEOUT : Z := 60 * 5.
Definition MAX_WAIT_TIMEOUT : Z := 60 * 15.

(** [Number(core.getInput("max_timeout")) || 60] *)
Definition MAX_READY_TIMEOUT (cfg : Config) : Q :=
  match max_timeout cfg with
  | Some n => if Qeq_bool n 0 then 60%Q else n
  | None => 60%Q
  end.

Definition commitSha (cfg : Config) : jsval :=
  if String.eqb (eventName (context cfg)) "pull_request"
  then pull_request_head_sha (context cfg)
  else sha (context cfg).

Definition deploys_url (siteId : string) : string :=
  "https://api.netlify.com/api/v1/sites/" ++ siteId ++ "/deploys".

Definition deploy_url (siteId : string) (id : string) : string :=
  "https://api.netlify.com/api/v1/sites/" ++ siteId ++ "/deploys/" ++ id.

Definition netlify_app_url (d : Deployment) : string :=
  "https://" ++ deploy_id d ++ "--" ++ deploy_name d ++ ".netlify.app".

(** [new Error(v).message] *)
Definition Error_message (v : jsval) : string :=
  match v with
  | JUndefined => ""
  | _ => ToString v
  end.

Definition token_message : string :=
  "Please set NETLIFY_TOKEN env variable to your Netlify Personal Access Token secret".
Definition commit_message : string := "Could not determine GitHub commit".
Definition site_id_message : string :=
  "Required field `site_id` was not provided".

(** The three configuration checks: each reports and goes on. *)
Definition check_config (cfg : Config) : M unit :=
  when (negb (truthy (NETLIFY_TOKEN cfg))) (perform (SetFailed token_message));;
  when (negb (truthy (commitSha cfg))) (perform (SetFailed commit_message));;
  when (negb (truthy (JStr (site_id cfg))))
       (perform (SetFailed site_id_message)).

(** From [core.setOutput("deploy_id", ...)] to the end of the [try] block. *)
Definition publish_and_wait (env : Env) (cfg : Config)
           (commitDeployment : Deployment) (url : string) : M unit :=
  perform (SetOutput "deploy_id" (JStr (deploy_id commitDeployment)));;
  perform (SetOutput "url" (JStr url));;
  perform (ConsoleLog ("Waiting for Netlify deployment "
                         ++ deploy_id commitDeployment ++ " in site "
                         ++ deploy_name commitDeployment ++ " to be ready"));;
  waitForReadiness env (deploy_url (site_id cfg) (deploy_id commitDeployment))
                   MAX_WAIT_TIMEOUT;;
  perform (ConsoleLog ("Waiting for a 200 or 401 from: " ++ url));;
  waitForUrl env url (MAX_READY_TIMEOUT cfg) false.

(** The [catch] block of the fallback probe; it ends in [return]. *)
Definition no_preview (commitDeployment : Deployment) : M unit :=
  perform (CoreNotice "Skipping: no deployment available for this branch");;
  perform (CoreInfo ("No deployment available: "
                   ++ ToString (error_message commitDeployment)));;
  perform (SetOutput "nopreview" (JNum 1)).

(** What follows the resolution of the creation waiter; the boolean of the
    inner [try] tells whether its [catch] block returned from [run]. *)
Definition after_creation (env : Env) (cfg : Config)
           (commitDeployment : Deployment) : M unit :=
  let url := netlify_app_url commitDeployment in
  if strict_eq (deploy_state commitDeployment) (JStr "error") then
    if matcher_test (error_message commitDeployment) then
      let url := deploy_ssl_url commitDeployment in
      let checkOnlyOnce := true in
      returned <- try_catch
                    (waitForUrl env url 3%Q checkOnlyOnce;; ret false)
                    (fun _ => no_preview commitDeployment;; ret true);;
      if returned : bool then ret tt
      else publish_and_wait env cfg commitDeployment url
    else throw (ThrownError (Error_message (error_message commitDeployment)))
  else publish_and_wait env cfg commitDeployment url.

(** The [try] block. *)
Definition run_try (env : Env) (cfg : Config) : M unit :=
  check_config cfg;;
  perform (ConsoleLog ("Waiting for Netlify to create a deployment for git SHA "
                         ++ ToString (commitSha cfg)));;
  commitDeployment <- waitForDeployCreation env (deploys_url (site_id cfg))
                                            (commitSha cfg) MAX_CREATE_TIMEOUT;;
  after_creation env cfg commitDeployment.

(** [typeof error === "string" ? error : error.message] *)
Definition failure_text (error : thrown) : string :=
  match error with
  | ThrownStr s => s
  | ThrownError msg => msg
  end.

Definition run (env : Env) (cfg : Config) : M unit :=
  try_catch (run_try env cfg)
            (fun error => perform (SetFailed (failure_text error))).



(** * Vocabulary of the statements *)

(** ** Traces and frames *)

(** [w'] is [w] followed by events that all satisfy [P]. *)
Definition extends (P : event -> bool) (w w' : World) : Prop :=
  exists evs, trace w' = (trace w ++ evs)%list /\ forallb P evs = true.

(** The effects a waiter has besides its trace: none on the plain-request
    counter and none on the registered interceptors. *)
Definition same_site (w w' : World) : Prop :=
  site_calls w' = site_calls w /\ interceptors w' = interceptors w.

(** Events of a polling waiter on endpoint [url] with period [ms]. *)
Definition waiter_event (url : string) (ms : Z) (e : event) : bool :=
  match e with
  | NetlifyGet u => String.eqb u url
  | SetInterval _ m => m =? ms
  | ClearInterval _ | ConsoleLog _ | UnhandledRejection => true
  | _ => false
  end.

Definition waiter_frame (url : string) (ms : Z) (w w' : World) : Prop :=
  same_site w w' /\ extends (waiter_event url ms) w w'.

(** ** Reading the answers of the endpoints *)

(** How the creation waiter reads one answer: a listing that holds a record
    of the commit (and the first such record), or a listing that holds none. *)
Definition match_in (sha : jsval) (r : fetched) : option Deployment :=
  match r with
  | FetchData (BArray l) => Creation.find_commit sha l
  | _ => None
  end.

Definition listing_without (sha : jsval) (r : fetched) : bool :=
  match r with
  | FetchData (BArray l) =>
      match Creation.find_commit sha l with
      | None => true
      | Some _ => false
      end
  | _ => false
  end.

(** In the words of the specification: the listing [r] holds no record of
    the commit, and [d] is the first record of the commit in the listing
    [l]. *)
Definition without_commit (sha : jsval) (r : fetched) : Prop :=
  exists l, r = FetchData (BArray l)
            /\ forall x, In x l -> commit_ref x <> sha.

Definition first_with_commit (sha : jsval) (l : list Deployment)
           (d : Deployment) : Prop :=
  exists l1 l2, l = (l1 ++ d :: l2)%list
                /\ commit_ref d = sha
                /\ forall x, In x l1 -> commit_ref x <> sha.

(** The creation callback can read the answer: a listing or a falsy body.
    On anything else its promise rejects. *)
Definition listing_or_falsy (r : fetched) : bool :=
  match r with
  | FetchData (BArray _) | FetchData BNull | FetchData BEmpty => true
  | _ => false
  end.

(** The readiness callback can read the answer: the request is answered and
    the body is not null.  On anything else its promise rejects. *)
Definition readable (r : fetched) : bool :=
  match r with
  | FetchRejected | FetchData BNull => false
  | _ => true
  end.

(** The ready set, spelled out. *)
Definition ready_state (st : jsval) : Prop :=
  st = JStr "ready" \/ st = JStr "current" \/ st = JStr "error".

(** The state of the last of the records [start], ..., [start + n - 1];
    undefined when no record was fetched. *)
Definition last_state (env : Env) (start n : nat) : jsval :=
  match n with
  | O => JUndefined
  | S m =>
      match api env (start + m) with
      | FetchData (BObject d) => deploy_state d
      | _ => JUndefined
      end
  end.

(** The values that [ToString] renders as JavaScript does: every value but
    a number whose magnitude reaches 1e21. *)
Definition prints_digits (v : jsval) : Prop :=
  match v with
  | JNum n => Z.abs n < 10 ^ 21
  | _ => True
  end.

(** The answer is a record whose state is in the ready set. *)
Definition ready_answer (r : fetched) : bool :=
  match r with
  | FetchData (BObject d) => includes READY_STATES (deploy_state d)
  | _ => false
  end.

(** The waiter's [state] variable after it has read answer [r]. *)
Definition observe (st : jsval) (r : fetched) : jsval :=
  match r with
  | FetchRejected => st
  | FetchData b =>
      match Readiness.state_of b with
      | Some st' => st'
      | None => st
      end
  end.

(** The [state] variable after the answers [start], ..., [start + n - 1]. *)
Fixpoint last_observed (env : Env) (start n : nat) (st : jsval) : jsval :=
  match n with
  | O => st
  | S n' => last_observed env (S start) n' (observe st (api env start))
  end.

(** ** Reading the answers of the site *)

(** The answer counts as reachable: a fulfilled request, or a failure whose
    response carries the authentication-challenge status. *)
Definition answers_ok (r : axios_result) : bool :=
  match r with
  | AxResolved _ => true
  | AxRejected (ErrResponse status) => status =? 401
  | AxRejected _ => false
  end.

(** The least positive double, 2^-1074: its third rounds to zero. *)
Definition least_positive_double : Q := 1 # (2 ^ 1074).

(** The budgets on which the program's division of doubles and the exact
    division decide every turn of the loop alike: above the least positive
    double, and at most 2^53, so that the counter stays where [i++] is
    exact. *)
Definition exact_budget (MAX : Q) : Prop :=
  (least_positive_double < MAX)%Q /\ (MAX <= inject_Z (2 ^ 53))%Q.

(** The trace of one failed attempt that is retried. *)
Definition retry_events (url : string) : list event :=
  [AxiosGet url; ConsoleLog (unavailable_message url); SetTimeout 3000].

(** Events of the prober on [url]. *)
Definition prober_event (url : string) (e : event) : bool :=
  match e with
  | AxiosGet u => String.eqb u url
  | InterceptorUse | ConsoleLog _ | SetTimeout _ => true
  | SetFailed msg => String.eqb msg (unable_message url)
  | _ => false
  end.

(** The world after the interceptor registration and one attempt. *)
Definition probed (url : string) (w : World) : World :=
  mkWorld (api_calls w) (S (site_calls w)) (S (interceptors w)) (timers w)
          (next_handle w) (trace w ++ [InterceptorUse; AxiosGet url]).

(** ** Reading the trace of a run *)

Definition is_output (e : event) : bool :=
  match e with SetOutput _ _ => true | _ => false end.

Definition is_probe (e : event) : bool :=
  match e with AxiosGet _ => true | _ => false end.

Definition is_failure (e : event) : bool :=
  match e with SetFailed _ => true | _ => false end.

(** Every event but the publication of [nopreview]. *)
Definition not_nopreview (e : event) : bool :=
  match e with
  | SetOutput key _ => negb (String.eqb key "nopreview")
  | _ => true
  end.

Definition config_complete (cfg : Config) : bool :=
  truthy (NETLIFY_TOKEN cfg) && truthy (commitSha cfg)
  && truthy (JStr (site_id cfg)).

(** What the configuration checks report. *)
Definition config_failures (cfg : Config) : list event :=
  ((if truthy (NETLIFY_TOKEN cfg) then [] else [SetFailed token_message])
     ++ (if truthy (commitSha cfg) then [] else [SetFailed commit_message])
     ++ (if truthy (JStr (site_id cfg)) then []
         else [SetFailed site_id_message]))%list.

(** The world in which the creation waiter is started. *)
Definition before_creation (cfg : Config) : World :=
  mkWorld 0 0 0 [] 0
          (config_failures cfg
             ++ [ConsoleLog
                   ("Waiting for Netlify to create a deployment for git SHA "
                      ++ ToString (commitSha cfg))]).

(** The creation wait of a run. *)
Definition creation (env : Env) (cfg : Config) : completion Deployment * World :=
  waitForDeployCreation env (deploys_url (site_id cfg)) (commitSha cfg)
                        MAX_CREATE_TIMEOUT (before_creation cfg).

(** The top-level [catch] block. *)
Definition top_level_catch (error : thrown) : M unit :=
  perform (SetFailed (failure_text error)).

(** The world after the [catch] block of the fallback probe. *)
Definition no_preview_world (d : Deployment) (w : World) : World :=
  emit (SetOutput "nopreview" (JNum 1))
       (emit (CoreInfo ("No deployment available: " ++ ToString (error_message d)))
             (emit (CoreNotice "Skipping: no deployment available for this branch")
                   w)).

(** Every event that [m] adds to the trace satisfies [P]. *)
Definition frames {A} (P : event -> bool) (m : M A) : Prop :=
  forall w, extends P w (snd (m w)).

(** Events that publish nothing. *)
Definition quiet (e : event) : bool := negb (is_output e).

(** The part of [publish_and_wait] after the publication. *)
Definition wait_and_probe (env : Env) (cfg : Config) (d : Deployment)
           (url : string) : M unit :=
  waitForReadiness env (deploy_url (site_id cfg) (deploy_id d))
                   MAX_WAIT_TIMEOUT;;
  perform (ConsoleLog ("Waiting for a 200 or 401 from: " ++ url));;
  waitForUrl env url (MAX_READY_TIMEOUT cfg) false.

(** The world after the publication. *)
Definition published (d : Deployment) (url : string) (w : World) : World :=
  emit (ConsoleLog ("Waiting for Netlify deployment " ++ deploy_id d
                      ++ " in site " ++ deploy_name d ++ " to be ready"))
       (emit (SetOutput "url" (JStr url))
             (emit (SetOutput "deploy_id" (JStr (deploy_id d))) w)).

(** The run takes the no-preview exit: the creation waiter resolves with a
    deployment in state "error" whose message matches the skip phrase, and
    the fallback probe fails. *)
Definition no_preview_path (env : Env) (cfg : Config) : bool :=
  match fst (creation env cfg) with
  | Normal d =>
      strict_eq (deploy_state d) (JStr "error")
      && matcher_test (error_message d)
      && negb (answers_ok (site env 0))
  | _ => false
  end.

(** ** Scenarios *)

Definition sample_deployment : Deployment :=
  mkDeployment "64f0" "docs" (JStr "abc123") (JStr "ready") JNull
               "https://main--docs.netlify.app".

Definition other_deployment : Deployment :=
  mkDeployment "11aa" "docs" (JStr "fff000") (JStr "ready") JNull
               "https://other--docs.netlify.app".

(** A later record of the same commit. *)
Definition rebuilt_deployment : Deployment :=
  mkDeployment "77cc" "docs" (JStr "abc123") (JStr "building") JNull
               "https://main--docs.netlify.app".

(** The first listing holds another commit only; the second holds it, then
    the commit, then a later record of the commit. *)
Definition env_busy_listing : Env :=
  mkEnv (fun k => match k with
                  | O => FetchData (BArray [other_deployment])
                  | _ => FetchData (BArray [other_deployment;
                                            sample_deployment;
                                            rebuilt_deployment])
                  end)
        (fun _ => AxResolved 200).

(** The commit never appears. *)
Definition env_empty_listings : Env :=
  mkEnv (fun _ => FetchData (BArray [])) (fun _ => AxResolved 200).

Definition live_deployment : Deployment :=
  mkDeployment "64f0" "docs" (JStr "abc123") (JStr "ready") JNull
               "https://main--docs.netlify.app".

Definition building_deployment : Deployment :=
  mkDeployment "64f0" "docs" (JStr "abc123") (JStr "building") JNull
               "https://main--docs.netlify.app".

(** The deployment endpoint keeps answering "building". *)
Definition env_building : Env :=
  mkEnv (fun _ => FetchData (BObject building_deployment))
        (fun _ => AxResolved 200).

(** The deployment endpoint never answers. *)
Definition env_unreachable_api : Env :=
  mkEnv (fun _ => FetchRejected) (fun _ => AxResolved 200).

(** The deployment is building at the first look and ready at the second. *)
Definition env_becomes_ready : Env :=
  mkEnv (fun k => match k with
                  | O => FetchData (BObject building_deployment)
                  | _ => FetchData (BObject live_deployment)
                  end)
        (fun _ => AxResolved 200).

(** No request to the site is ever answered. *)
Definition env_site_down : Env :=
  mkEnv (fun _ => FetchRejected) (fun _ => AxRejected (ErrResponse 503)).


(** The site answers the first request with 401. *)
Definition env_protected_site : Env :=
  mkEnv (fun _ => FetchRejected) (fun _ => AxRejected (ErrResponse 401)).

Definition skipped_deployment : Deployment :=
  mkDeployment "64f0" "docs" (JStr "abc123") (JStr "error")
               (JStr "Canceled build due to no content change")
               "https://main--docs.netlify.app".

Definition failed_deployment : Deployment :=
  mkDeployment "64f0" "docs" (JStr "abc123") (JStr "error")
               (JStr "build script failed")
               "https://main--docs.netlify.app".

Definition push_abc123 : Config :=
  mkConfig (JStr "token") (mkContext "push" JUndefined (JStr "abc123"))
           None "site-1".

(** The first listing holds [d]; the deployment endpoint answers [d]; every
    plain request is answered [r]. *)
Definition env_with (d : Deployment) (r : axios_result) : Env :=
  mkEnv (fun k => match k with
                  | O => FetchData (BArray [d])
                  | _ => FetchData (BObject d)
                  end)
        (fun _ => r).

(** The listing endpoint answers with an empty body. *)
Definition env_null_listing : Env :=
  mkEnv (fun _ => FetchData BNull) (fun _ => AxResolved 200).

(** * Vocabulary of the further properties *)

(** The answer has a falsy body. *)
Definition falsy_body (r : fetched) : bool :=
  match r with
  | FetchData BNull | FetchData BEmpty => true
  | _ => false
  end.

(** The first listing is empty, the second request is answered with an
    empty body. *)
Definition env_listing_then_null : Env :=
  mkEnv (fun k => match k with
                  | O => FetchData (BArray [])
                  | _ => FetchData BNull
                  end)
        (fun _ => AxResolved 200).

(** [m] raises the counter [count] by at most [n]. *)
Definition bounded {A} (count : World -> nat) (n : nat) (m : M A) : Prop :=
  forall w, (count (snd (m w)) <= count w + n)%nat.

(** The number of slots of the final probe. *)
Definition ready_slots (cfg : Config) : nat :=
  Z.to_nat (Qceiling (MAX_READY_TIMEOUT cfg / 3)).

(** The site fails twice, then answers. *)
Definition env_third_attempt : Env :=
  mkEnv (fun _ => FetchRejected)
        (fun k => match k with
                  | O | S O => AxRejected (ErrResponse 404)
                  | _ => AxResolved 200
                  end).

(** The failure reports on the trace of a world. *)
Definition failures (w : World) : nat :=
  List.length (filter is_failure (trace w)).

(** The listing never holds the commit and the site is up. *)
Definition env_never_created : Env :=
  mkEnv (fun _ => FetchData (BArray [])) (fun _ => AxResolved 200).

(** The commit's deployment is listed at once but keeps building. *)
Definition env_never_ready : Env :=
  mkEnv (fun k => match k with
                  | O => FetchData (BArray [building_deployment])
                  | _ => FetchData (BObject building_deployment)
                  end)
        (fun _ => AxResolved 200).

Definition unnamed_failure : Deployment :=
  mkDeployment "64f0" "docs" (JStr "abc123") (JStr "error") JUndefined
               "https://main--docs.netlify.app".

Definition no_token : Config :=
  mkConfig JUndefined (mkContext "push" JUndefined (JStr "abc123")) None
           "site-1".

(** The commit's deployment is listed at once, is ready at the second look,
    and the site answers with an authentication challenge. *)
Definition env_ready_protected : Env :=
  mkEnv (fun k => match k with
                  | O => FetchData (BArray [live_deployment])
                  | S O => FetchData (BObject building_deployment)
                  | _ => FetchData (BObject live_deployment)
                  end)
        (fun _ => AxRejected (ErrResponse 401)).

(** [q] is [p] up to the case of its letters. *)
Fixpoint ci_eq (p q : string) : bool :=
  match p, q with
  | EmptyString, EmptyString => true
  | String a p', String b q' =>
      Ascii.eqb (canonicalize a) (canonicalize b) && ci_eq p' q'
  | _, _ => false
  end.

(** The phrase of the matcher. *)
Definition skip_phrase : string := "canceled build due to no content change".

(** A negative probe budget is configured. *)
Definition negative_budget : Config :=
  mkConfig (JStr "token") (mkContext "push" JUndefined (JStr "abc123"))
           (Some (-1)%Q) "site-1".

(** * Properties *)

(** ** Traces *)

Lemma extends_refl P w : extends P w w.
Proof. exists []. now rewrite app_nil_r. Qed.

Lemma extends_trans P w1 w2 w3 :
  extends P w1 w2 -> extends P w2 w3 -> extends P w1 w3.
Proof.
  intros [e1 [H1 F1]] [e2 [H2 F2]]. exists (e1 ++ e2)%list. split.
  - now rewrite H2, H1, app_assoc.
  - now rewrite forallb_app, F1, F2.
Qed.

Lemma extends_one P w w' e :
  trace w' = (trace w ++ [e])%list -> P e = true -> extends P w w'.
Proof. intros H He. exists [e]. split; [exact H | simpl; now rewrite He]. Qed.

Lemma extends_weaken (P Q : event -> bool) w w' :
  (forall e, P e = true -> Q e = true) -> extends P w w' -> extends Q w w'.
Proof.
  intros HPQ [evs [H F]]. exists evs. split; [exact H|].
  rewrite forallb_forall in *. auto.
Qed.

Lemma extends_filter P Q w w' :
  (forall e, P e = true -> Q e = false) ->
  extends P w w' -> filter Q (trace w') = filter Q (trace w).
Proof.
  intros HPQ [evs [H F]]. rewrite H, filter_app.
  replace (filter Q evs) with (@nil event); [now rewrite app_nil_r|].
  symmetry. clear H. induction evs as [|e evs IH]; [reflexivity|].
  simpl in *. apply andb_true_iff in F. destruct F as [Fe F].
  rewrite (HPQ e Fe). now apply IH.
Qed.

(** ** The event loop *)

Lemma poll_settled {S} (settled : S -> bool) cb h fuel s w :
  settled s = true -> poll settled cb h fuel s w = (s, w).
Proof. intros H. destruct fuel; simpl; now rewrite H. Qed.

Lemma poll_fire {S} (settled : S -> bool) cb h fuel s w :
  settled s = false -> timer_active h w = true ->
  poll settled cb h (Datatypes.S fuel) s w =
  poll settled cb h fuel (fst (cb s w)) (snd (cb s w)).
Proof. intros H1 H2. simpl. rewrite H1, H2. now destruct (cb s w). Qed.

Lemma poll_preserves {S} (R : World -> World -> Prop) (settled : S -> bool)
      cb h :
  (forall w, R w w) ->
  (forall w1 w2 w3, R w1 w2 -> R w2 w3 -> R w1 w3) ->
  (forall s w, R w (snd (cb s w))) ->
  forall fuel s w, R w (snd (poll settled cb h fuel s w)).
Proof.
  intros Hrefl Htrans Hcb. induction fuel as [|fuel IH]; intros s w; simpl.
  - destruct (settled s); apply Hrefl.
  - destruct (settled s); [apply Hrefl|].
    destruct (timer_active h w); [|apply Hrefl].
    specialize (Hcb s w). destruct (cb s w) as [s' w']. simpl in Hcb.
    eapply Htrans; [exact Hcb | apply IH].
Qed.

Lemma timer_active_clear h w : timer_active h (clearInterval h w) = false.
Proof.
  unfold timer_active, clearInterval. simpl.
  induction (timers w) as [|x l IH]; [reflexivity|]. simpl.
  destruct (Nat.eqb x h) eqn:E; simpl; [exact IH|].
  rewrite Nat.eqb_sym, E. exact IH.
Qed.

Lemma timer_active_setInterval ms w :
  timer_active (fst (setInterval ms w)) (snd (setInterval ms w)) = true.
Proof. unfold timer_active, setInterval. simpl. now rewrite Nat.eqb_refl. Qed.

Lemma waiter_frame_refl url ms w : waiter_frame url ms w w.
Proof. split; [split; reflexivity | apply extends_refl]. Qed.

Lemma waiter_frame_trans url ms w1 w2 w3 :
  waiter_frame url ms w1 w2 -> waiter_frame url ms w2 w3 ->
  waiter_frame url ms w1 w3.
Proof.
  intros [[A1 B1] E1] [[A2 B2] E2]. split; [split; congruence|].
  eapply extends_trans; eassumption.
Qed.

Lemma waiter_frame_step url ms w w' e :
  site_calls w' = site_calls w -> interceptors w' = interceptors w ->
  trace w' = (trace w ++ [e])%list -> waiter_event url ms e = true ->
  waiter_frame url ms w w'.
Proof.
  intros A B T E. split; [split; assumption|]. eapply extends_one; eassumption.
Qed.

Ltac frame_step :=
  eapply waiter_frame_step;
  [reflexivity | reflexivity | reflexivity
   | simpl; try apply String.eqb_refl; reflexivity].

Lemma creation_callback_frame env url ms sha MAX h s w :
  waiter_frame url ms w (snd (Creation.callback env url sha MAX h s w)).
Proof.
  unfold Creation.callback.
  destruct (MAX <=? _); [simpl; frame_step|].
  unfold getNetlifyUrl.
  set (w1 := mkWorld _ _ _ _ _ _).
  assert (F1 : waiter_frame url ms w w1) by (subst w1; frame_step).
  destruct (api env (api_calls w)) as [|[| |l|d]]; simpl; try exact F1;
    try (eapply waiter_frame_trans; [exact F1 | frame_step]).
  destruct (Creation.find_commit sha l); simpl;
    (eapply waiter_frame_trans; [exact F1 | frame_step]).
Qed.

Lemma readiness_callback_frame env url ms MAX h s w :
  waiter_frame url ms w (snd (Readiness.callback env url MAX h s w)).
Proof.
  unfold Readiness.callback.
  destruct (MAX <=? _); [simpl; frame_step|].
  unfold getNetlifyUrl.
  set (w1 := mkWorld _ _ _ _ _ _).
  assert (F1 : waiter_frame url ms w w1) by (subst w1; frame_step).
  destruct (api env (api_calls w)) as [|b]; cbv beta iota;
    [cbn [snd]; eapply waiter_frame_trans; [exact F1 | frame_step]|].
  destruct (Readiness.state_of b) as [st|];
    [|cbn [snd]; eapply waiter_frame_trans; [exact F1 | frame_step]].
  destruct (includes READY_STATES st); cbn [snd];
    (eapply waiter_frame_trans; [exact F1 | frame_step]).
Qed.

Lemma waitForDeployCreation_frame env url sha MAX w :
  waiter_frame url 15000 w (snd (waitForDeployCreation env url sha MAX w)).
Proof.
  unfold waitForDeployCreation, Creation.start.
  set (w1 := snd (setInterval (Creation.increment * 1000) w)).
  assert (F1 : waiter_frame url 15000 w w1) by (subst w1; frame_step).
  change (setInterval (Creation.increment * 1000) w)
    with (next_handle w, w1).
  cbv beta iota.
  pose proof (poll_preserves (waiter_frame url 15000) Creation.settled
                (Creation.callback env url sha MAX (next_handle w))
                (next_handle w) (waiter_frame_refl url 15000)
                (waiter_frame_trans url 15000)
                (creation_callback_frame env url 15000 sha MAX (next_handle w))
                (Creation.ticks_bound MAX) Creation.initial w1) as F2.
  destruct (poll _ _ _ _ _ _) as [s w2]. simpl in F2.
  assert (F : waiter_frame url _ w w2)
    by (eapply waiter_frame_trans; eassumption).
  destruct (Creation.promise s) as [[d|r]|]; simpl; exact F.
Qed.

Lemma waitForReadiness_frame env url MAX w :
  waiter_frame url 30000 w (snd (waitForReadiness env url MAX w)).
Proof.
  unfold waitForReadiness, Readiness.start.
  set (w1 := snd (setInterval (Readiness.increment * 1000) w)).
  assert (F1 : waiter_frame url 30000 w w1) by (subst w1; frame_step).
  change (setInterval (Readiness.increment * 1000) w)
    with (next_handle w, w1).
  cbv beta iota.
  pose proof (poll_preserves (waiter_frame url 30000) Readiness.settled
                (Readiness.callback env url MAX (next_handle w))
                (next_handle w) (waiter_frame_refl url 30000)
                (waiter_frame_trans url 30000)
                (readiness_callback_frame env url 30000 MAX (next_handle w))
                (Readiness.ticks_bound MAX) Readiness.initial w1) as F2.
  destruct (poll _ _ _ _ _ _) as [s w2]. simpl in F2.
  assert (F : waiter_frame url _ w w2)
    by (eapply waiter_frame_trans; eassumption).
  destruct (Readiness.promise s) as [[d|r]|]; simpl; exact F.
Qed.

(** ** The creation waiter *)

Lemma strict_eq_spec a b : strict_eq a b = true <-> a = b.
Proof.
  destruct a as [| |s|n], b as [| |t|m]; cbn; split; intros H;
    try discriminate; try reflexivity.
  - apply String.eqb_eq in H. now subst.
  - injection H as ->. apply String.eqb_refl.
  - apply Z.eqb_eq in H. now subst.
  - injection H as ->. apply Z.eqb_refl.
Qed.

Lemma find_commit_none sha l :
  (forall x, In x l -> commit_ref x <> sha) ->
  Creation.find_commit sha l = None.
Proof.
  unfold Creation.find_commit. induction l as [|x l IH]; intros H;
    [reflexivity|].
  cbn [find]. destruct (strict_eq (commit_ref x) sha) eqn:E.
  - apply strict_eq_spec in E. now destruct (H x (or_introl eq_refl)).
  - apply IH. intros y Hy. apply H. now right.
Qed.

(** [find] yields the first record of the commit. *)
Lemma find_commit_first sha l d :
  Creation.find_commit sha l = Some d <-> first_with_commit sha l d.
Proof.
  unfold Creation.find_commit, first_with_commit. split.
  - induction l as [|x l IH]; cbn [find]; [discriminate|].
    destruct (strict_eq (commit_ref x) sha) eqn:E.
    + intros [= ->]. exists [], l. apply strict_eq_spec in E.
      split; [reflexivity|]. split; [exact E|]. intros y [].
    + intros H. destruct (IH H) as [l1 [l2 [El [Ed Hn]]]].
      exists (x :: l1), l2. split; [now rewrite El|]. split; [exact Ed|].
      intros y [<-|Hy]; [|now apply Hn].
      intros C. apply strict_eq_spec in C. congruence.
  - intros [l1 [l2 [-> [Ed Hn]]]]. induction l1 as [|x l1 IH]; cbn [app find].
    + apply strict_eq_spec in Ed. now rewrite Ed.
    + destruct (strict_eq (commit_ref x) sha) eqn:E.
      * apply strict_eq_spec in E. now destruct (Hn x (or_introl eq_refl)).
      * apply IH. intros y Hy. apply Hn. now right.
Qed.

Lemma without_commit_listing sha r :
  without_commit sha r -> listing_without sha r = true.
Proof.
  intros [l [-> H]]. cbn. now rewrite find_commit_none.
Qed.

Lemma first_with_commit_match sha r l d :
  r = FetchData (BArray l) -> first_with_commit sha l d ->
  match_in sha r = Some d.
Proof. intros -> H. cbn. now apply find_commit_first. Qed.

Section CreationTicks.

Variables (env : Env) (url : string) (sha : jsval) (MAX : Z) (h : nat).

Local Abbreviation cb := (Creation.callback env url sha MAX h).

Lemma creation_tick_timeout s w :
  MAX <= Creation.elapsedTimeSeconds s + 15 ->
  cb s w =
  (Creation.mkSession (Creation.elapsedTimeSeconds s + 15)
     (settle (Creation.promise s)
             (RejectedWith (Creation.timeout_message MAX))),
   clearInterval h w).
Proof.
  intros H. unfold Creation.callback, Creation.increment.
  apply Z.leb_le in H. now rewrite H.
Qed.

Lemma creation_tick_without s w :
  Creation.elapsedTimeSeconds s + 15 < MAX ->
  listing_without sha (api env (api_calls w)) = true ->
  cb s w =
  (Creation.mkSession (Creation.elapsedTimeSeconds s + 15) (Creation.promise s),
   emit (ConsoleLog Creation.log_message) (snd (getNetlifyUrl env url w))).
Proof.
  intros H L. unfold Creation.callback, Creation.increment.
  apply Z.leb_gt in H. rewrite H. unfold getNetlifyUrl, listing_without in *.
  destruct (api env (api_calls w)) as [|[| |l|d]]; try discriminate.
  now destruct (Creation.find_commit sha l).
Qed.

Lemma creation_tick_match s w d :
  Creation.elapsedTimeSeconds s + 15 < MAX ->
  match_in sha (api env (api_calls w)) = Some d ->
  cb s w =
  (Creation.mkSession (Creation.elapsedTimeSeconds s + 15)
     (settle (Creation.promise s) (Fulfilled d)),
   clearInterval h (snd (getNetlifyUrl env url w))).
Proof.
  intros H L. unfold Creation.callback, Creation.increment.
  apply Z.leb_gt in H. rewrite H. unfold getNetlifyUrl, match_in in *.
  destruct (api env (api_calls w)) as [|[| |l|d']]; try discriminate.
  now rewrite L.
Qed.

(** A firing that reads neither a listing nor a falsy body ends the
    process. *)
Lemma creation_tick_unreadable s w :
  Creation.elapsedTimeSeconds s + 15 < MAX ->
  listing_or_falsy (api env (api_calls w)) = false ->
  cb s w =
  (Creation.mkSession (Creation.elapsedTimeSeconds s + 15) (Creation.promise s),
   unhandled_rejection (snd (getNetlifyUrl env url w))).
Proof.
  intros H A. unfold Creation.callback, Creation.increment.
  apply Z.leb_gt in H. rewrite H. unfold getNetlifyUrl, listing_or_falsy in *.
  destruct (api env (api_calls w)) as [|[| |l|d]]; try discriminate;
    reflexivity.
Qed.

(** The first listing with a record of the commit, reached within budget,
    settles the promise with that record and cancels the timer. *)
Lemma creation_poll_resolves d :
  forall k fuel e w,
    (k < fuel)%nat ->
    timer_active h w = true ->
    e + 15 * (Z.of_nat k + 1) < MAX ->
    (forall j, (j < k)%nat ->
               listing_without sha (api env (api_calls w + j)) = true) ->
    match_in sha (api env (api_calls w + k)) = Some d ->
    let r := poll Creation.settled cb h fuel (Creation.mkSession e None) w in
    Creation.promise (fst r) = Some (Fulfilled d)
    /\ timer_active h (snd r) = false
    /\ api_calls (snd r) = (api_calls w + k + 1)%nat.
Proof.
  induction k as [|k IH]; intros fuel e w Hf Ha He Hw Hm;
    (destruct fuel as [|fuel]; [lia|]);
    rewrite poll_fire by (reflexivity || assumption).
  - rewrite Nat.add_0_r in Hm.
    rewrite (creation_tick_match _ _ d) by (simpl; lia || assumption).
    cbn [fst snd]. rewrite poll_settled by reflexivity. cbn [fst snd].
    split; [reflexivity|]. split; [apply timer_active_clear|].
    simpl. lia.
  - rewrite creation_tick_without;
      [| simpl; lia | rewrite <- (Nat.add_0_r (api_calls w)); apply Hw; lia].
    cbn [fst snd Creation.elapsedTimeSeconds Creation.promise].
    set (w' := emit _ _).
    assert (Hc : api_calls w' = S (api_calls w)) by reflexivity.
    destruct (IH fuel (e + 15) w') as [I1 [I2 I3]].
    + lia.
    + exact Ha.
    + lia.
    + intros j Hj. rewrite Hc. replace (S (api_calls w) + j)%nat
        with (api_calls w + S j)%nat by lia. apply Hw. lia.
    + rewrite Hc. replace (S (api_calls w) + k)%nat
        with (api_calls w + S k)%nat by lia. exact Hm.
    + cbn zeta. split; [exact I1|]. split; [exact I2|]. rewrite I3, Hc. lia.
Qed.

(** Without a record of the commit in any listing fetched, the tick at
    which the elapsed time reaches the budget rejects and cancels. *)
Lemma creation_poll_times_out :
  forall fuel e w,
    timer_active h w = true ->
    (Z.to_nat ((MAX - e - 1) / 15) < fuel)%nat ->
    (forall j, e + 15 * (Z.of_nat j + 1) < MAX ->
               listing_without sha (api env (api_calls w + j)) = true) ->
    let r := poll Creation.settled cb h fuel (Creation.mkSession e None) w in
    Creation.promise (fst r)
    = Some (RejectedWith (Creation.timeout_message MAX))
    /\ timer_active h (snd r) = false.
Proof.
  induction fuel as [|fuel IH]; intros e w Ha Hf Hw; [lia|].
  rewrite poll_fire by (reflexivity || assumption).
  destruct (Z_le_gt_dec MAX (e + 15)) as [Hto|Hin].
  - rewrite creation_tick_timeout by (simpl; lia).
    cbn [fst snd]. rewrite poll_settled by reflexivity. cbn [fst snd].
    split; [reflexivity | apply timer_active_clear].
  - rewrite creation_tick_without;
      [| simpl; lia
       | rewrite <- (Nat.add_0_r (api_calls w)); apply Hw; simpl; lia].
    cbn [fst snd Creation.elapsedTimeSeconds Creation.promise].
    set (w' := emit _ _).
    assert (Hc : api_calls w' = S (api_calls w)) by reflexivity.
    apply IH.
    + exact Ha.
    + assert ((MAX - e - 1) / 15 = (MAX - (e + 15) - 1) / 15 + 1) as E.
      { replace (MAX - e - 1) with ((MAX - (e + 15) - 1) + 1 * 15) by lia.
        rewrite Z.div_add by lia. reflexivity. }
      assert (0 <= (MAX - (e + 15) - 1) / 15)
        by (apply Z.div_pos; lia).
      lia.
    + intros j Hj. rewrite Hc. replace (S (api_calls w) + j)%nat
        with (api_calls w + S j)%nat by lia. apply Hw. lia.
Qed.

(** What one firing of the callback does to an unsettled session. *)
Lemma creation_callback_cases s w :
  Creation.promise s = None ->
  (MAX <= Creation.elapsedTimeSeconds s + 15
   /\ Creation.promise (fst (cb s w))
      = Some (RejectedWith (Creation.timeout_message MAX))
   /\ api_calls (snd (cb s w)) = api_calls w)
  \/ (Creation.elapsedTimeSeconds s + 15 < MAX
      /\ api_calls (snd (cb s w)) = S (api_calls w)
      /\ (Creation.promise (fst (cb s w)) = None
          \/ Creation.promise (fst (cb s w))
             = Some (RejectedWith Creation.not_found_message)
          \/ exists d l,
              Creation.promise (fst (cb s w)) = Some (Fulfilled d)
              /\ api env (api_calls w) = FetchData (BArray l)
              /\ Creation.find_commit sha l = Some d)).
Proof.
  intros Hp. unfold Creation.callback, Creation.increment. rewrite Hp.
  destruct (MAX <=? Creation.elapsedTimeSeconds s + 15) eqn:E.
  - left. apply Z.leb_le in E. split; [exact E|]. split; reflexivity.
  - right. apply Z.leb_gt in E. split; [exact E|].
    unfold getNetlifyUrl.
    destruct (api env (api_calls w)) as [|[| |l|d]] eqn:Ea;
      cbn [fst snd Creation.promise settle api_calls unhandled_rejection];
      try (split; [reflexivity|]; now auto).
    destruct (Creation.find_commit sha l) as [d|] eqn:Ef;
      cbn [fst snd Creation.promise settle];
      (split; [reflexivity|]); [|now left].
    right. right. exists d, l. auto.
Qed.

End CreationTicks.

Lemma creation_callback_elapsed env url sha MAX h s w :
  Creation.elapsedTimeSeconds (fst (Creation.callback env url sha MAX h s w))
  = Creation.elapsedTimeSeconds s + 15.
Proof.
  unfold Creation.callback, Creation.increment.
  destruct (MAX <=? _); [reflexivity|].
  unfold getNetlifyUrl.
  destruct (api env (api_calls w)) as [|[| |l|d]]; try reflexivity.
  now destruct (Creation.find_commit sha l).
Qed.

(** How a settled creation promise came about. *)
Lemma creation_poll_outcome env url sha MAX h :
  forall fuel s w,
    Creation.promise s = None ->
    match Creation.promise
            (fst (poll Creation.settled (Creation.callback env url sha MAX h)
                       h fuel s w)) with
    | None => True
    | Some (Fulfilled d) =>
        exists k l,
          Creation.elapsedTimeSeconds s + 15 * (Z.of_nat k + 1) < MAX
          /\ api env (api_calls w + k) = FetchData (BArray l)
          /\ Creation.find_commit sha l = Some d
    | Some (RejectedWith reason) =>
        reason = Creation.not_found_message
        \/ reason = Creation.timeout_message MAX
    end.
Proof.
  induction fuel as [|fuel IH]; intros s w Hp.
  - cbn. unfold Creation.settled. rewrite Hp. cbn. now rewrite Hp.
  - assert (Hs : Creation.settled s = false)
      by (unfold Creation.settled; now rewrite Hp).
    destruct (timer_active h w) eqn:Ha;
      [|cbn [poll]; rewrite Hs, Ha; cbn [fst]; now rewrite Hp].
    rewrite poll_fire by assumption.
    pose proof (creation_callback_elapsed env url sha MAX h s w) as He.
    destruct (creation_callback_cases env url sha MAX h s w Hp)
      as [[Hto [Hr _]]|[Hin [Hc [Hn|[Hr|[d [l [Hr [Hl Hf]]]]]]]]].
    + rewrite poll_settled by (unfold Creation.settled; now rewrite Hr).
      cbn [fst]. rewrite Hr. now right.
    + specialize (IH _ (snd (Creation.callback env url sha MAX h s w)) Hn).
      destruct (Creation.promise (fst (poll _ _ _ _ _ _))) as [[d|r]|];
        [|exact IH | exact I].
      destruct IH as [k [l [Hk [Hl Hi]]]].
      exists (S k), l. rewrite He in Hk. rewrite Hc in Hl.
      split; [lia|]. split; [|exact Hi].
      now replace (api_calls w + S k)%nat with (S (api_calls w) + k)%nat by lia.
    + rewrite poll_settled by (unfold Creation.settled; now rewrite Hr).
      cbn [fst]. rewrite Hr. now left.
    + rewrite poll_settled by (unfold Creation.settled; now rewrite Hr).
      cbn [fst]. rewrite Hr.
      exists O, l. rewrite Nat.add_0_r. split; [lia|]. now split.
Qed.

Lemma creation_start_shape env url sha MAX w :
  Creation.start env url sha MAX w =
  (next_handle w,
   fst (poll Creation.settled
             (Creation.callback env url sha MAX (next_handle w))
             (next_handle w) (Creation.ticks_bound MAX) Creation.initial
             (snd (setInterval 15000 w))),
   snd (poll Creation.settled
             (Creation.callback env url sha MAX (next_handle w))
             (next_handle w) (Creation.ticks_bound MAX) Creation.initial
             (snd (setInterval 15000 w)))).
Proof.
  unfold Creation.start.
  change (setInterval (Creation.increment * 1000) w)
    with (next_handle w, snd (setInterval 15000 w)).
  cbv beta iota. now destruct (poll _ _ _ _ _ _).
Qed.

Lemma await_world {A} (p : option (settlement A)) w : snd (await p w) = w.
Proof. now destruct p as [[a|r]|]. Qed.

Lemma waitForDeployCreation_unfold env url sha MAX w :
  waitForDeployCreation env url sha MAX w =
  let r := poll Creation.settled
                (Creation.callback env url sha MAX (next_handle w))
                (next_handle w) (Creation.ticks_bound MAX) Creation.initial
                (snd (setInterval 15000 w)) in
  await (Creation.promise (fst r)) (snd r).
Proof.
  unfold waitForDeployCreation. now rewrite creation_start_shape.
Qed.

Lemma creation_ticks_bound_enough MAX :
  (Z.to_nat ((MAX - 0 - 1) / 15) < Creation.ticks_bound MAX)%nat.
Proof.
  unfold Creation.ticks_bound, Creation.increment.
  assert ((MAX - 0 - 1) / 15 <= MAX / 15) by (apply Z.div_le_mono; lia).
  lia.
Qed.

(** The record a resolved creation wait yields. *)
Lemma waitForDeployCreation_resolved env url sha MAX w d :
  fst (waitForDeployCreation env url sha MAX w) = Normal d ->
  exists k l,
    15 * (Z.of_nat k + 1) < MAX
    /\ api env (api_calls w + k) = FetchData (BArray l)
    /\ Creation.find_commit sha l = Some d.
Proof.
  rewrite waitForDeployCreation_unfold. cbv zeta.
  pose proof (creation_poll_outcome env url sha MAX (next_handle w)
                (Creation.ticks_bound MAX) Creation.initial
                (snd (setInterval 15000 w)) eq_refl) as H.
  destruct (Creation.promise _) as [[d'|r]|]; cbn [await fst ret throw];
    intros E; try discriminate.
  injection E as ->. destruct H as [k [l [Hk [Hl Hf]]]]. exists k, l.
  cbn [Creation.initial Creation.elapsedTimeSeconds setInterval snd
                        api_calls] in Hk, Hl.
  split; [lia|]. now split.
Qed.

(** C4. The creation waiter registers its callback at a 15-unit interval and
    each tick adds 15 to the elapsed time.  When the listings fetched before
    tick [k+1] hold no record whose commit reference is the target, the
    listing of that tick holds one, and that tick falls before the budget,
    the waiter resolves with the first such record of that listing.  A
    waiter that resolves yields a record whose commit reference is the
    target, a member (the first such) of a listing fetched before the
    budget; so without a matching record it never resolves.  When no listing
    fetched within the budget holds a matching record, it rejects with the
    timeout message, which prints the budget.  A tick whose elapsed time has
    reached the budget rejects and cancels without fetching: the timeout
    test comes first. *)
Theorem creation_waiter_contract
        (env : Env) (url : string) (sha : jsval) (MAX : Z) (w : World) :
  (exists evs,
      trace (snd (waitForDeployCreation env url sha MAX w))
      = (trace w ++ SetInterval (next_handle w) (15 * 1000) :: evs)%list)
  /\ (forall h s w0,
         Creation.elapsedTimeSeconds
           (fst (Creation.callback env url sha MAX h s w0))
         = Creation.elapsedTimeSeconds s + 15)
  /\ (forall k l d,
         15 * (Z.of_nat k + 1) < MAX ->
         (forall j, (j < k)%nat ->
                    without_commit sha (api env (api_calls w + j))) ->
         api env (api_calls w + k) = FetchData (BArray l) ->
         first_with_commit sha l d ->
         fst (waitForDeployCreation env url sha MAX w) = Normal d)
  /\ (forall d,
         fst (waitForDeployCreation env url sha MAX w) = Normal d ->
         commit_ref d = sha
         /\ exists k l,
             15 * (Z.of_nat k + 1) < MAX
             /\ api env (api_calls w + k) = FetchData (BArray l)
             /\ In d l
             /\ first_with_commit sha l d)
  /\ (Z.abs MAX < 10 ^ 21 ->
      (forall j, 15 * (Z.of_nat j + 1) < MAX ->
                 without_commit sha (api env (api_calls w + j))) ->
      fst (waitForDeployCreation env url sha MAX w)
      = Throw (ThrownStr
                 ("Timeout reached: Deployment was not created within "
                    ++ string_of_Z MAX ++ " seconds.")))
  /\ (forall h s w0,
         MAX <= Creation.elapsedTimeSeconds s + 15 ->
         Creation.promise s = None ->
         Creation.callback env url sha MAX h s w0
         = (Creation.mkSession
              (Creation.elapsedTimeSeconds s + 15)
              (Some (RejectedWith (Creation.timeout_message MAX))),
            clearInterval h w0)).
Proof.
  split; [|split; [|split; [|split; [|split]]]].
  - rewrite waitForDeployCreation_unfold. cbv zeta. rewrite await_world.
    destruct (poll_preserves (extends (waiter_event url 15000))
                Creation.settled
                (Creation.callback env url sha MAX (next_handle w))
                (next_handle w) (extends_refl _) (extends_trans _)
                (fun s w0 => proj2 (creation_callback_frame
                                      env url 15000 sha MAX (next_handle w)
                                      s w0))
                (Creation.ticks_bound MAX) Creation.initial
                (snd (setInterval 15000 w))) as [evs [E _]].
    exists evs. rewrite E. simpl. now rewrite <- app_assoc.
  - intros h s w0. apply creation_callback_elapsed.
  - intros k l d Hk Hw Hl Hd. rewrite waitForDeployCreation_unfold. cbv zeta.
    destruct (creation_poll_resolves env url sha MAX (next_handle w) d k
                (Creation.ticks_bound MAX) 0 (snd (setInterval 15000 w)))
      as [P _].
    + unfold Creation.ticks_bound, Creation.increment.
      assert (Z.of_nat k + 1 <= MAX / 15)
        by (apply Z.div_le_lower_bound; lia).
      lia.
    + apply timer_active_setInterval.
    + lia.
    + intros j Hj. apply without_commit_listing. now apply Hw.
    + now apply (first_with_commit_match sha _ l).
    + unfold Creation.initial. rewrite P. reflexivity.
  - intros d Hd.
    destruct (waitForDeployCreation_resolved env url sha MAX w d Hd)
      as [k [l [Hk [Hl Hf]]]].
    apply find_commit_first in Hf.
    assert (Hc : commit_ref d = sha)
      by (destruct Hf as [l1 [l2 [_ [Hc _]]]]; exact Hc).
    split; [exact Hc|]. exists k, l.
    split; [exact Hk|]. split; [exact Hl|]. split; [|exact Hf].
    destruct Hf as [l1 [l2 [-> _]]]. apply in_app_iff. right. now left.
  - intros _ Hw. rewrite waitForDeployCreation_unfold. cbv zeta.
    destruct (creation_poll_times_out env url sha MAX (next_handle w)
                (Creation.ticks_bound MAX) 0 (snd (setInterval 15000 w)))
      as [P _].
    + apply timer_active_setInterval.
    + apply creation_ticks_bound_enough.
    + intros j Hj. apply without_commit_listing. apply Hw. lia.
    + unfold Creation.initial. rewrite P. reflexivity.
  - intros h s w0 Ht Hp. rewrite creation_tick_timeout by exact Ht.
    now rewrite Hp.
Qed.

Lemma creation_waiter_contract_witness :
  fst (waitForDeployCreation env_busy_listing "deploys" (JStr "abc123") 300
                             initial_world)
  = Normal sample_deployment
  /\ fst (waitForDeployCreation env_empty_listings "deploys" (JStr "abc123")
                                300 initial_world)
     = Throw (ThrownStr
                "Timeout reached: Deployment was not created within 300 seconds.")
  /\ Creation.callback env_busy_listing "deploys" (JStr "abc123") 300 0
                       (Creation.mkSession 285 None) initial_world
     = (Creation.mkSession 300
          (Some (RejectedWith (Creation.timeout_message 300))),
        clearInterval 0 initial_world).
Proof.
  split; [|split].
  - apply (proj1 (proj2 (proj2 (creation_waiter_contract
                                  env_busy_listing "deploys" (JStr "abc123")
                                  300 initial_world)))
                 1%nat
                 [other_deployment; sample_deployment; rebuilt_deployment]
                 sample_deployment).
    + reflexivity.
    + intros [|j] Hj; [|lia]. exists [other_deployment].
      split; [reflexivity|]. intros x [<-|[]]. discriminate.
    + reflexivity.
    + exists [other_deployment], [rebuilt_deployment].
      split; [reflexivity|]. split; [reflexivity|].
      intros x [<-|[]]. discriminate.
  - apply (proj1 (proj2 (proj2 (proj2 (proj2 (creation_waiter_contract
                                  env_empty_listings "deploys" (JStr "abc123")
                                  300 initial_world)))))).
    + reflexivity.
    + intros j _. exists []. split; [reflexivity|]. intros x [].
  - apply (proj2 (proj2 (proj2 (proj2 (proj2 (creation_waiter_contract
                                  env_busy_listing "deploys" (JStr "abc123")
                                  300 initial_world)))))).
    + discriminate.
    + reflexivity.
Defined.

(** ** The readiness waiter *)

Lemma ready_states_spec st :
  includes READY_STATES st = true
  <-> st = JStr "ready" \/ st = JStr "current" \/ st = JStr "error".
Proof.
  unfold includes, READY_STATES. cbn [existsb]. rewrite !orb_true_iff.
  split.
  - intros [H|[H|[H|H]]]; try discriminate;
      destruct st as [| |s|n]; try discriminate; cbn [strict_eq] in H;
        apply String.eqb_eq in H; subst; auto.
  - intros [H|[H|H]]; subst; cbn; auto.
Qed.

Lemma first_true (f : nat -> bool) (n : nat) :
  (exists k, (k < n)%nat /\ f k = true
             /\ forall j, (j < k)%nat -> f j = false)
  \/ (forall j, (j < n)%nat -> f j = false).
Proof.
  induction n as [|n [[k [Hk [Hf Hb]]]|Hn]].
  - right. intros j Hj. lia.
  - left. exists k. repeat split; auto.
  - destruct (f n) eqn:E.
    + left. exists n. repeat split; auto.
    + right. intros j Hj. destruct (Nat.eq_dec j n); [now subst|].
      apply Hn. lia.
Qed.

(** Tick [j+1] falls before the budget. *)
Lemma within_budget_iff (inc MAX : Z) (j : nat) :
  0 < inc ->
  inc * (Z.of_nat j + 1) < MAX <-> (j < Z.to_nat ((MAX - 1) / inc))%nat.
Proof.
  intros Hinc. split; intros H.
  - assert (Z.of_nat j + 1 <= (MAX - 1) / inc)
      by (apply Z.div_le_lower_bound; lia).
    lia.
  - assert (Z.of_nat j + 1 <= (MAX - 1) / inc) as H1 by lia.
    assert (inc * ((MAX - 1) / inc) <= MAX - 1)
      by (apply Z.mul_div_le; lia).
    nia.
Qed.

(** Ticks left before the budget, [inc] units a tick. *)
Lemma ticks_left_step (MAX e inc : Z) :
  0 < inc -> e + inc < MAX ->
  Z.to_nat ((MAX - e - 1) / inc)
  = S (Z.to_nat ((MAX - (e + inc) - 1) / inc)).
Proof.
  intros Hi H.
  assert ((MAX - e - 1) / inc = (MAX - (e + inc) - 1) / inc + 1) as E.
  { replace (MAX - e - 1) with ((MAX - (e + inc) - 1) + 1 * inc) by lia.
    rewrite Z.div_add by lia. reflexivity. }
  assert (0 <= (MAX - (e + inc) - 1) / inc) by (apply Z.div_pos; lia).
  lia.
Qed.

Lemma ticks_left_mono (MAX e inc : Z) :
  0 < inc ->
  (Z.to_nat ((MAX - (e + inc) - 1) / inc) <= Z.to_nat ((MAX - e - 1) / inc))%nat.
Proof.
  intros Hi.
  assert ((MAX - (e + inc) - 1) / inc <= (MAX - e - 1) / inc)
    by (apply Z.div_le_mono; lia).
  lia.
Qed.

Section ReadinessTicks.

Variables (env : Env) (url : string) (MAX : Z) (h : nat).

Local Abbreviation cb := (Readiness.callback env url MAX h).

Lemma readiness_tick_timeout s w :
  MAX <= Readiness.elapsedTimeSeconds s + 30 ->
  cb s w =
  (Readiness.mkSession (Readiness.elapsedTimeSeconds s + 30)
     (Readiness.state s)
     (settle (Readiness.promise s)
             (RejectedWith
                (Readiness.timeout_message MAX (Readiness.state s)))),
   clearInterval h w).
Proof.
  intros H. unfold Readiness.callback, Readiness.increment.
  apply Z.leb_le in H. now rewrite H.
Qed.

Lemma readiness_tick_ready s w :
  Readiness.elapsedTimeSeconds s + 30 < MAX ->
  ready_answer (api env (api_calls w)) = true ->
  cb s w =
  (Readiness.mkSession (Readiness.elapsedTimeSeconds s + 30)
     (observe (Readiness.state s) (api env (api_calls w)))
     (settle (Readiness.promise s) (Fulfilled tt)),
   clearInterval h (snd (getNetlifyUrl env url w))).
Proof.
  intros H R. unfold Readiness.callback, Readiness.increment.
  apply Z.leb_gt in H. rewrite H. unfold getNetlifyUrl, ready_answer in *.
  destruct (api env (api_calls w)) as [|[| |l|d]]; try discriminate.
  cbn [Readiness.state_of observe]. now rewrite R.
Qed.

Lemma readiness_tick_waiting s w :
  Readiness.elapsedTimeSeconds s + 30 < MAX ->
  ready_answer (api env (api_calls w)) = false ->
  readable (api env (api_calls w)) = true ->
  cb s w =
  (Readiness.mkSession (Readiness.elapsedTimeSeconds s + 30)
     (observe (Readiness.state s) (api env (api_calls w)))
     (Readiness.promise s),
   emit (ConsoleLog Readiness.log_message) (snd (getNetlifyUrl env url w))).
Proof.
  intros H R A. unfold Readiness.callback, Readiness.increment.
  apply Z.leb_gt in H. rewrite H.
  unfold getNetlifyUrl, ready_answer, readable in *.
  destruct (api env (api_calls w)) as [|[| |l|d]]; try discriminate;
    cbn [Readiness.state_of observe]; try reflexivity.
  now rewrite R.
Qed.

(** A firing that reads an unreadable answer ends the process. *)
Lemma readiness_tick_unreadable s w :
  Readiness.elapsedTimeSeconds s + 30 < MAX ->
  readable (api env (api_calls w)) = false ->
  cb s w =
  (Readiness.mkSession (Readiness.elapsedTimeSeconds s + 30)
     (Readiness.state s) (Readiness.promise s),
   unhandled_rejection (snd (getNetlifyUrl env url w))).
Proof.
  intros H A. unfold Readiness.callback, Readiness.increment.
  apply Z.leb_gt in H. rewrite H. unfold getNetlifyUrl, readable in *.
  destruct (api env (api_calls w)) as [|[| |l|d]]; try discriminate;
    reflexivity.
Qed.

Lemma readiness_poll_resolves :
  forall k fuel e st w,
    (k < fuel)%nat ->
    timer_active h w = true ->
    e + 30 * (Z.of_nat k + 1) < MAX ->
    (forall j, (j < k)%nat ->
               ready_answer (api env (api_calls w + j)) = false
               /\ readable (api env (api_calls w + j)) = true) ->
    ready_answer (api env (api_calls w + k)) = true ->
    let r := poll Readiness.settled cb h fuel
                  (Readiness.mkSession e st None) w in
    Readiness.promise (fst r) = Some (Fulfilled tt)
    /\ timer_active h (snd r) = false.
Proof.
  induction k as [|k IH]; intros fuel e st w Hf Ha He Hw Hm;
    (destruct fuel as [|fuel]; [lia|]);
    rewrite poll_fire by (reflexivity || assumption).
  - rewrite Nat.add_0_r in Hm.
    rewrite readiness_tick_ready by (simpl; lia || assumption).
    cbn [fst snd]. rewrite poll_settled by reflexivity. cbn [fst snd].
    split; [reflexivity | apply timer_active_clear].
  - destruct (Hw O ltac:(lia)) as [W1 W2]. rewrite Nat.add_0_r in W1, W2.
    rewrite readiness_tick_waiting by (simpl; lia || assumption).
    cbn [fst snd Readiness.elapsedTimeSeconds Readiness.state
             Readiness.promise].
    set (w' := emit _ _).
    assert (Hc : api_calls w' = S (api_calls w)) by reflexivity.
    apply IH.
    + lia.
    + exact Ha.
    + lia.
    + intros j Hj. rewrite Hc. replace (S (api_calls w) + j)%nat
        with (api_calls w + S j)%nat by lia. apply Hw. lia.
    + rewrite Hc. replace (S (api_calls w) + k)%nat
        with (api_calls w + S k)%nat by lia. exact Hm.
Qed.

Lemma readiness_poll_times_out :
  forall fuel e st w,
    timer_active h w = true ->
    (Z.to_nat ((MAX - e - 1) / 30) < fuel)%nat ->
    (forall j, e + 30 * (Z.of_nat j + 1) < MAX ->
               ready_answer (api env (api_calls w + j)) = false
               /\ readable (api env (api_calls w + j)) = true) ->
    let r := poll Readiness.settled cb h fuel
                  (Readiness.mkSession e st None) w in
    Readiness.promise (fst r)
    = Some (RejectedWith
              (Readiness.timeout_message MAX
                 (last_observed env (api_calls w)
                                (Z.to_nat ((MAX - e - 1) / 30)) st)))
    /\ timer_active h (snd r) = false.
Proof.
  induction fuel as [|fuel IH]; intros e st w Ha Hf Hw; [lia|].
  rewrite poll_fire by (reflexivity || assumption).
  destruct (Z_le_gt_dec MAX (e + 30)) as [Hto|Hin].
  - rewrite readiness_tick_timeout by (simpl; lia).
    cbn [fst snd]. rewrite poll_settled by reflexivity. cbn [fst snd].
    assert ((MAX - e - 1) / 30 < 1)
      by (apply Z.div_lt_upper_bound; lia).
    replace (Z.to_nat ((MAX - e - 1) / 30)) with O by lia.
    split; [reflexivity | apply timer_active_clear].
  - destruct (Hw O ltac:(simpl; lia)) as [W1 W2].
    rewrite Nat.add_0_r in W1, W2.
    rewrite readiness_tick_waiting by (simpl; lia || assumption).
    cbn [fst snd Readiness.elapsedTimeSeconds Readiness.state
             Readiness.promise].
    set (w' := emit _ _).
    assert (Hc : api_calls w' = S (api_calls w)) by reflexivity.
    assert ((MAX - e - 1) / 30 = (MAX - (e + 30) - 1) / 30 + 1) as E.
    { replace (MAX - e - 1) with ((MAX - (e + 30) - 1) + 1 * 30) by lia.
      rewrite Z.div_add by lia. reflexivity. }
    assert (0 <= (MAX - (e + 30) - 1) / 30) by (apply Z.div_pos; lia).
    replace (Z.to_nat ((MAX - e - 1) / 30))
      with (S (Z.to_nat ((MAX - (e + 30) - 1) / 30))) by lia.
    cbn [last_observed]. rewrite <- Hc.
    apply IH.
    + exact Ha.
    + lia.
    + intros j Hj. rewrite Hc. replace (S (api_calls w) + j)%nat
        with (api_calls w + S j)%nat by lia. apply Hw. lia.
Qed.

(** What one firing of the callback does to an unsettled session. *)
Lemma readiness_callback_cases s w :
  Readiness.promise s = None ->
  (MAX <= Readiness.elapsedTimeSeconds s + 30
   /\ Readiness.promise (fst (cb s w))
      = Some (RejectedWith
                (Readiness.timeout_message MAX (Readiness.state s)))
   /\ api_calls (snd (cb s w)) = api_calls w)
  \/ (Readiness.elapsedTimeSeconds s + 30 < MAX
      /\ api_calls (snd (cb s w)) = S (api_calls w)
      /\ (Readiness.promise (fst (cb s w)) = None
          \/ exists d,
              Readiness.promise (fst (cb s w)) = Some (Fulfilled tt)
              /\ api env (api_calls w) = FetchData (BObject d)
              /\ includes READY_STATES (deploy_state d) = true)).
Proof.
  intros Hp. unfold Readiness.callback, Readiness.increment. rewrite Hp.
  destruct (MAX <=? Readiness.elapsedTimeSeconds s + 30) eqn:E.
  - left. apply Z.leb_le in E. split; [exact E|]. split; reflexivity.
  - right. apply Z.leb_gt in E. split; [exact E|].
    unfold getNetlifyUrl.
    destruct (api env (api_calls w)) as [|[| |l|d]] eqn:Ea;
      cbn [Readiness.state_of];
      try (split; [reflexivity|]; left; reflexivity).
    destruct (includes READY_STATES (deploy_state d)) eqn:Ei;
      cbn [fst snd Readiness.promise settle];
      (split; [reflexivity|]); [|now left].
    right. exists d. auto.
Qed.

End ReadinessTicks.

Lemma readiness_callback_elapsed env url MAX h s w :
  Readiness.elapsedTimeSeconds (fst (Readiness.callback env url MAX h s w))
  = Readiness.elapsedTimeSeconds s + 30.
Proof.
  unfold Readiness.callback, Readiness.increment.
  destruct (MAX <=? _); [reflexivity|].
  unfold getNetlifyUrl.
  destruct (api env (api_calls w)) as [|b]; [reflexivity|].
  destruct (Readiness.state_of b) as [st|]; [|reflexivity].
  now destruct (includes READY_STATES st).
Qed.

(** How a settled readiness promise came about. *)
Lemma readiness_poll_outcome env url MAX h :
  forall fuel s w,
    Readiness.promise s = None ->
    match Readiness.promise
            (fst (poll Readiness.settled (Readiness.callback env url MAX h)
                       h fuel s w)) with
    | None => True
    | Some (Fulfilled _) =>
        exists k d,
          Readiness.elapsedTimeSeconds s + 30 * (Z.of_nat k + 1) < MAX
          /\ api env (api_calls w + k) = FetchData (BObject d)
          /\ ready_state (deploy_state d)
    | Some (RejectedWith reason) =>
        exists st, reason = Readiness.timeout_message MAX st
    end.
Proof.
  induction fuel as [|fuel IH]; intros s w Hp.
  - cbn. unfold Readiness.settled. rewrite Hp. cbn. now rewrite Hp.
  - assert (Hs : Readiness.settled s = false)
      by (unfold Readiness.settled; now rewrite Hp).
    destruct (timer_active h w) eqn:Ha;
      [|cbn [poll]; rewrite Hs, Ha; cbn [fst]; now rewrite Hp].
    rewrite poll_fire by assumption.
    pose proof (readiness_callback_elapsed env url MAX h s w) as He.
    destruct (readiness_callback_cases env url MAX h s w Hp)
      as [[Hto [Hr _]]|[Hin [Hc [Hn|[d [Hr [Hd Hi]]]]]]].
    + rewrite poll_settled by (unfold Readiness.settled; now rewrite Hr).
      cbn [fst]. rewrite Hr. now eexists.
    + specialize (IH _ (snd (Readiness.callback env url MAX h s w)) Hn).
      destruct (Readiness.promise (fst (poll _ _ _ _ _ _))) as [[[]|r]|];
        [|exact IH | exact I].
      destruct IH as [k [d [Hk [Hd Hi]]]].
      exists (S k), d. rewrite He in Hk. rewrite Hc in Hd.
      split; [lia|]. split; [|exact Hi].
      now replace (api_calls w + S k)%nat with (S (api_calls w) + k)%nat by lia.
    + rewrite poll_settled by (unfold Readiness.settled; now rewrite Hr).
      cbn [fst]. rewrite Hr.
      exists O, d. rewrite Nat.add_0_r. split; [lia|]. split; [exact Hd|].
      now apply ready_states_spec.
Qed.

(** Over records, the state variable holds the state of the last one. *)
Lemma last_observed_records env :
  forall n start st,
    (forall j, (j < n)%nat ->
               exists d, api env (start + j) = FetchData (BObject d)) ->
    last_observed env start n st
    = match n with O => st | S _ => last_state env start n end.
Proof.
  induction n as [|n IH]; intros start st H; [reflexivity|].
  cbn [last_observed]. rewrite IH.
  - destruct n as [|n].
    + destruct (H O ltac:(lia)) as [d Hd]. cbn [last_state].
      rewrite Nat.add_0_r in *. rewrite Hd. reflexivity.
    + cbn [last_state].
      now replace (S start + n)%nat with (start + S n)%nat by lia.
  - intros j Hj. replace (S start + j)%nat with (start + S j)%nat by lia.
    apply H. lia.
Qed.

Lemma record_not_ready r d :
  r = FetchData (BObject d) -> ~ ready_state (deploy_state d) ->
  ready_answer r = false /\ readable r = true.
Proof.
  intros -> Hn. split; [|reflexivity]. cbn [ready_answer].
  destruct (includes READY_STATES (deploy_state d)) eqn:E; [|reflexivity].
  apply ready_states_spec in E. now destruct Hn.
Qed.

Lemma waitForReadiness_unfold env url MAX w :
  waitForReadiness env url MAX w =
  let r := poll Readiness.settled
                (Readiness.callback env url MAX (next_handle w))
                (next_handle w) (Readiness.ticks_bound MAX) Readiness.initial
                (snd (setInterval 30000 w)) in
  await (Readiness.promise (fst r)) (snd r).
Proof.
  unfold waitForReadiness, Readiness.start.
  change (setInterval (Readiness.increment * 1000) w)
    with (next_handle w, snd (setInterval 30000 w)).
  cbv beta iota zeta. now destruct (poll _ _ _ _ _ _).
Qed.

Lemma readiness_ticks_bound_enough MAX :
  (Z.to_nat ((MAX - 0 - 1) / 30) < Readiness.ticks_bound MAX)%nat.
Proof.
  unfold Readiness.ticks_bound, Readiness.increment.
  assert ((MAX - 0 - 1) / 30 <= MAX / 30) by (apply Z.div_le_mono; lia).
  lia.
Qed.

(** The wait resolves at the first ready record, when the answers before
    it could be read. *)
Lemma readiness_resolves_when_ready env url MAX w k :
  30 * (Z.of_nat k + 1) < MAX ->
  (forall j, (j < k)%nat -> readable (api env (api_calls w + j)) = true) ->
  ready_answer (api env (api_calls w + k)) = true ->
  fst (waitForReadiness env url MAX w) = Normal tt.
Proof.
  intros Hk Hb Hr.
  destruct (first_true (fun j => ready_answer (api env (api_calls w + j)))
                       (S k)) as [[k0 [Hk0 [Hr0 Hb0]]]|Hnone];
    [|rewrite Hnone in Hr by lia; discriminate].
  rewrite waitForReadiness_unfold. cbv zeta.
  destruct (readiness_poll_resolves env url MAX (next_handle w) k0
              (Readiness.ticks_bound MAX) 0 JUndefined
              (snd (setInterval 30000 w))) as [P _].
  - unfold Readiness.ticks_bound, Readiness.increment.
    assert (Z.of_nat k + 1 <= MAX / 30)
      by (apply Z.div_le_lower_bound; lia).
    lia.
  - apply timer_active_setInterval.
  - lia.
  - intros j Hj. split; [now apply Hb0|].
    destruct (Nat.eq_dec j k) as [->|Hne]; [lia|]. apply Hb. lia.
  - exact Hr0.
  - unfold Readiness.initial. rewrite P. reflexivity.
Qed.

(** The wait times out when every answer within the budget could be read
    and none was ready. *)
Lemma waitForReadiness_times_out env url MAX w :
  (forall j, 30 * (Z.of_nat j + 1) < MAX ->
             ready_answer (api env (api_calls w + j)) = false
             /\ readable (api env (api_calls w + j)) = true) ->
  fst (waitForReadiness env url MAX w)
  = Throw (ThrownStr
             (Readiness.timeout_message MAX
                (last_observed env (api_calls w)
                               (Z.to_nat ((MAX - 1) / 30)) JUndefined))).
Proof.
  intros Hw. rewrite waitForReadiness_unfold. cbv zeta.
  destruct (readiness_poll_times_out env url MAX (next_handle w)
              (Readiness.ticks_bound MAX) 0 JUndefined
              (snd (setInterval 30000 w))) as [P _].
  - apply timer_active_setInterval.
  - apply readiness_ticks_bound_enough.
  - exact Hw.
  - unfold Readiness.initial. rewrite P.
    replace (MAX - 0 - 1) with (MAX - 1) by lia. reflexivity.
Qed.

(** Over records that are not ready, the timeout names the state of the
    last record fetched. *)
Lemma waitForReadiness_times_out_records env url MAX w :
  (forall j, 30 * (Z.of_nat j + 1) < MAX ->
             exists dj, api env (api_calls w + j) = FetchData (BObject dj)
                        /\ ~ ready_state (deploy_state dj)) ->
  fst (waitForReadiness env url MAX w)
  = Throw (ThrownStr
             (Readiness.timeout_message MAX
                (last_state env (api_calls w) (Z.to_nat ((MAX - 1) / 30))))).
Proof.
  intros Hw. rewrite waitForReadiness_times_out.
  - rewrite last_observed_records.
    + now destruct (Z.to_nat ((MAX - 1) / 30)).
    + intros j Hj. apply within_budget_iff in Hj; [|lia].
      destruct (Hw j Hj) as [dj [Hd _]]. now exists dj.
  - intros j Hj. destruct (Hw j Hj) as [dj [Hd Hn]].
    now apply (record_not_ready _ dj).
Qed.

(** Over records, the wait resolves when one of them is ready. *)
Lemma readiness_resolves_at_record env url MAX w k d :
  30 * (Z.of_nat k + 1) < MAX ->
  (forall j, (j < k)%nat ->
             exists dj, api env (api_calls w + j) = FetchData (BObject dj)) ->
  api env (api_calls w + k) = FetchData (BObject d) ->
  ready_state (deploy_state d) ->
  fst (waitForReadiness env url MAX w) = Normal tt.
Proof.
  intros Hk Hb Ha Hr.
  apply (readiness_resolves_when_ready env url MAX w k Hk).
  - intros j Hj. destruct (Hb j Hj) as [dj ->]. reflexivity.
  - rewrite Ha. cbn [ready_answer]. now apply ready_states_spec.
Qed.

(** C5. The readiness waiter registers its callback at a 30-unit interval
    and each tick adds 30 to the elapsed time.  A tick before the budget
    that fetches a record settles the promise, with no payload, exactly
    when the record's state is "ready", "current" or "error".  So the wait
    resolves when a record fetched before the budget is in such a state
    (the answers before it being records), and only then.  When every
    answer fetched within the budget is a record in another state, the wait
    rejects with the timeout message, which prints the budget and the state
    of the last record fetched; with a budget of one period or less nothing
    is fetched and the state prints as "undefined". *)
Theorem readiness_waiter_contract
        (env : Env) (url : string) (MAX : Z) (w : World) :
  (exists evs,
      trace (snd (waitForReadiness env url MAX w))
      = (trace w ++ SetInterval (next_handle w) (30 * 1000) :: evs)%list)
  /\ (forall h s w0,
         Readiness.elapsedTimeSeconds
           (fst (Readiness.callback env url MAX h s w0))
         = Readiness.elapsedTimeSeconds s + 30)
  /\ (forall h s w0 d,
         Readiness.promise s = None ->
         Readiness.elapsedTimeSeconds s + 30 < MAX ->
         api env (api_calls w0) = FetchData (BObject d) ->
         (ready_state (deploy_state d) ->
          Readiness.promise (fst (Readiness.callback env url MAX h s w0))
          = Some (Fulfilled tt))
         /\ (~ ready_state (deploy_state d) ->
             Readiness.promise (fst (Readiness.callback env url MAX h s w0))
             = None))
  /\ (forall k d,
         30 * (Z.of_nat k + 1) < MAX ->
         (forall j, (j < k)%nat ->
                    exists dj,
                      api env (api_calls w + j) = FetchData (BObject dj)) ->
         api env (api_calls w + k) = FetchData (BObject d) ->
         ready_state (deploy_state d) ->
         fst (waitForReadiness env url MAX w) = Normal tt)
  /\ (fst (waitForReadiness env url MAX w) = Normal tt ->
      exists k d,
        30 * (Z.of_nat k + 1) < MAX
        /\ api env (api_calls w + k) = FetchData (BObject d)
        /\ ready_state (deploy_state d))
  /\ (Z.abs MAX < 10 ^ 21 ->
      (forall j, 30 * (Z.of_nat j + 1) < MAX ->
                 exists dj,
                   api env (api_calls w + j) = FetchData (BObject dj)
                   /\ ~ ready_state (deploy_state dj)) ->
      prints_digits (last_state env (api_calls w)
                                (Z.to_nat ((MAX - 1) / 30))) ->
      fst (waitForReadiness env url MAX w)
      = Throw (ThrownStr
                 ("Timeout reached: Deployment was not ready within "
                    ++ string_of_Z MAX
                    ++ " seconds. Last known deployment state: "
                    ++ ToString (last_state env (api_calls w)
                                            (Z.to_nat ((MAX - 1) / 30)))
                    ++ ".")))
  /\ (MAX <= 30 ->
      Z.abs MAX < 10 ^ 21 ->
      fst (waitForReadiness env url MAX w)
      = Throw (ThrownStr
                 ("Timeout reached: Deployment was not ready within "
                    ++ string_of_Z MAX
                    ++ " seconds. Last known deployment state: undefined."))).
Proof.
  split; [|split; [|split; [|split; [|split; [|split]]]]].
  - rewrite waitForReadiness_unfold. cbv zeta. rewrite await_world.
    destruct (poll_preserves (extends (waiter_event url 30000))
                Readiness.settled
                (Readiness.callback env url MAX (next_handle w))
                (next_handle w) (extends_refl _) (extends_trans _)
                (fun s w0 => proj2 (readiness_callback_frame
                                      env url 30000 MAX (next_handle w)
                                      s w0))
                (Readiness.ticks_bound MAX) Readiness.initial
                (snd (setInterval 30000 w))) as [evs [E _]].
    exists evs. rewrite E. simpl. now rewrite <- app_assoc.
  - intros h s w0. apply readiness_callback_elapsed.
  - intros h s w0 d Hp He Ha.
    unfold Readiness.callback, Readiness.increment.
    apply Z.leb_gt in He. rewrite He, Hp. unfold getNetlifyUrl.
    rewrite Ha. cbn [Readiness.state_of].
    destruct (includes READY_STATES (deploy_state d)) eqn:E;
      cbn [fst Readiness.promise settle].
    + split; [reflexivity|]. intros Hn. apply ready_states_spec in E.
      now destruct Hn.
    + split; [|reflexivity]. intros Hr. apply ready_states_spec in Hr.
      congruence.
  - intros k d. apply readiness_resolves_at_record.
  - rewrite waitForReadiness_unfold. cbv zeta.
    pose proof (readiness_poll_outcome env url MAX (next_handle w)
                  (Readiness.ticks_bound MAX) Readiness.initial
                  (snd (setInterval 30000 w)) eq_refl) as H.
    destruct (Readiness.promise _) as [[[]|r]|]; cbn [await fst ret throw];
      intros E; try discriminate.
    destruct H as [k [d [Hk [Hd Hr]]]]. exists k, d.
    cbn [Readiness.initial Readiness.elapsedTimeSeconds setInterval snd
                           api_calls] in Hk, Hd.
    split; [lia|]. now split.
  - intros _ Hw _. now rewrite waitForReadiness_times_out_records.
  - intros Hm _. rewrite waitForReadiness_times_out_records.
    + assert ((MAX - 1) / 30 < 1) by (apply Z.div_lt_upper_bound; lia).
      now replace (Z.to_nat ((MAX - 1) / 30)) with O by lia.
    + intros j Hj. lia.
Qed.

Lemma readiness_waiter_contract_witness :
  fst (waitForReadiness env_becomes_ready "deploy" 900 initial_world)
  = Normal tt
  /\ fst (waitForReadiness env_building "deploy" 90 initial_world)
     = Throw (ThrownStr
                "Timeout reached: Deployment was not ready within 90 seconds. Last known deployment state: building.")
  /\ fst (waitForReadiness env_building "deploy" 30 initial_world)
     = Throw (ThrownStr
                "Timeout reached: Deployment was not ready within 30 seconds. Last known deployment state: undefined.").
Proof.
  split; [|split].
  - apply (proj1 (proj2 (proj2 (proj2 (readiness_waiter_contract
                                         env_becomes_ready "deploy" 900
                                         initial_world))))
                 1%nat live_deployment).
    + reflexivity.
    + intros [|j] Hj; [now exists building_deployment | lia].
    + reflexivity.
    + left. reflexivity.
  - apply (proj1 (proj2 (proj2 (proj2 (proj2 (proj2
                   (readiness_waiter_contract env_building "deploy" 90
                                              initial_world))))))).
    + reflexivity.
    + intros j _. exists building_deployment. split; [reflexivity|].
      intros [H|[H|H]]; discriminate.
    + exact I.
  - apply (proj2 (proj2 (proj2 (proj2 (proj2 (proj2
                   (readiness_waiter_contract env_building "deploy" 30
                                              initial_world))))))).
    + lia.
    + reflexivity.
Defined.

(** ** The reachability prober *)

Lemma interceptor_idempotent r : interceptor (interceptor r) = interceptor r.
Proof.
  destruct r as [st|[st| |]]; cbn; try reflexivity.
  destruct (st =? 401) eqn:E; cbn; [reflexivity | now rewrite E].
Qed.

Lemma interceptors_as_one n r :
  Nat.iter (S n) interceptor r = interceptor r.
Proof.
  induction n as [|n IH]; [reflexivity|].
  change (Nat.iter (S (S n)) interceptor r)
    with (interceptor (Nat.iter (S n) interceptor r)).
  rewrite IH. apply interceptor_idempotent.
Qed.

Lemma interceptor_ok r :
  answers_ok r = true -> exists st, interceptor r = AxResolved st.
Proof.
  destruct r as [st|[st| |]]; cbn; intros H; try discriminate.
  - now exists st.
  - rewrite H. now exists st.
Qed.

Lemma interceptor_fails r :
  answers_ok r = false -> exists e, interceptor r = AxRejected e.
Proof.
  destruct r as [st|[st| |]]; cbn; intros H; try discriminate.
  - rewrite H. now exists (ErrResponse st).
  - now exists ErrTypeError.
  - now exists ErrTypeError.
Qed.

Lemma axios_get_eq env url w :
  (1 <= interceptors w)%nat ->
  axios_get env url w =
  (interceptor (site env (site_calls w)),
   mkWorld (api_calls w) (S (site_calls w)) (interceptors w) (timers w)
           (next_handle w) (trace w ++ [AxiosGet url])).
Proof.
  intros H. unfold axios_get. destruct (interceptors w) as [|n]; [lia|].
  now rewrite interceptors_as_one.
Qed.

Lemma lt_iterations_true i (it : Q) :
  i < Qceiling it -> lt_iterations i it = true.
Proof.
  intros H. unfold lt_iterations. apply negb_true_iff.
  destruct (Qle_bool it (inject_Z i)) eqn:E; [|reflexivity].
  apply Qle_bool_iff in E. exfalso.
  assert (Qceiling it <= i); [|lia].
  rewrite <- (Qceiling_Z i). now apply Qceiling_resp_le.
Qed.

Lemma lt_iterations_false i (it : Q) :
  Qceiling it <= i -> lt_iterations i it = false.
Proof.
  intros H. unfold lt_iterations. apply negb_false_iff. apply Qle_bool_iff.
  eapply Qle_trans; [apply Qle_ceiling|]. now rewrite <- Zle_Qle.
Qed.

Lemma lt_iterations_spec i (it : Q) :
  lt_iterations i it = true <-> (inject_Z i < it)%Q.
Proof.
  unfold lt_iterations. rewrite negb_true_iff. split; intros H.
  - apply Qnot_le_lt. intros C. apply Qle_bool_iff in C. congruence.
  - destruct (Qle_bool it (inject_Z i)) eqn:E; [|reflexivity].
    apply Qle_bool_iff in E. exfalso. eapply Qlt_not_le; eassumption.
Qed.

Lemma positive_budget_iterations (MAX : Q) :
  (0 < MAX)%Q -> 0 < Qceiling (MAX / 3).
Proof.
  intros H.
  assert (0 < MAX / 3)%Q as H3.
  { apply Qlt_shift_div_l; [reflexivity|]. now rewrite Qmult_0_l. }
  rewrite Zlt_Qlt. eapply Qlt_le_trans; [exact H3 | apply Qle_ceiling].
Qed.

Lemma exact_budget_positive (MAX : Q) : exact_budget MAX -> (0 < MAX)%Q.
Proof.
  intros [H _]. eapply Qlt_trans; [|exact H]. reflexivity.
Qed.

Section ProberLoop.

Variables (env : Env) (url : string) (iterations : Q).

(** An attempt that is answered ends the loop at once. *)
Lemma loop_attempt_ok flag fuel i w :
  (1 <= interceptors w)%nat ->
  lt_iterations i iterations = true ->
  answers_ok (site env (site_calls w)) = true ->
  waitForUrl_loop env url iterations flag (S fuel) i w
  = (Normal tt, snd (axios_get env url w)).
Proof.
  intros Hi Hlt Hok. cbn [waitForUrl_loop]. rewrite Hlt.
  rewrite axios_get_eq by exact Hi.
  destruct (interceptor_ok _ Hok) as [st E]. now rewrite E.
Qed.

(** A failed attempt rejects under the flag, and is retried without it. *)
Lemma loop_attempt_fails flag fuel i w :
  (1 <= interceptors w)%nat ->
  lt_iterations i iterations = true ->
  answers_ok (site env (site_calls w)) = false ->
  waitForUrl_loop env url iterations flag (S fuel) i w
  = if flag then (Throw (ThrownStr "not found"), snd (axios_get env url w))
    else waitForUrl_loop env url iterations flag fuel (i + 1)
           (emit (SetTimeout 3000)
              (emit (ConsoleLog (unavailable_message url))
                 (snd (axios_get env url w)))).
Proof.
  intros Hi Hlt Hok. cbn [waitForUrl_loop]. rewrite Hlt.
  rewrite axios_get_eq by exact Hi.
  destruct (interceptor_fails _ Hok) as [e E]. now rewrite E.
Qed.

(** When every attempt fails and the flag is not set, the loop makes one
    attempt per remaining slot, then reports the failure and returns. *)
Lemma loop_all_fail :
  forall fuel i w,
    (1 <= interceptors w)%nat ->
    fuel = Z.to_nat (Qceiling iterations - i) ->
    (forall j, (j < fuel)%nat ->
               answers_ok (site env (site_calls w + j)) = false) ->
    waitForUrl_loop env url iterations false fuel i w
    = (Normal tt,
       mkWorld (api_calls w) (site_calls w + fuel) (interceptors w)
               (timers w) (next_handle w)
               (trace w ++ List.concat (repeat (retry_events url) fuel)
                      ++ [SetFailed (unable_message url)])).
Proof.
  induction fuel as [|fuel IH]; intros i w Hi Hf Hw.
  - cbn [waitForUrl_loop]. rewrite lt_iterations_false by lia.
    unfold emit. cbn [repeat List.concat app]. now rewrite Nat.add_0_r.
  - rewrite loop_attempt_fails;
      [| exact Hi | apply lt_iterations_true; lia
       | rewrite <- (Nat.add_0_r (site_calls w)); apply Hw; lia].
    rewrite IH.
    + cbn [emit axios_get snd api_calls site_calls interceptors timers
                next_handle trace repeat List.concat].
      f_equal. f_equal; [lia|].
      rewrite <- !app_assoc. reflexivity.
    + exact Hi.
    + lia.
    + intros j Hj. cbn [emit axios_get snd site_calls].
      replace (S (site_calls w) + j)%nat with (site_calls w + S j)%nat by lia.
      apply Hw. lia.
Qed.

End ProberLoop.

Lemma try_catch_normal {A} (m : M A) handler w a :
  fst (m w) = Normal a -> try_catch m handler w = m w.
Proof.
  unfold try_catch. destruct (m w) as [[x|e|] w']; cbn; intros H;
    try discriminate; reflexivity.
Qed.

Lemma waitForUrl_loop_frame env url it flag :
  forall fuel i w,
    extends (prober_event url) w
            (snd (waitForUrl_loop env url it flag fuel i w)).
Proof.
  induction fuel as [|fuel IH]; intros i w; cbn [waitForUrl_loop].
  - destruct (lt_iterations i it); cbn [snd]; [apply extends_refl|].
    eapply extends_one; [reflexivity | cbn; apply String.eqb_refl].
  - destruct (lt_iterations i it); cbn [snd];
      [| eapply extends_one; [reflexivity | cbn; apply String.eqb_refl]].
    unfold axios_get.
    set (w1 := mkWorld _ _ _ _ _ _).
    assert (F1 : extends (prober_event url) w w1)
      by (eapply extends_one; [reflexivity | cbn; apply String.eqb_refl]).
    destruct (Nat.iter _ _ _) as [st|e]; cbn [snd]; [exact F1|].
    destruct flag; cbn [snd]; [exact F1|].
    eapply extends_trans; [exact F1|].
    eapply extends_trans; [|apply IH].
    apply (extends_trans _ _ (emit (ConsoleLog (unavailable_message url)) w1));
      (eapply extends_one; [reflexivity | reflexivity]).
Qed.

(** Without the flag the prober never throws. *)
Lemma waitForUrl_loop_no_throw env url it :
  forall fuel i w e,
    fst (waitForUrl_loop env url it false fuel i w) <> Throw e.
Proof.
  induction fuel as [|fuel IH]; intros i w e; cbn [waitForUrl_loop].
  - destruct (lt_iterations i it); discriminate.
  - destruct (lt_iterations i it); [|discriminate].
    destruct (axios_get env url w) as [[st|err] w1]; [discriminate|].
    apply IH.
Qed.

Lemma waitForUrl_no_throw env url MAX w e :
  fst (waitForUrl env url MAX false w) <> Throw e.
Proof. unfold waitForUrl. cbv zeta. apply waitForUrl_loop_no_throw. Qed.

Lemma waitForUrl_frame env url MAX flag w :
  extends (prober_event url) w (snd (waitForUrl env url MAX flag w)).
Proof.
  unfold waitForUrl. cbv zeta.
  eapply extends_trans; [|apply waitForUrl_loop_frame].
  eapply extends_one; [reflexivity | reflexivity].
Qed.

(** Under the flag and with a positive budget the prober makes one attempt
    and its completion is decided by that attempt. *)
Lemma waitForUrl_once env url (MAX : Q) w :
  (0 < MAX)%Q ->
  waitForUrl env url MAX true w
  = (if answers_ok (site env (site_calls w))
     then Normal tt else Throw (ThrownStr "not found"),
     probed url w).
Proof.
  intros H. unfold waitForUrl. cbv zeta.
  pose proof (positive_budget_iterations MAX H) as Hc.
  destruct (Z.to_nat (Qceiling (MAX / 3))) as [|fuel] eqn:E; [lia|].
  assert (W : snd (axios_get env url (use_interceptor w)) = probed url w).
  { unfold probed. cbn. now rewrite <- app_assoc. }
  destruct (answers_ok (site env (site_calls w))) eqn:A.
  - rewrite loop_attempt_ok;
      [now rewrite W | cbn; lia | apply lt_iterations_true; lia | exact A].
  - rewrite loop_attempt_fails;
      [now rewrite W | cbn; lia | apply lt_iterations_true; lia | exact A].
Qed.

(** C3. Without the flag, when each of the ceil(budget/3) attempts fails,
    the prober makes exactly those attempts (each followed by the retry
    notice and the 3-unit sleep), reports the timeout message through
    [SetFailed] and completes normally: it does not throw, so a handler
    around it, or around a block that ends with it, is not entered. *)
Theorem prober_exhaustion_is_reported_not_thrown
        (env : Env) (url : string) (MAX : Q) (w : World) :
  (forall j, (j < Z.to_nat (Qceiling (MAX / 3)))%nat ->
             answers_ok (site env (site_calls w + j)) = false) ->
  waitForUrl env url MAX false w
  = (Normal tt,
     mkWorld (api_calls w)
             (site_calls w + Z.to_nat (Qceiling (MAX / 3)))
             (S (interceptors w)) (timers w) (next_handle w)
             (trace w
                ++ InterceptorUse
                :: List.concat (repeat [AxiosGet url;
                                        ConsoleLog (unavailable_message url);
                                        SetTimeout 3000]
                                       (Z.to_nat (Qceiling (MAX / 3))))
                ++ [SetFailed ("Timeout reached: Unable to connect to "
                                 ++ url)]))
  /\ (forall handler,
         try_catch (waitForUrl env url MAX false) handler w
         = waitForUrl env url MAX false w)
  /\ (forall (before : M unit) handler w0,
         before w0 = (Normal tt, w) ->
         try_catch (before;; waitForUrl env url MAX false) handler w0
         = waitForUrl env url MAX false w).
Proof.
  intros Hfail.
  assert (E : waitForUrl env url MAX false w
              = (Normal tt,
                 mkWorld (api_calls w)
                   (site_calls w + Z.to_nat (Qceiling (MAX / 3)))
                   (S (interceptors w)) (timers w) (next_handle w)
                   (trace w
                      ++ InterceptorUse
                      :: List.concat (repeat (retry_events url)
                                        (Z.to_nat (Qceiling (MAX / 3))))
                      ++ [SetFailed (unable_message url)]))).
  { unfold waitForUrl. cbv zeta.
    rewrite (loop_all_fail env url (MAX / 3)
               (Z.to_nat (Qceiling (MAX / 3))) 0 (use_interceptor w)).
    - cbn [use_interceptor api_calls site_calls interceptors timers
                           next_handle trace].
      now rewrite <- app_assoc.
    - cbn. lia.
    - now rewrite Z.sub_0_r.
    - exact Hfail. }
  split; [exact E|]. split.
  - intros handler. apply (try_catch_normal _ _ _ tt). now rewrite E.
  - intros before handler w0 Hb. unfold try_catch, bind. rewrite Hb, E.
    reflexivity.
Qed.

Lemma prober_exhaustion_witness :
  waitForUrl env_site_down "https://x" 6%Q false initial_world
  = (Normal tt,
     mkWorld 0 2 1 [] 0
             [InterceptorUse;
              AxiosGet "https://x";
              ConsoleLog "URL https://x unavailable, retrying...";
              SetTimeout 3000;
              AxiosGet "https://x";
              ConsoleLog "URL https://x unavailable, retrying...";
              SetTimeout 3000;
              SetFailed "Timeout reached: Unable to connect to https://x"]).
Proof.
  apply (proj1 (prober_exhaustion_is_reported_not_thrown
                  env_site_down "https://x" 6%Q initial_world
                  (fun j _ => eq_refl))).
Defined.

(** C7. Under the single-attempt flag (and with a budget that allows an
    attempt at all), a failed first attempt makes the prober reject with
    "not found" after that one request: the trace holds the interceptor
    registration and one request, no retry notice and no sleep. *)
Theorem single_attempt_rejects_at_once
        (env : Env) (url : string) (MAX : Q) (w : World) :
  (0 < MAX)%Q ->
  answers_ok (site env (site_calls w)) = false ->
  waitForUrl env url MAX true w
  = (Throw (ThrownStr "not found"),
     mkWorld (api_calls w) (S (site_calls w)) (S (interceptors w)) (timers w)
             (next_handle w) (trace w ++ [InterceptorUse; AxiosGet url])).
Proof.
  intros H A. rewrite waitForUrl_once by exact H. now rewrite A.
Qed.

Lemma single_attempt_witness :
  waitForUrl env_site_down "https://x" 3%Q true initial_world
  = (Throw (ThrownStr "not found"),
     mkWorld 0 1 1 [] 0 [InterceptorUse; AxiosGet "https://x"]).
Proof.
  apply (single_attempt_rejects_at_once env_site_down "https://x" 3%Q
                                        initial_world).
  - reflexivity.
  - reflexivity.
Defined.




(** ** The orchestrator *)

Lemma run_try_unfold env cfg :
  run_try env cfg initial_world
  = match creation env cfg with
    | (Normal d, w) => after_creation env cfg d w
    | (Throw e, w) => (Throw e, w)
    | (Pending, w) => (Pending, w)
    end.
Proof.
  unfold run_try, creation, check_config, before_creation, config_failures,
    bind, when, perform, ret, emit, initial_world.
  destruct (truthy (NETLIFY_TOKEN cfg)), (truthy (commitSha cfg)),
    (truthy (JStr (site_id cfg))); reflexivity.
Qed.

Lemma run_unfold env cfg :
  run env cfg initial_world
  = match creation env cfg with
    | (Normal d, w) => try_catch (after_creation env cfg d) top_level_catch w
    | (Throw e, w) => (Normal tt, emit (SetFailed (failure_text e)) w)
    | (Pending, w) => (Pending, w)
    end.
Proof.
  unfold run. unfold try_catch at 1. rewrite run_try_unfold.
  destruct (creation env cfg) as [[d|e|] w]; reflexivity.
Qed.

Lemma creation_frame env cfg :
  waiter_frame (deploys_url (site_id cfg)) 15000 (before_creation cfg)
               (snd (creation env cfg)).
Proof. apply waitForDeployCreation_frame. Qed.

Lemma creation_site_calls env cfg :
  site_calls (snd (creation env cfg)) = O
  /\ interceptors (snd (creation env cfg)) = O.
Proof. destruct (creation_frame env cfg) as [[A B] _]. now rewrite A, B. Qed.

Lemma config_failures_are_failures cfg :
  filter is_failure (config_failures cfg) = config_failures cfg.
Proof.
  unfold config_failures.
  destruct (truthy (NETLIFY_TOKEN cfg)), (truthy (commitSha cfg)),
    (truthy (JStr (site_id cfg))); reflexivity.
Qed.

Lemma config_failures_no_output cfg :
  forallb (fun e => negb (is_output e) && negb (is_probe e)
                    && not_nopreview e
                    && match e with NetlifyGet _ => false | _ => true end)
          (config_failures cfg) = true.
Proof.
  unfold config_failures.
  destruct (truthy (NETLIFY_TOKEN cfg)), (truthy (commitSha cfg)),
    (truthy (JStr (site_id cfg))); reflexivity.
Qed.

Lemma config_complete_no_failures cfg :
  config_complete cfg = true -> config_failures cfg = [].
Proof.
  unfold config_complete, config_failures. rewrite !andb_true_iff.
  intros [[A B] C]. now rewrite A, B, C.
Qed.

Lemma filter_none {A} (P : A -> bool) (l : list A) :
  (forall x, In x l -> P x = false) -> filter P l = [].
Proof.
  induction l as [|x l IH]; intros H; [reflexivity|].
  cbn. rewrite H by now left. apply IH. intros y Hy. apply H. now right.
Qed.

(** What the trace holds when the creation waiter has settled. *)
Lemma creation_trace env cfg :
  let tr := trace (snd (creation env cfg)) in
  filter is_output tr = []
  /\ filter is_probe tr = []
  /\ filter is_failure tr = config_failures cfg
  /\ (forall e, In e tr -> not_nopreview e = true)
  /\ (forall u, In (NetlifyGet u) tr -> u = deploys_url (site_id cfg))
  /\ (forall h ms, In (SetInterval h ms) tr -> ms = 15000).
Proof.
  destruct (creation_frame env cfg) as [_ [evs [E F]]].
  cbv zeta. rewrite E. unfold before_creation. cbn [trace].
  pose proof (config_failures_no_output cfg) as C.
  rewrite forallb_forall in C, F.
  assert (Fo : forall P, (forall e, waiter_event (deploys_url (site_id cfg))
                                                 15000 e
                                    = true -> P e = false) ->
                         filter P evs = []).
  { intros P HP. apply filter_none. intros x Hx. apply HP, F, Hx. }
  repeat split.
  - rewrite !filter_app, Fo by (now intros [] He). cbn.
    rewrite filter_none; [reflexivity|]. intros e He. specialize (C e He).
    now destruct e.
  - rewrite !filter_app, Fo by (now intros [] He). cbn.
    rewrite filter_none; [reflexivity|]. intros e He. specialize (C e He).
    now destruct e.
  - rewrite !filter_app, Fo by (now intros [] He). cbn.
    now rewrite config_failures_are_failures, !app_nil_r.
  - intros e He. rewrite !in_app_iff in He. destruct He as [[He|He]|He].
    + specialize (C e He). now destruct e.
    + destruct He as [<-|[]]. reflexivity.
    + specialize (F e He). now destruct e.
  - intros u He. rewrite !in_app_iff in He. destruct He as [[He|He]|He].
    + specialize (C _ He). discriminate.
    + destruct He as [He|[]]. discriminate.
    + specialize (F _ He). cbn in F. now apply String.eqb_eq in F.
  - intros h ms He. rewrite !in_app_iff in He. destruct He as [[He|He]|He].
    + specialize (C _ He). pose proof (config_failures_are_failures cfg) as K.
      assert (In (SetInterval h ms) (filter is_failure (config_failures cfg)))
        as Hin by now rewrite K.
      apply filter_In in Hin. destruct Hin as [_ Hin]. discriminate.
    + destruct He as [He|[]]. discriminate.
    + specialize (F _ He). cbn in F. now apply Z.eqb_eq in F.
Qed.

Lemma length_append (a b : string) :
  String.length (a ++ b) = (String.length a + String.length b)%nat.
Proof. induction a as [|c a IH]; cbn; [reflexivity | now rewrite IH]. Qed.

(** The listing endpoint and a deployment endpoint are different URLs. *)
Lemma deploy_url_not_deploys_url siteId id :
  deploy_url siteId id <> deploys_url siteId.
Proof.
  unfold deploy_url, deploys_url. intros H.
  apply (f_equal String.length) in H.
  rewrite !length_append in H. cbn in H. lia.
Qed.

Lemma after_creation_fallback env cfg d w :
  deploy_state d = JStr "error" ->
  matcher_test (error_message d) = true ->
  after_creation env cfg d w
  = if answers_ok (site env (site_calls w))
    then publish_and_wait env cfg d (deploy_ssl_url d)
                          (probed (deploy_ssl_url d) w)
    else (Normal tt, no_preview_world d (probed (deploy_ssl_url d) w)).
Proof.
  intros Hs Hm. unfold after_creation. rewrite Hs, Hm.
  cbn [strict_eq]. rewrite String.eqb_refl. cbv zeta.
  unfold bind at 1. unfold try_catch, bind at 1.
  rewrite waitForUrl_once by reflexivity.
  destruct (answers_ok (site env (site_calls w))); reflexivity.
Qed.

Lemma after_creation_error env cfg d w :
  deploy_state d = JStr "error" ->
  matcher_test (error_message d) = false ->
  after_creation env cfg d w
  = (Throw (ThrownError (Error_message (error_message d))), w).
Proof.
  intros Hs Hm. unfold after_creation. rewrite Hs, Hm.
  cbn [strict_eq]. now rewrite String.eqb_refl.
Qed.

Lemma after_creation_live env cfg d w :
  strict_eq (deploy_state d) (JStr "error") = false ->
  after_creation env cfg d w
  = publish_and_wait env cfg d (netlify_app_url d) w.
Proof. intros Hs. unfold after_creation. now rewrite Hs. Qed.

(** C8. When the creation waiter resolves with a deployment in state
    "error" whose message matches the skip phrase, and the one probe of the
    fallback URL fails, [run] completes normally; what it adds to the trace
    after the creation wait is the probe and the no-preview signal.  So the
    only output is [nopreview = 1], the only plain request is the one to the
    fallback URL, no request goes to the deployment (readiness) endpoint and
    no 30-unit timer is registered, and the run reports no failure other
    than those of the configuration checks: none when the configuration is
    complete. *)
Theorem no_content_change_without_preview
        (env : Env) (cfg : Config) (d : Deployment) :
  fst (creation env cfg) = Normal d ->
  deploy_state d = JStr "error" ->
  matcher_test (error_message d) = true ->
  answers_ok (site env 0) = false ->
  let r := run env cfg initial_world in
  fst r = Normal tt
  /\ trace (snd r)
     = (trace (snd (creation env cfg))
          ++ [InterceptorUse;
              AxiosGet (deploy_ssl_url d);
              CoreNotice "Skipping: no deployment available for this branch";
              CoreInfo ("No deployment available: "
                      ++ ToString (error_message d));
              SetOutput "nopreview" (JNum 1)])%list
  /\ filter is_output (trace (snd r)) = [SetOutput "nopreview" (JNum 1)]
  /\ filter is_probe (trace (snd r)) = [AxiosGet (deploy_ssl_url d)]
  /\ site_calls (snd r) = 1%nat
  /\ ~ In (NetlifyGet (deploy_url (site_id cfg) (deploy_id d)))
          (trace (snd r))
  /\ (forall h, ~ In (SetInterval h 30000) (trace (snd r)))
  /\ filter is_failure (trace (snd r)) = config_failures cfg
  /\ (config_complete cfg = true ->
      forall msg, ~ In (SetFailed msg) (trace (snd r))).
Proof.
  intros Hc Hs Hm Hp. cbv zeta.
  destruct (creation_site_calls env cfg) as [S0 I0].
  destruct (creation_trace env cfg) as [To [Tp [Tf [_ [Tn Ti]]]]].
  cbv zeta in To, Tp, Tf, Tn, Ti.
  rewrite run_unfold.
  destruct (creation env cfg) as [c w] eqn:Ec. cbn [fst snd] in *. subst c.
  unfold try_catch. rewrite after_creation_fallback by assumption.
  rewrite S0, Hp. cbn [fst snd].
  assert (T : trace (no_preview_world d (probed (deploy_ssl_url d) w))
              = (trace w
                   ++ [InterceptorUse;
                       AxiosGet (deploy_ssl_url d);
                       CoreNotice "Skipping: no deployment available for this branch";
                       CoreInfo ("No deployment available: "
                               ++ ToString (error_message d));
                       SetOutput "nopreview" (JNum 1)])%list).
  { cbn. now rewrite <- !app_assoc. }
  split; [reflexivity|]. split; [exact T|]. rewrite T.
  split; [now rewrite filter_app, To|].
  split; [now rewrite filter_app, Tp|].
  split; [cbn; now rewrite S0|].
  split.
  { intros Hin. apply in_app_iff in Hin. destruct Hin as [Hin|Hin].
    - apply Tn in Hin. now apply deploy_url_not_deploys_url in Hin.
    - cbn in Hin. repeat (destruct Hin as [Hin|Hin]; [discriminate|]).
      exact Hin. }
  split.
  { intros h Hin. apply in_app_iff in Hin. destruct Hin as [Hin|Hin].
    - apply Ti in Hin. discriminate.
    - cbn in Hin. repeat (destruct Hin as [Hin|Hin]; [discriminate|]).
      exact Hin. }
  assert (F : filter is_failure
                (trace w
                   ++ [InterceptorUse;
                       AxiosGet (deploy_ssl_url d);
                       CoreNotice "Skipping: no deployment available for this branch";
                       CoreInfo ("No deployment available: "
                               ++ ToString (error_message d));
                       SetOutput "nopreview" (JNum 1)])
              = config_failures cfg).
  { rewrite filter_app, Tf. cbn. now rewrite app_nil_r. }
  split; [exact F|].
  intros Hcc msg Hin.
  assert (In (SetFailed msg) (config_failures cfg)) as Hin'.
  { rewrite <- F. apply filter_In. now split. }
  now rewrite (config_complete_no_failures cfg Hcc) in Hin'.
Qed.

Lemma no_content_change_without_preview_witness :
  fst (run (env_with skipped_deployment (AxRejected (ErrResponse 404)))
           push_abc123 initial_world) = Normal tt
  /\ filter is_output
       (trace (snd (run (env_with skipped_deployment
                                  (AxRejected (ErrResponse 404)))
                        push_abc123 initial_world)))
     = [SetOutput "nopreview" (JNum 1)]
  /\ forall msg,
      ~ In (SetFailed msg)
           (trace (snd (run (env_with skipped_deployment
                                      (AxRejected (ErrResponse 404)))
                            push_abc123 initial_world))).
Proof.
  pose proof (no_content_change_without_preview
                (env_with skipped_deployment (AxRejected (ErrResponse 404)))
                push_abc123 skipped_deployment
                eq_refl eq_refl eq_refl eq_refl) as H.
  cbv zeta in H.
  destruct H as [H1 [_ [H3 [_ [_ [_ [_ [_ H9]]]]]]]].
  split; [exact H1|]. split; [exact H3|]. exact (H9 eq_refl).
Defined.

(** C9. When the creation waiter resolves with a deployment in state
    "error" whose message does not match the skip phrase, the [try] block
    throws an Error carrying that message, the top-level [catch] reports it
    through [SetFailed], and this report is the last event of the run: for
    a message that is a string, exactly that string.  Nothing is probed and
    nothing is published. *)
Theorem deployment_error_is_fatal
        (env : Env) (cfg : Config) (d : Deployment) :
  fst (creation env cfg) = Normal d ->
  deploy_state d = JStr "error" ->
  matcher_test (error_message d) = false ->
  let r := run env cfg initial_world in
  fst (run_try env cfg initial_world)
  = Throw (ThrownError (Error_message (error_message d)))
  /\ r = top_level_catch (ThrownError (Error_message (error_message d)))
                         (snd (run_try env cfg initial_world))
  /\ r = (Normal tt,
          emit (SetFailed (Error_message (error_message d)))
               (snd (creation env cfg)))
  /\ (forall msg,
         error_message d = JStr msg ->
         last (trace (snd r)) InterceptorUse = SetFailed msg)
  /\ filter is_output (trace (snd r)) = []
  /\ filter is_probe (trace (snd r)) = [].
Proof.
  intros Hc Hs Hm. cbv zeta.
  destruct (creation_trace env cfg) as [To [Tp _]]. cbv zeta in To, Tp.
  rewrite run_unfold, run_try_unfold.
  destruct (creation env cfg) as [c w] eqn:Ec. cbn [fst snd] in *. subst c.
  unfold try_catch. rewrite after_creation_error by assumption.
  cbn [fst snd]. split; [reflexivity|]. split; [reflexivity|].
  split; [reflexivity|]. split; [|split].
  - intros msg E. rewrite E. cbn [top_level_catch perform emit snd trace
                                    failure_text Error_message ToString].
    apply last_last.
  - cbn. now rewrite filter_app, To.
  - cbn. now rewrite filter_app, Tp.
Qed.

Lemma deployment_error_is_fatal_witness :
  run (env_with failed_deployment (AxResolved 200)) push_abc123 initial_world
  = (Normal tt,
     emit (SetFailed "build script failed")
          (snd (creation (env_with failed_deployment (AxResolved 200))
                         push_abc123)))
  /\ last (trace (snd (run (env_with failed_deployment (AxResolved 200))
                           push_abc123 initial_world))) InterceptorUse
     = SetFailed "build script failed".
Proof.
  pose proof (deployment_error_is_fatal
                (env_with failed_deployment (AxResolved 200))
                push_abc123 failed_deployment eq_refl eq_refl eq_refl) as H.
  cbv zeta in H. destruct H as [_ [_ [H3 [H4 _]]]].
  split; [exact H3 | exact (H4 "build script failed" eq_refl)].
Defined.

(** ** Frames of composed computations *)

Lemma frames_ret {A} P (a : A) : frames P (ret a).
Proof. intros w. apply extends_refl. Qed.

Lemma frames_throw {A} P e : frames P (@throw A e).
Proof. intros w. apply extends_refl. Qed.

Lemma frames_perform P e : P e = true -> frames P (perform e).
Proof. intros H w. eapply extends_one; [reflexivity | exact H]. Qed.

Lemma frames_bind {A B} P (m : M A) (k : A -> M B) :
  frames P m -> (forall a, frames P (k a)) -> frames P (bind m k).
Proof.
  intros Hm Hk w. unfold bind. specialize (Hm w).
  destruct (m w) as [[a|e|] w']; cbn [snd] in *; try exact Hm.
  eapply extends_trans; [exact Hm | apply Hk].
Qed.

Lemma frames_try_catch {A} P (m : M A) handler :
  frames P m -> (forall e, frames P (handler e)) -> frames P (try_catch m handler).
Proof.
  intros Hm Hh w. unfold try_catch. specialize (Hm w).
  destruct (m w) as [[a|e|] w']; cbn [snd] in *; try exact Hm.
  eapply extends_trans; [exact Hm | apply Hh].
Qed.

Lemma frames_weaken {A} (P Q : event -> bool) (m : M A) :
  (forall e, P e = true -> Q e = true) -> frames P m -> frames Q m.
Proof. intros H Hm w. eapply extends_weaken; [exact H | apply Hm]. Qed.

Lemma frames_waitForReadiness env url MAX :
  frames (waiter_event url 30000) (waitForReadiness env url MAX).
Proof. intros w. apply waitForReadiness_frame. Qed.

Lemma frames_waitForUrl env url MAX flag :
  frames (prober_event url) (waitForUrl env url MAX flag).
Proof. intros w. apply waitForUrl_frame. Qed.

Lemma extends_forall P w w' :
  extends P w w' ->
  (forall e, In e (trace w) -> P e = true) ->
  forall e, In e (trace w') -> P e = true.
Proof.
  intros [evs [E F]] H e He. rewrite E in He. apply in_app_iff in He.
  destruct He as [He|He]; [now apply H|].
  rewrite forallb_forall in F. now apply F.
Qed.

Lemma extends_In P w w' e :
  extends P w w' -> In e (trace w) -> In e (trace w').
Proof.
  intros [evs [E _]] H. rewrite E. apply in_app_iff. now left.
Qed.

Lemma publish_and_wait_unfold env cfg d url w :
  publish_and_wait env cfg d url w
  = wait_and_probe env cfg d url (published d url w).
Proof. reflexivity. Qed.

Lemma frames_wait_and_probe env cfg d url P :
  (forall u ms e, waiter_event u ms e = true -> P e = true) ->
  (forall u e, prober_event u e = true -> P e = true) ->
  (forall msg, P (ConsoleLog msg) = true) ->
  frames P (wait_and_probe env cfg d url).
Proof.
  intros Hw Hp Hl. unfold wait_and_probe.
  apply frames_bind; [|intros _; apply frames_bind].
  - eapply frames_weaken; [apply Hw | apply frames_waitForReadiness].
  - apply frames_perform, Hl.
  - intros _. eapply frames_weaken; [apply Hp | apply frames_waitForUrl].
Qed.

Lemma waiter_event_quiet u ms e : waiter_event u ms e = true -> quiet e = true.
Proof. now destruct e. Qed.

Lemma prober_event_quiet u e : prober_event u e = true -> quiet e = true.
Proof. now destruct e. Qed.

Lemma waiter_event_not_nopreview u ms e :
  waiter_event u ms e = true -> not_nopreview e = true.
Proof. now destruct e. Qed.

Lemma prober_event_not_nopreview u e :
  prober_event u e = true -> not_nopreview e = true.
Proof. now destruct e. Qed.

Lemma frames_top_level_catch P e :
  (forall msg, P (SetFailed msg) = true) -> frames P (top_level_catch e).
Proof. intros H. apply frames_perform, H. Qed.

(** [publish_and_wait] under the top-level handler never publishes
    [nopreview]. *)
Lemma publish_and_wait_not_nopreview env cfg d url :
  frames not_nopreview
         (try_catch (publish_and_wait env cfg d url) top_level_catch).
Proof.
  apply frames_try_catch; [|intros e; now apply frames_top_level_catch].
  intros w. rewrite publish_and_wait_unfold.
  eapply extends_trans;
    [| apply frames_wait_and_probe;
       [apply waiter_event_not_nopreview
       | apply prober_event_not_nopreview | reflexivity]].
  apply (extends_trans _ _ (emit (SetOutput "url" (JStr url))
                              (emit (SetOutput "deploy_id"
                                               (JStr (deploy_id d))) w)));
    [apply (extends_trans _ _ (emit (SetOutput "deploy_id"
                                               (JStr (deploy_id d))) w))|];
    (eapply extends_one; [reflexivity | reflexivity]).
Qed.

(** After the publication, [publish_and_wait] under the top-level handler
    publishes nothing more. *)
Lemma wait_and_probe_quiet env cfg d url :
  frames quiet (try_catch (wait_and_probe env cfg d url) top_level_catch).
Proof.
  apply frames_try_catch; [|intros e; now apply frames_top_level_catch].
  apply frames_wait_and_probe;
    [apply waiter_event_quiet | apply prober_event_quiet | reflexivity].
Qed.

Lemma strict_eq_str v s : strict_eq v (JStr s) = true <-> v = JStr s.
Proof.
  destruct v as [| |t|n]; cbn; split; intros H; try discriminate.
  - apply String.eqb_eq in H. now subst.
  - injection H as ->. apply String.eqb_refl.
Qed.

Lemma trace_no_preview_world d url w :
  trace (no_preview_world d (probed url w))
  = (trace w
       ++ [InterceptorUse;
           AxiosGet url;
           CoreNotice "Skipping: no deployment available for this branch";
           CoreInfo ("No deployment available: " ++ ToString (error_message d));
           SetOutput "nopreview" (JNum 1)])%list.
Proof. cbn. now rewrite <- !app_assoc. Qed.

Lemma run_no_preview env cfg d :
  fst (creation env cfg) = Normal d ->
  deploy_state d = JStr "error" ->
  matcher_test (error_message d) = true ->
  answers_ok (site env 0) = false ->
  run env cfg initial_world
  = (Normal tt,
     no_preview_world d (probed (deploy_ssl_url d) (snd (creation env cfg)))).
Proof.
  intros Hc Hs Hm Hp.
  destruct (creation_site_calls env cfg) as [S0 _].
  rewrite run_unfold.
  destruct (creation env cfg) as [c w]. cbn [fst snd] in *. subst c.
  unfold try_catch. rewrite after_creation_fallback by assumption.
  now rewrite S0, Hp.
Qed.

Lemma run_fallback_reachable env cfg d :
  fst (creation env cfg) = Normal d ->
  deploy_state d = JStr "error" ->
  matcher_test (error_message d) = true ->
  answers_ok (site env 0) = true ->
  run env cfg initial_world
  = try_catch (publish_and_wait env cfg d (deploy_ssl_url d)) top_level_catch
              (probed (deploy_ssl_url d) (snd (creation env cfg))).
Proof.
  intros Hc Hs Hm Hp.
  destruct (creation_site_calls env cfg) as [S0 _].
  rewrite run_unfold.
  destruct (creation env cfg) as [c w]. cbn [fst snd] in *. subst c.
  unfold try_catch. rewrite after_creation_fallback by assumption.
  now rewrite S0, Hp.
Qed.

Lemma other_paths_not_nopreview env cfg :
  no_preview_path env cfg = false ->
  forall e, In e (trace (snd (run env cfg initial_world))) ->
            not_nopreview e = true.
Proof.
  unfold no_preview_path. intros Hpath.
  destruct (creation_site_calls env cfg) as [S0 _].
  destruct (creation_trace env cfg) as [_ [_ [_ [Tn _]]]]. cbv zeta in Tn.
  destruct (fst (creation env cfg)) as [d|err|] eqn:Ec.
  - destruct (strict_eq (deploy_state d) (JStr "error")) eqn:Es.
    + apply strict_eq_str in Es.
      destruct (matcher_test (error_message d)) eqn:Em.
      * destruct (answers_ok (site env 0)) eqn:Ea; [|discriminate].
        rewrite (run_fallback_reachable env cfg d) by assumption.
        apply (extends_forall not_nopreview
                 (probed (deploy_ssl_url d) (snd (creation env cfg)))).
        -- apply publish_and_wait_not_nopreview.
        -- intros e He. cbn [probed trace] in He. apply in_app_iff in He.
           destruct He as [He|He]; [now apply Tn|].
           cbn in He. destruct He as [<-|[<-|[]]]; reflexivity.
      * rewrite run_unfold.
        destruct (creation env cfg) as [c w]. cbn [fst snd] in *. subst c.
        unfold try_catch. rewrite after_creation_error by assumption.
        intros e He. cbn in He. apply in_app_iff in He.
        destruct He as [He|[<-|[]]]; [now apply Tn | reflexivity].
    + rewrite run_unfold.
      destruct (creation env cfg) as [c w]. cbn [fst snd] in *. subst c.
      change (try_catch (after_creation env cfg d) top_level_catch w)
        with (match after_creation env cfg d w with
              | (Throw e, w') => top_level_catch e w'
              | r => r
              end).
      rewrite after_creation_live by exact Es.
      apply (extends_forall not_nopreview w).
      * apply (publish_and_wait_not_nopreview env cfg d (netlify_app_url d) w).
      * exact Tn.
  - rewrite run_unfold.
    destruct (creation env cfg) as [c w]. cbn [fst snd] in *. subst c.
    intros e He. cbn in He. apply in_app_iff in He.
    destruct He as [He|[<-|[]]]; [now apply Tn | reflexivity].
  - rewrite run_unfold.
    destruct (creation env cfg) as [c w]. cbn [fst snd] in *. subst c.
    exact Tn.
Qed.

(** C10. On the no-preview exit the run publishes [nopreview = 1] and
    nothing else: that publication is its last event, and neither
    [deploy_id] nor [url] is ever published.  On every other path
    [nopreview] is never published. *)
Theorem nopreview_only_on_skip_path (env : Env) (cfg : Config) :
  let tr := trace (snd (run env cfg initial_world)) in
  if no_preview_path env cfg
  then filter is_output tr = [SetOutput "nopreview" (JNum 1)]
       /\ last tr InterceptorUse = SetOutput "nopreview" (JNum 1)
       /\ (forall v, ~ In (SetOutput "deploy_id" v) tr)
       /\ (forall v, ~ In (SetOutput "url" v) tr)
  else forall v, ~ In (SetOutput "nopreview" v) tr.
Proof.
  cbv zeta. destruct (no_preview_path env cfg) eqn:Hpath.
  - unfold no_preview_path in Hpath.
    destruct (creation_trace env cfg) as [To _]. cbv zeta in To.
    destruct (fst (creation env cfg)) as [d|err|] eqn:Ec; try discriminate.
    apply andb_true_iff in Hpath. destruct Hpath as [Hpath Ha].
    apply andb_true_iff in Hpath. destruct Hpath as [Hs Hm].
    apply strict_eq_str in Hs. apply negb_true_iff in Ha.
    rewrite (run_no_preview env cfg d) by assumption.
    cbn [snd]. rewrite trace_no_preview_world.
    assert (F : filter is_output
                  (trace (snd (creation env cfg)) ++
                   [InterceptorUse; AxiosGet (deploy_ssl_url d);
                    CoreNotice "Skipping: no deployment available for this branch";
                    CoreInfo ("No deployment available: "
                            ++ ToString (error_message d));
                    SetOutput "nopreview" (JNum 1)])
                = [SetOutput "nopreview" (JNum 1)])
      by now rewrite filter_app, To.
    split; [exact F|]. split.
    { change [InterceptorUse; AxiosGet (deploy_ssl_url d);
              CoreNotice "Skipping: no deployment available for this branch";
              CoreInfo ("No deployment available: "
                      ++ ToString (error_message d));
              SetOutput "nopreview" (JNum 1)]
        with ([InterceptorUse; AxiosGet (deploy_ssl_url d);
               CoreNotice "Skipping: no deployment available for this branch";
               CoreInfo ("No deployment available: "
                       ++ ToString (error_message d))]
                ++ [SetOutput "nopreview" (JNum 1)])%list.
      rewrite app_assoc. apply last_last. }
    split; intros v Hin;
      (assert (Hf : In (SetOutput "deploy_id" v) [SetOutput "nopreview" (JNum 1)]
                    \/ In (SetOutput "url" v) [SetOutput "nopreview" (JNum 1)])
        by (rewrite <- F; [left + right]; apply filter_In; now split));
      destruct Hf as [[Hf|[]]|[Hf|[]]]; discriminate.
  - intros v Hin.
    pose proof (other_paths_not_nopreview env cfg Hpath _ Hin) as H.
    discriminate.
Qed.

Lemma nopreview_only_on_skip_path_witness :
  filter is_output
    (trace (snd (run (env_with skipped_deployment
                               (AxRejected (ErrResponse 404)))
                     push_abc123 initial_world)))
  = [SetOutput "nopreview" (JNum 1)]
  /\ forall v,
      ~ In (SetOutput "nopreview" v)
           (trace (snd (run (env_with live_deployment (AxResolved 200))
                            push_abc123 initial_world))).
Proof.
  split.
  - exact (proj1 (nopreview_only_on_skip_path
                    (env_with skipped_deployment (AxRejected (ErrResponse 404)))
                    push_abc123)).
  - exact (nopreview_only_on_skip_path
             (env_with live_deployment (AxResolved 200)) push_abc123).
Defined.

(** ** The fallback branch when the probe succeeds *)

Lemma readiness_callback_fetches env url MAX h s w :
  Readiness.elapsedTimeSeconds s + 30 < MAX ->
  exists evs,
    trace (snd (Readiness.callback env url MAX h s w))
    = (trace w ++ NetlifyGet url :: evs)%list.
Proof.
  intros H. unfold Readiness.callback, Readiness.increment.
  apply Z.leb_gt in H. rewrite H. unfold getNetlifyUrl.
  destruct (api env (api_calls w)) as [|b];
    [|destruct (Readiness.state_of b) as [st|];
      [destruct (includes READY_STATES st)|]];
    cbn [snd clearInterval emit unhandled_rejection trace]; eexists;
      rewrite <- app_assoc; reflexivity.
Qed.

(** With a budget of more than one period the readiness waiter registers
    its timer and requests its endpoint at least once. *)
Lemma readiness_first_fetch env url MAX w :
  30 < MAX ->
  exists evs,
    trace (snd (waitForReadiness env url MAX w))
    = (trace w ++ SetInterval (next_handle w) 30000 :: NetlifyGet url :: evs)%list.
Proof.
  intros H. rewrite waitForReadiness_unfold. cbv zeta. rewrite await_world.
  unfold Readiness.ticks_bound.
  rewrite poll_fire by (reflexivity || apply timer_active_setInterval).
  destruct (readiness_callback_fetches env url MAX (next_handle w)
              Readiness.initial (snd (setInterval 30000 w))) as [e1 E1];
    [cbn; lia|].
  destruct (poll_preserves (extends (waiter_event url 30000))
              Readiness.settled
              (Readiness.callback env url MAX (next_handle w))
              (next_handle w) (extends_refl _) (extends_trans _)
              (fun s w0 => proj2 (readiness_callback_frame
                                    env url 30000 MAX (next_handle w) s w0))
              (Z.to_nat (MAX / Readiness.increment))
              (fst (Readiness.callback env url MAX (next_handle w)
                      Readiness.initial (snd (setInterval 30000 w))))
              (snd (Readiness.callback env url MAX (next_handle w)
                      Readiness.initial (snd (setInterval 30000 w)))))
    as [e2 [E2 _]].
  exists (e1 ++ e2)%list. rewrite E2, E1. cbn [setInterval snd trace].
  rewrite <- !app_assoc. reflexivity.
Qed.

(** What the readiness waiter has put on the trace stays on it to the end
    of the run. *)
Lemma wait_and_probe_keeps env cfg d url w e :
  In e (trace (snd (waitForReadiness env
                      (deploy_url (site_id cfg) (deploy_id d))
                      MAX_WAIT_TIMEOUT w))) ->
  In e (trace (snd (try_catch (wait_and_probe env cfg d url)
                              top_level_catch w))).
Proof.
  intros Hin. unfold try_catch, wait_and_probe. unfold bind at 1.
  set (m := perform _;; waitForUrl _ _ _ _).
  assert (Fm : frames (fun _ => true) m).
  { subst m. apply frames_bind; [now apply frames_perform|].
    intros _. eapply frames_weaken; [|apply frames_waitForUrl]. reflexivity. }
  destruct (waitForReadiness _ _ _ _) as [[[]|err|] w1]; cbn [snd] in *.
  - specialize (Fm w1). destruct (m w1) as [[[]|err|] w2]; cbn [snd] in *.
    + eapply extends_In; eassumption.
    + eapply extends_In; [|eapply extends_In; eassumption].
      apply (frames_top_level_catch (fun _ => true) err). reflexivity.
    + eapply extends_In; eassumption.
  - eapply extends_In; [|exact Hin].
    apply (frames_top_level_catch (fun _ => true) err). reflexivity.
  - exact Hin.
Qed.

(** What the rest of the run adds after the readiness wait publishes
    nothing. *)
Lemma wait_and_probe_after_readiness env cfg d url w :
  extends quiet
          (snd (waitForReadiness env (deploy_url (site_id cfg) (deploy_id d))
                                 MAX_WAIT_TIMEOUT w))
          (snd (try_catch (wait_and_probe env cfg d url) top_level_catch w)).
Proof.
  unfold try_catch, wait_and_probe. unfold bind at 1.
  set (m := perform _;; waitForUrl _ _ _ _).
  assert (Fm : frames quiet m).
  { subst m. apply frames_bind; [now apply frames_perform|].
    intros _. eapply frames_weaken; [|apply frames_waitForUrl].
    apply prober_event_quiet. }
  destruct (waitForReadiness _ _ _ _) as [[[]|err|] w1]; cbn [snd].
  - specialize (Fm w1). destruct (m w1) as [[[]|err|] w2]; cbn [snd] in *.
    + exact Fm.
    + eapply extends_trans; [exact Fm|].
      now apply (frames_top_level_catch quiet err).
    + exact Fm.
  - now apply (frames_top_level_catch quiet err).
  - apply extends_refl.
Qed.

(** How the rest of the run depends on the outcome of the readiness
    wait. *)
Lemma wait_and_probe_cases env cfg d url w :
  let wait := waitForReadiness env (deploy_url (site_id cfg) (deploy_id d))
                               MAX_WAIT_TIMEOUT w in
  let r := try_catch (wait_and_probe env cfg d url) top_level_catch w in
  (fst wait = Normal tt ->
   r = waitForUrl env url (MAX_READY_TIMEOUT cfg) false
                  (emit (ConsoleLog ("Waiting for a 200 or 401 from: " ++ url))
                        (snd wait)))
  /\ (forall e, fst wait = Throw e ->
                r = (Normal tt, emit (SetFailed (failure_text e)) (snd wait)))
  /\ (fst wait = Pending -> r = (Pending, snd wait)).
Proof.
  cbv zeta. unfold try_catch, wait_and_probe. unfold bind at 1 3 5.
  destruct (waitForReadiness _ _ _ _) as [c wr]. cbn [fst snd].
  split; [|split].
  - intros ->. unfold bind, perform.
    pose proof (waitForUrl_no_throw env url (MAX_READY_TIMEOUT cfg)
                  (emit (ConsoleLog ("Waiting for a 200 or 401 from: " ++ url))
                        wr)) as Hn.
    destruct (waitForUrl _ _ _ _ _) as [[[]|e|] w2]; cbn [fst] in Hn.
    + reflexivity.
    + now destruct (Hn e).
    + reflexivity.
  - intros e ->. reflexivity.
  - intros ->. reflexivity.
Qed.

(** C2, as the code has it.  In the fallback branch, when the one probe of
    the fallback URL succeeds, the run goes on as for a live deployment with
    the fallback URL as its target.  After the probe it publishes
    [deploy_id] and [url] (the fallback URL), and nothing else ever; then it
    starts the readiness waiter on the deployment's endpoint with a budget
    of 900, which registers its 30-unit timer and requests that endpoint.
    When that wait resolves, the run is the prober on the fallback URL
    again, with the configured budget and without the single-attempt flag;
    when it rejects, the run reports the reason and returns. *)
Theorem fallback_probe_success_continues
        (env : Env) (cfg : Config) (d : Deployment) :
  fst (creation env cfg) = Normal d ->
  deploy_state d = JStr "error" ->
  matcher_test (error_message d) = true ->
  answers_ok (site env 0) = true ->
  let w0 := snd (creation env cfg) in
  let url := deploy_ssl_url d in
  let endpoint := "https://api.netlify.com/api/v1/sites/" ++ site_id cfg
                    ++ "/deploys/" ++ deploy_id d in
  let w1 := mkWorld (api_calls w0) 1 1 (timers w0) (next_handle w0)
              (trace w0
                 ++ [InterceptorUse;
                     AxiosGet url;
                     SetOutput "deploy_id" (JStr (deploy_id d));
                     SetOutput "url" (JStr url);
                     ConsoleLog ("Waiting for Netlify deployment "
                                   ++ deploy_id d ++ " in site "
                                   ++ deploy_name d ++ " to be ready")]) in
  let wait := waitForReadiness env endpoint 900 w1 in
  let r := run env cfg initial_world in
  (exists evs,
      trace (snd wait)
      = (trace w1
           ++ [SetInterval (next_handle w0) 30000; NetlifyGet endpoint]
           ++ evs)%list)
  /\ (fst wait = Normal tt ->
      r = waitForUrl env url (MAX_READY_TIMEOUT cfg) false
                     (emit (ConsoleLog
                              ("Waiting for a 200 or 401 from: " ++ url))
                           (snd wait)))
  /\ (forall e, fst wait = Throw e ->
                r = (Normal tt, emit (SetFailed (failure_text e)) (snd wait)))
  /\ (fst wait = Pending -> r = (Pending, snd wait))
  /\ (exists evs,
         trace (snd r)
         = (trace w1
              ++ [SetInterval (next_handle w0) 30000; NetlifyGet endpoint]
              ++ evs)%list)
  /\ filter is_output (trace (snd r))
     = [SetOutput "deploy_id" (JStr (deploy_id d));
        SetOutput "url" (JStr url)].
Proof.
  intros Hc Hs Hm Hp. cbv zeta.
  destruct (creation_trace env cfg) as [To _]. cbv zeta in To.
  destruct (creation_site_calls env cfg) as [S0 I0].
  rewrite (run_fallback_reachable env cfg d) by assumption.
  set (w0 := snd (creation env cfg)) in *.
  set (url := deploy_ssl_url d).
  change (try_catch (publish_and_wait env cfg d url) top_level_catch
                    (probed url w0))
    with (try_catch (wait_and_probe env cfg d url) top_level_catch
                    (published d url (probed url w0))).
  assert (W : published d url (probed url w0)
              = mkWorld (api_calls w0) 1 1 (timers w0) (next_handle w0)
                  (trace w0
                     ++ [InterceptorUse;
                         AxiosGet url;
                         SetOutput "deploy_id" (JStr (deploy_id d));
                         SetOutput "url" (JStr url);
                         ConsoleLog ("Waiting for Netlify deployment "
                                       ++ deploy_id d ++ " in site "
                                       ++ deploy_name d ++ " to be ready")])).
  { unfold published, probed, emit.
    cbn [api_calls site_calls interceptors timers next_handle trace].
    rewrite S0, I0, <- !app_assoc. reflexivity. }
  rewrite W. set (w1 := mkWorld _ _ _ _ _ _) in *.
  change ("https://api.netlify.com/api/v1/sites/" ++ site_id cfg
            ++ "/deploys/" ++ deploy_id d)
    with (deploy_url (site_id cfg) (deploy_id d)).
  change 900 with MAX_WAIT_TIMEOUT.
  destruct (wait_and_probe_cases env cfg d url w1) as [R1 [R2 R3]].
  cbv zeta in R1, R2, R3.
  destruct (readiness_first_fetch env
              (deploy_url (site_id cfg) (deploy_id d)) MAX_WAIT_TIMEOUT w1)
    as [evs E]; [reflexivity|].
  destruct (wait_and_probe_after_readiness env cfg d url w1) as [e2 [E2 F2]].
  split; [|split; [|split; [|split; [|split]]]].
  - exists evs. exact E.
  - exact R1.
  - exact R2.
  - exact R3.
  - exists (evs ++ e2)%list. rewrite E2, E. rewrite <- !app_assoc.
    reflexivity.
  - rewrite (extends_filter quiet is_output w1).
    + subst w1. cbn [trace]. rewrite filter_app, To. reflexivity.
    + intros e He. unfold quiet in He. now apply negb_true_iff in He.
    + apply wait_and_probe_quiet.
Qed.

Lemma fallback_probe_success_continues_witness :
  filter is_output
    (trace (snd (run (env_with skipped_deployment (AxResolved 200))
                     push_abc123 initial_world)))
  = [SetOutput "deploy_id" (JStr "64f0");
     SetOutput "url" (JStr "https://main--docs.netlify.app")]
  /\ run (env_with skipped_deployment (AxResolved 200)) push_abc123
         initial_world
     = waitForUrl (env_with skipped_deployment (AxResolved 200))
                  "https://main--docs.netlify.app" 60%Q false
                  (mkWorld 2 1 1 [] 2
                     [ConsoleLog
                        "Waiting for Netlify to create a deployment for git SHA abc123";
                      SetInterval 0 15000;
                      NetlifyGet
                        "https://api.netlify.com/api/v1/sites/site-1/deploys";
                      ClearInterval 0;
                      InterceptorUse;
                      AxiosGet "https://main--docs.netlify.app";
                      SetOutput "deploy_id" (JStr "64f0");
                      SetOutput "url" (JStr "https://main--docs.netlify.app");
                      ConsoleLog
                        "Waiting for Netlify deployment 64f0 in site docs to be ready";
                      SetInterval 1 30000;
                      NetlifyGet
                        "https://api.netlify.com/api/v1/sites/site-1/deploys/64f0";
                      ClearInterval 1;
                      ConsoleLog
                        "Waiting for a 200 or 401 from: https://main--docs.netlify.app"]).
Proof.
  pose proof (fallback_probe_success_continues
                (env_with skipped_deployment (AxResolved 200))
                push_abc123 skipped_deployment
                eq_refl eq_refl eq_refl eq_refl) as H.
  cbv zeta in H. destruct H as [_ [H2 [_ [_ [_ H6]]]]].
  split; [exact H6|].
  rewrite H2 by (vm_compute; reflexivity).
  f_equal; vm_compute; reflexivity.
Defined.

(** C2, as stated, fails: the deployment is in state "error" with the skip
    phrase as its message, the probe of the fallback URL succeeds, and the
    run registers the readiness timer and requests the deployment's
    endpoint. *)
Lemma fallback_probe_success_reaches_readiness :
  fst (creation (env_with skipped_deployment (AxResolved 200)) push_abc123)
  = Normal skipped_deployment
  /\ deploy_state skipped_deployment = JStr "error"
  /\ matcher_test (error_message skipped_deployment) = true
  /\ answers_ok (site (env_with skipped_deployment (AxResolved 200)) 0) = true
  /\ trace (snd (run (env_with skipped_deployment (AxResolved 200))
                     push_abc123 initial_world))
     = [ConsoleLog
          "Waiting for Netlify to create a deployment for git SHA abc123";
        SetInterval 0 15000;
        NetlifyGet "https://api.netlify.com/api/v1/sites/site-1/deploys";
        ClearInterval 0;
        InterceptorUse;
        AxiosGet "https://main--docs.netlify.app";
        SetOutput "deploy_id" (JStr "64f0");
        SetOutput "url" (JStr "https://main--docs.netlify.app");
        ConsoleLog "Waiting for Netlify deployment 64f0 in site docs to be ready";
        SetInterval 1 30000;
        NetlifyGet "https://api.netlify.com/api/v1/sites/site-1/deploys/64f0";
        ClearInterval 1;
        ConsoleLog "Waiting for a 200 or 401 from: https://main--docs.netlify.app";
        InterceptorUse;
        AxiosGet "https://main--docs.netlify.app"]
  /\ In (NetlifyGet (deploy_url (site_id push_abc123)
                                (deploy_id skipped_deployment)))
        (trace (snd (run (env_with skipped_deployment (AxResolved 200))
                         push_abc123 initial_world))).
Proof.
  repeat split; try reflexivity.
  vm_compute. do 10 right. left. reflexivity.
Qed.

(** ** Timers *)

(** A settled creation waiter has cancelled its timer, unless it was
    settled by the not-found rejection. *)
Lemma creation_callback_cancels env url sha MAX h s w :
  Creation.promise s = None ->
  match Creation.promise (fst (Creation.callback env url sha MAX h s w)) with
  | None => True
  | Some (Fulfilled _) =>
      timer_active h (snd (Creation.callback env url sha MAX h s w)) = false
  | Some (RejectedWith reason) =>
      reason = Creation.not_found_message
      \/ timer_active h (snd (Creation.callback env url sha MAX h s w)) = false
  end.
Proof.
  intros Hp. unfold Creation.callback. rewrite Hp.
  destruct (MAX <=? _); cbn [fst snd Creation.promise settle];
    [right; apply timer_active_clear|].
  unfold getNetlifyUrl.
  destruct (api env (api_calls w)) as [|[| |l|d]];
    cbn [fst snd Creation.promise settle]; try exact I; try (now left).
  destruct (Creation.find_commit sha l);
    cbn [fst snd Creation.promise settle];
    [apply timer_active_clear | exact I].
Qed.

Lemma creation_exits_cancel env url sha MAX h :
  forall fuel s w,
    Creation.promise s = None ->
    match Creation.promise
            (fst (poll Creation.settled (Creation.callback env url sha MAX h)
                       h fuel s w)) with
    | None => True
    | Some (Fulfilled _) =>
        timer_active h (snd (poll Creation.settled
                                  (Creation.callback env url sha MAX h)
                                  h fuel s w)) = false
    | Some (RejectedWith reason) =>
        reason = Creation.not_found_message
        \/ timer_active h (snd (poll Creation.settled
                                     (Creation.callback env url sha MAX h)
                                     h fuel s w)) = false
    end.
Proof.
  induction fuel as [|fuel IH]; intros s w Hp.
  - cbn. unfold Creation.settled. rewrite Hp. cbn. now rewrite Hp.
  - assert (Hs : Creation.settled s = false)
      by (unfold Creation.settled; now rewrite Hp).
    destruct (timer_active h w) eqn:Ha;
      [|cbn [poll]; rewrite Hs, Ha; cbn [fst]; now rewrite Hp].
    rewrite poll_fire by assumption.
    pose proof (creation_callback_cancels env url sha MAX h s w Hp) as Hcb.
    destruct (Creation.promise (fst (Creation.callback env url sha MAX h s w)))
      as [r|] eqn:Hp'; [|now apply IH].
    rewrite poll_settled by (unfold Creation.settled; now rewrite Hp').
    cbn [fst snd]. now rewrite Hp'.
Qed.

(** A settled readiness waiter has always cancelled its timer. *)
Lemma readiness_callback_cancels env url MAX h s w :
  Readiness.promise s = None ->
  match Readiness.promise (fst (Readiness.callback env url MAX h s w)) with
  | None => True
  | Some _ =>
      timer_active h (snd (Readiness.callback env url MAX h s w)) = false
  end.
Proof.
  intros Hp. unfold Readiness.callback. rewrite Hp.
  destruct (MAX <=? _); cbn [fst snd Readiness.promise settle];
    [apply timer_active_clear|].
  unfold getNetlifyUrl.
  destruct (api env (api_calls w)) as [|b];
    cbn [fst snd Readiness.promise]; [exact I|].
  destruct (Readiness.state_of b) as [st|];
    cbn [fst snd Readiness.promise]; [|exact I].
  destruct (includes READY_STATES st);
    cbn [fst snd Readiness.promise settle];
    [apply timer_active_clear | exact I].
Qed.

Lemma readiness_exits_cancel env url MAX h :
  forall fuel s w,
    Readiness.promise s = None ->
    match Readiness.promise
            (fst (poll Readiness.settled (Readiness.callback env url MAX h)
                       h fuel s w)) with
    | None => True
    | Some _ =>
        timer_active h (snd (poll Readiness.settled
                                  (Readiness.callback env url MAX h)
                                  h fuel s w)) = false
    end.
Proof.
  induction fuel as [|fuel IH]; intros s w Hp.
  - cbn. unfold Readiness.settled. rewrite Hp. cbn. now rewrite Hp.
  - assert (Hs : Readiness.settled s = false)
      by (unfold Readiness.settled; now rewrite Hp).
    destruct (timer_active h w) eqn:Ha;
      [|cbn [poll]; rewrite Hs, Ha; cbn [fst]; now rewrite Hp].
    rewrite poll_fire by assumption.
    pose proof (readiness_callback_cancels env url MAX h s w Hp) as Hcb.
    destruct (Readiness.promise (fst (Readiness.callback env url MAX h s w)))
      as [r|] eqn:Hp'; [|now apply IH].
    rewrite poll_settled by (unfold Readiness.settled; now rewrite Hp').
    cbn [fst snd]. now rewrite Hp'.
Qed.

(** C1, where the code departs from it.  The first listing request of the
    creation waiter is answered with an empty body: the waiter rejects with
    the not-found message, its timer is still active and was never
    cancelled, the next firing of the callback requests the listing again,
    and the timer is still registered when [run] has reported the failure
    and returned. *)
Theorem not_found_exit_leaves_timer_running :
  Creation.promise
    (snd (fst (Creation.start env_null_listing "deploys" (JStr "abc123") 300
                              initial_world)))
  = Some (RejectedWith "Failed to get deployments for site")
  /\ timer_active
       (fst (fst (Creation.start env_null_listing "deploys" (JStr "abc123")
                                 300 initial_world)))
       (snd (Creation.start env_null_listing "deploys" (JStr "abc123") 300
                            initial_world)) = true
  /\ trace (snd (Creation.start env_null_listing "deploys" (JStr "abc123") 300
                                initial_world))
     = [SetInterval 0 15000; NetlifyGet "deploys"]
  /\ trace (snd (Creation.callback env_null_listing "deploys" (JStr "abc123")
                   300 0
                   (snd (fst (Creation.start env_null_listing "deploys"
                                (JStr "abc123") 300 initial_world)))
                   (snd (Creation.start env_null_listing "deploys"
                           (JStr "abc123") 300 initial_world))))
     = [SetInterval 0 15000; NetlifyGet "deploys"; NetlifyGet "deploys"]
  /\ run env_null_listing push_abc123 initial_world
     = (Normal tt,
        mkWorld 1 0 0 [0%nat] 1
          [ConsoleLog
             "Waiting for Netlify to create a deployment for git SHA abc123";
           SetInterval 0 15000;
           NetlifyGet "https://api.netlify.com/api/v1/sites/site-1/deploys";
           SetFailed "Failed to get deployments for site"]).
Proof. repeat split; reflexivity. Qed.

(** ** Every wait ends *)

(** Once the budget is used up the timer of the readiness waiter is gone:
    cancelled where the promise was settled, or lost with the process. *)
Lemma readiness_poll_ends env url MAX h :
  forall fuel s w,
    Readiness.promise s = None ->
    (Z.to_nat ((MAX - Readiness.elapsedTimeSeconds s - 1) / 30) < fuel)%nat ->
    timer_active h
      (snd (poll Readiness.settled (Readiness.callback env url MAX h)
                 h fuel s w)) = false.
Proof.
  induction fuel as [|fuel IH]; intros s w Hp Hf; [lia|].
  assert (Hs : Readiness.settled s = false)
    by (unfold Readiness.settled; now rewrite Hp).
  destruct (timer_active h w) eqn:Ha;
    [|cbn [poll]; rewrite Hs, Ha; exact Ha].
  rewrite poll_fire by assumption.
  pose proof (readiness_callback_cancels env url MAX h s w Hp) as Hcb.
  pose proof (readiness_callback_elapsed env url MAX h s w) as He.
  destruct (readiness_callback_cases env url MAX h s w Hp)
    as [[Hto [Hr _]]|[Hin [_ [Hn|[d [Hr _]]]]]].
  - rewrite Hr in Hcb.
    rewrite poll_settled by (unfold Readiness.settled; now rewrite Hr).
    exact Hcb.
  - apply IH; [exact Hn|]. rewrite He.
    rewrite (ticks_left_step MAX (Readiness.elapsedTimeSeconds s) 30) in Hf
      by lia.
    lia.
  - rewrite Hr in Hcb.
    rewrite poll_settled by (unfold Readiness.settled; now rewrite Hr).
    exact Hcb.
Qed.

(** The same for the creation waiter, but for the not-found rejection. *)
Lemma creation_poll_ends env url sha MAX h :
  forall fuel s w,
    Creation.promise s = None ->
    (Z.to_nat ((MAX - Creation.elapsedTimeSeconds s - 1) / 15) < fuel)%nat ->
    Creation.promise
      (fst (poll Creation.settled (Creation.callback env url sha MAX h)
                 h fuel s w))
    = Some (RejectedWith Creation.not_found_message)
    \/ timer_active h
         (snd (poll Creation.settled (Creation.callback env url sha MAX h)
                    h fuel s w)) = false.
Proof.
  induction fuel as [|fuel IH]; intros s w Hp Hf; [lia|].
  assert (Hs : Creation.settled s = false)
    by (unfold Creation.settled; now rewrite Hp).
  destruct (timer_active h w) eqn:Ha;
    [|right; cbn [poll]; rewrite Hs, Ha; exact Ha].
  rewrite poll_fire by assumption.
  pose proof (creation_callback_cancels env url sha MAX h s w Hp) as Hcb.
  pose proof (creation_callback_elapsed env url sha MAX h s w) as He.
  destruct (creation_callback_cases env url sha MAX h s w Hp)
    as [[Hto [Hr _]]|[Hin [_ [Hn|[Hr|[d [l [Hr _]]]]]]]].
  - rewrite Hr in Hcb.
    rewrite poll_settled by (unfold Creation.settled; now rewrite Hr).
    cbn [fst snd]. rewrite Hr. destruct Hcb as [Hcb|Hcb]; [left|right].
    + now rewrite Hcb.
    + exact Hcb.
  - apply IH; [exact Hn|]. rewrite He.
    rewrite (ticks_left_step MAX (Creation.elapsedTimeSeconds s) 15) in Hf
      by lia.
    lia.
  - left.
    rewrite poll_settled by (unfold Creation.settled; now rewrite Hr).
    exact Hr.
  - right. rewrite Hr in Hcb.
    rewrite poll_settled by (unfold Creation.settled; now rewrite Hr).
    exact Hcb.
Qed.

(** The loop of the prober ends within its slots. *)
Lemma waitForUrl_loop_ends env url it flag :
  forall fuel i w,
    fuel = Z.to_nat (Qceiling it - i) ->
    fst (waitForUrl_loop env url it flag fuel i w) <> Pending.
Proof.
  induction fuel as [|fuel IH]; intros i w Hf; cbn [waitForUrl_loop].
  - rewrite lt_iterations_false by lia. discriminate.
  - destruct (lt_iterations i it); [|discriminate].
    destruct (axios_get env url w) as [[st|e] w1]; [discriminate|].
    destruct flag; [discriminate|]. apply IH. lia.
Qed.

Lemma waitForUrl_ends env url MAX flag w :
  fst (waitForUrl env url MAX flag w) <> Pending.
Proof.
  unfold waitForUrl. cbv zeta. apply waitForUrl_loop_ends.
  now rewrite Z.sub_0_r.
Qed.

(** * Further properties *)

(** ** Outcomes of the creation waiter *)

Lemma poll_idle {S} (settled : S -> bool) cb h fuel s w :
  timer_active h w = false -> poll settled cb h fuel s w = (s, w).
Proof.
  intros H. destruct fuel; cbn [poll]; destruct (settled s); try reflexivity.
  now rewrite H.
Qed.

Lemma last_unhandled_rejection w :
  last (trace (unhandled_rejection w)) InterceptorUse = UnhandledRejection.
Proof. cbn [unhandled_rejection trace]. apply last_last. Qed.

(** A creation promise that is still unsettled when the budget is used up
    was left behind by a process that ended at an answer the callback
    could not read. *)
Lemma creation_poll_pending env url sha MAX h :
  forall fuel e w,
    timer_active h w = true ->
    (Z.to_nat ((MAX - e - 1) / 15) < fuel)%nat ->
    Creation.promise
      (fst (poll Creation.settled (Creation.callback env url sha MAX h) h
                 fuel (Creation.mkSession e None) w)) = None ->
    (exists k,
        e + 15 * (Z.of_nat k + 1) < MAX
        /\ listing_or_falsy (api env (api_calls w + k)) = false)
    /\ last (trace (snd (poll Creation.settled
                              (Creation.callback env url sha MAX h) h fuel
                              (Creation.mkSession e None) w)))
            InterceptorUse
       = UnhandledRejection
    /\ timers (snd (poll Creation.settled
                         (Creation.callback env url sha MAX h) h fuel
                         (Creation.mkSession e None) w)) = [].
Proof.
  induction fuel as [|fuel IH]; intros e w Ha Hf; [lia|].
  rewrite poll_fire by (reflexivity || assumption).
  destruct (Z_le_gt_dec MAX (e + 15)) as [Hto|Hin].
  { rewrite creation_tick_timeout by (cbn; lia).
    cbn [fst snd]. rewrite poll_settled by reflexivity. discriminate. }
  destruct (listing_or_falsy (api env (api_calls w))) eqn:Er.
  - destruct (listing_without sha (api env (api_calls w))) eqn:El.
    + rewrite creation_tick_without by (cbn; lia || assumption).
      cbn [fst snd Creation.elapsedTimeSeconds Creation.promise].
      set (w' := emit _ _).
      assert (Hc : api_calls w' = S (api_calls w)) by reflexivity.
      intros Hp. destruct (IH (e + 15) w') as [[k [Hk Hu]] [Hl Ht]].
      * exact Ha.
      * rewrite (ticks_left_step MAX e 15) in Hf by lia. lia.
      * exact Hp.
      * split; [|split; assumption]. exists (S k). split; [lia|].
        rewrite Hc in Hu.
        now replace (api_calls w + S k)%nat
          with (S (api_calls w) + k)%nat by lia.
    + destruct (creation_callback_cases env url sha MAX h
                  (Creation.mkSession e None) w eq_refl)
        as [[Hto _]|[_ [_ [Hn|[Hr|[d [l [Hr _]]]]]]]].
      * cbn in Hto. lia.
      * exfalso. revert Hn. unfold Creation.callback, Creation.increment.
        cbn [Creation.elapsedTimeSeconds Creation.promise].
        replace (MAX <=? e + 15) with false by (symmetry; apply Z.leb_gt; lia).
        unfold getNetlifyUrl, listing_or_falsy, listing_without in *.
        destruct (api env (api_calls w)) as [|[| |l|d]]; try discriminate.
        destruct (Creation.find_commit sha l); discriminate.
      * rewrite poll_settled by (unfold Creation.settled; now rewrite Hr).
        cbn [fst snd]. rewrite Hr. discriminate.
      * rewrite poll_settled by (unfold Creation.settled; now rewrite Hr).
        cbn [fst snd]. rewrite Hr. discriminate.
  - rewrite creation_tick_unreadable by (cbn; lia || assumption).
    cbn [fst snd]. rewrite poll_idle by reflexivity. cbn [fst snd].
    intros _. split; [|split; [apply last_unhandled_rejection|reflexivity]].
    exists O. rewrite Nat.add_0_r. split; [lia | exact Er].
Qed.

Lemma unreadable_listing r :
  listing_or_falsy r = false ->
  r = FetchRejected \/ exists d, r = FetchData (BObject d).
Proof.
  destruct r as [|[| |l|d]]; cbn; intros H; try discriminate;
    [now left | right; now exists d].
Qed.

(** X1. How a creation wait can end.  When it resolves, the record it
    yields carries the target commit and is a member of a listing that was
    fetched at a tick before the budget.  When it rejects, the reason is
    the not-found message or the timeout message of its budget.  It stays
    pending in one case only: at a tick before the budget the listing
    request was rejected, or answered with a single record instead of a
    listing, and the process ended there by the unhandled rejection of the
    callback's promise, all timers gone.  So the wait settles whenever
    every answer within the budget is a listing or a falsy body. *)
Theorem creation_waiter_outcomes
        (env : Env) (url : string) (sha : jsval) (MAX : Z) (w : World) :
  Z.abs MAX < 10 ^ 21 ->
  match fst (waitForDeployCreation env url sha MAX w) with
  | Normal d =>
      commit_ref d = sha
      /\ exists k l,
          15 * (Z.of_nat k + 1) < MAX
          /\ api env (api_calls w + k) = FetchData (BArray l)
          /\ In d l
  | Throw e =>
      e = ThrownStr "Failed to get deployments for site"
      \/ e = ThrownStr ("Timeout reached: Deployment was not created within "
                          ++ string_of_Z MAX ++ " seconds.")
  | Pending =>
      (exists k,
          15 * (Z.of_nat k + 1) < MAX
          /\ (api env (api_calls w + k) = FetchRejected
              \/ exists d, api env (api_calls w + k) = FetchData (BObject d)))
      /\ last (trace (snd (waitForDeployCreation env url sha MAX w)))
              InterceptorUse
         = UnhandledRejection
      /\ timers (snd (waitForDeployCreation env url sha MAX w)) = []
  end.
Proof.
  intros _.
  destruct (fst (waitForDeployCreation env url sha MAX w)) as [d|e|] eqn:E.
  - destruct (waitForDeployCreation_resolved env url sha MAX w d E)
      as [k [l [Hk [Hl Hf]]]].
    apply find_commit_first in Hf. destruct Hf as [l1 [l2 [El [Hc _]]]].
    split; [exact Hc|]. exists k, l. split; [exact Hk|]. split; [exact Hl|].
    rewrite El. apply in_app_iff. right. now left.
  - revert E. rewrite waitForDeployCreation_unfold. cbv zeta.
    pose proof (creation_poll_outcome env url sha MAX (next_handle w)
                  (Creation.ticks_bound MAX) Creation.initial
                  (snd (setInterval 15000 w)) eq_refl) as H.
    destruct (Creation.promise _) as [[d|r]|]; cbn [await fst ret throw];
      intros E; try discriminate.
    injection E as <-. destruct H as [->| ->]; [now left | now right].
  - revert E. rewrite waitForDeployCreation_unfold. cbv zeta.
    rewrite await_world.
    pose proof (creation_poll_pending env url sha MAX (next_handle w)
                  (Creation.ticks_bound MAX) 0 (snd (setInterval 15000 w))
                  (timer_active_setInterval 15000 w)
                  (creation_ticks_bound_enough MAX)) as H.
    fold Creation.initial in H.
    destruct (Creation.promise _) as [[d|r]|]; cbn [await fst ret throw];
      intros E; try discriminate.
    destruct (H eq_refl) as [[k [Hk Hu]] [Hl Ht]].
    split; [|split; assumption]. exists k. split; [lia|].
    apply unreadable_listing. exact Hu.
Qed.

Lemma creation_waiter_outcomes_witness :
  fst (waitForDeployCreation env_busy_listing "deploys" (JStr "abc123") 300
                             initial_world) = Normal sample_deployment
  /\ commit_ref sample_deployment = JStr "abc123"
  /\ last (trace (snd (waitForDeployCreation env_unreachable_api "deploys"
                         (JStr "abc123") 300 initial_world)))
          InterceptorUse
     = UnhandledRejection.
Proof.
  pose proof (creation_waiter_outcomes env_busy_listing "deploys"
                (JStr "abc123") 300 initial_world eq_refl) as H1.
  pose proof (creation_waiter_outcomes env_unreachable_api "deploys"
                (JStr "abc123") 300 initial_world eq_refl) as H2.
  assert (E1 : fst (waitForDeployCreation env_busy_listing "deploys"
                      (JStr "abc123") 300 initial_world)
               = Normal sample_deployment) by (vm_compute; reflexivity).
  assert (E2 : fst (waitForDeployCreation env_unreachable_api "deploys"
                      (JStr "abc123") 300 initial_world)
               = Pending) by (vm_compute; reflexivity).
  rewrite E1 in H1. rewrite E2 in H2.
  split; [exact E1|]. split; [exact (proj1 H1) | exact (proj1 (proj2 H2))].
Defined.

(** An answer with a falsy body, after listings without the commit and
    before the budget, settles the promise with the not-found rejection. *)
Lemma creation_poll_not_found env url sha MAX h :
  forall k fuel e w,
    (k < fuel)%nat ->
    timer_active h w = true ->
    e + 15 * (Z.of_nat k + 1) < MAX ->
    (forall j, (j < k)%nat ->
               listing_without sha (api env (api_calls w + j)) = true) ->
    falsy_body (api env (api_calls w + k)) = true ->
    Creation.promise
      (fst (poll Creation.settled (Creation.callback env url sha MAX h) h fuel
                 (Creation.mkSession e None) w))
    = Some (RejectedWith Creation.not_found_message).
Proof.
  induction k as [|k IH]; intros fuel e w Hf Ha He Hw Hm;
    (destruct fuel as [|fuel]; [lia|]);
    rewrite poll_fire by (reflexivity || assumption).
  - rewrite Nat.add_0_r in Hm.
    assert (Hcb : Creation.promise
                    (fst (Creation.callback env url sha MAX h
                            (Creation.mkSession e None) w))
                  = Some (RejectedWith Creation.not_found_message)).
    { unfold Creation.callback, Creation.increment.
      cbn [Creation.elapsedTimeSeconds Creation.promise].
      replace (MAX <=? e + 15) with false by (symmetry; apply Z.leb_gt; lia).
      unfold getNetlifyUrl, falsy_body in *.
      destruct (api env (api_calls w)) as [|[| |l|d]]; try discriminate;
        reflexivity. }
    rewrite poll_settled by (unfold Creation.settled; now rewrite Hcb).
    exact Hcb.
  - rewrite creation_tick_without;
      [| cbn; lia | rewrite <- (Nat.add_0_r (api_calls w)); apply Hw; lia].
    cbn [fst snd Creation.elapsedTimeSeconds Creation.promise].
    set (w' := emit _ _).
    assert (Hc : api_calls w' = S (api_calls w)) by reflexivity.
    apply IH.
    + lia.
    + exact Ha.
    + lia.
    + intros j Hj. rewrite Hc. replace (S (api_calls w) + j)%nat
        with (api_calls w + S j)%nat by lia. apply Hw. lia.
    + rewrite Hc. replace (S (api_calls w) + k)%nat
        with (api_calls w + S k)%nat by lia. exact Hm.
Qed.

(** X2. When a listing request is answered with a falsy body (null or
    empty) at a tick before the budget, and the listings fetched before it
    hold no record of the commit, the creation waiter rejects with the
    not-found message, whatever the later answers would be. *)
Theorem creation_waiter_not_found
        (env : Env) (url : string) (sha : jsval) (MAX : Z) (w : World)
        (k : nat) :
  15 * (Z.of_nat k + 1) < MAX ->
  (forall j, (j < k)%nat ->
             listing_without sha (api env (api_calls w + j)) = true) ->
  falsy_body (api env (api_calls w + k)) = true ->
  fst (waitForDeployCreation env url sha MAX w)
  = Throw (ThrownStr "Failed to get deployments for site").
Proof.
  intros Hk Hw Hm. rewrite waitForDeployCreation_unfold. cbv zeta.
  unfold Creation.initial.
  rewrite (creation_poll_not_found env url sha MAX (next_handle w) k).
  - reflexivity.
  - unfold Creation.ticks_bound, Creation.increment.
    assert (Z.of_nat k + 1 <= MAX / 15)
      by (apply Z.div_le_lower_bound; lia).
    lia.
  - apply timer_active_setInterval.
  - lia.
  - exact Hw.
  - exact Hm.
Qed.

Lemma creation_waiter_not_found_witness :
  fst (waitForDeployCreation env_listing_then_null "deploys" (JStr "abc123")
                             300 initial_world)
  = Throw (ThrownStr "Failed to get deployments for site").
Proof.
  apply (creation_waiter_not_found env_listing_then_null "deploys"
                                   (JStr "abc123") 300 initial_world 1).
  - reflexivity.
  - intros [|j] Hj; [reflexivity | inversion Hj as [|? Hj']; inversion Hj'].
  - reflexivity.
Defined.

(** ** How many requests are made *)

Section Bounded.

Variable count : World -> nat.

Lemma bounded_ret {A} (a : A) : bounded count 0 (ret a).
Proof. intros w. cbn. lia. Qed.

Lemma bounded_throw {A} e : bounded count 0 (@throw A e).
Proof. intros w. cbn. lia. Qed.

Lemma bounded_perform e :
  (forall w, count (emit e w) = count w) -> bounded count 0 (perform e).
Proof. intros H w. cbn. rewrite H. lia. Qed.

Lemma bounded_weaken {A} n n' (m : M A) :
  (n <= n')%nat -> bounded count n m -> bounded count n' m.
Proof. intros Hn Hm w. specialize (Hm w). lia. Qed.

Lemma bounded_bind {A B} n n' (m : M A) (k : A -> M B) :
  bounded count n m -> (forall a, bounded count n' (k a)) ->
  bounded count (n + n') (bind m k).
Proof.
  intros Hm Hk w. unfold bind. specialize (Hm w).
  destruct (m w) as [[a|e|] w']; cbn [snd] in *; try lia.
  specialize (Hk a w'). lia.
Qed.

Lemma bounded_try_catch {A} n n' (m : M A) handler :
  bounded count n m -> (forall e, bounded count n' (handler e)) ->
  bounded count (n + n') (try_catch m handler).
Proof.
  intros Hm Hh w. unfold try_catch. specialize (Hm w).
  destruct (m w) as [[a|e|] w']; cbn [snd] in *; try lia.
  specialize (Hh e w'). lia.
Qed.

End Bounded.

Lemma creation_callback_requests env url sha MAX h s w :
  api_calls (snd (Creation.callback env url sha MAX h s w))
  = if MAX <=? Creation.elapsedTimeSeconds s + 15
    then api_calls w else S (api_calls w).
Proof.
  unfold Creation.callback, Creation.increment.
  destruct (MAX <=? _); [reflexivity|].
  unfold getNetlifyUrl.
  destruct (api env (api_calls w)) as [|[| |l|d]]; try reflexivity.
  now destruct (Creation.find_commit sha l).
Qed.

Lemma readiness_callback_requests env url MAX h s w :
  api_calls (snd (Readiness.callback env url MAX h s w))
  = if MAX <=? Readiness.elapsedTimeSeconds s + 30
    then api_calls w else S (api_calls w).
Proof.
  unfold Readiness.callback, Readiness.increment.
  destruct (MAX <=? _); [reflexivity|].
  unfold getNetlifyUrl.
  destruct (api env (api_calls w)) as [|b]; [reflexivity|].
  destruct (Readiness.state_of b) as [st|]; [|reflexivity].
  now destruct (includes READY_STATES st).
Qed.

Lemma creation_poll_requests env url sha MAX h :
  forall fuel s w,
    (api_calls (snd (poll Creation.settled
                          (Creation.callback env url sha MAX h) h fuel s w))
     <= api_calls w
        + Z.to_nat ((MAX - Creation.elapsedTimeSeconds s - 1) / 15))%nat.
Proof.
  induction fuel as [|fuel IH]; intros s w; cbn [poll].
  - destruct (Creation.settled s); cbn; lia.
  - destruct (Creation.settled s); [cbn; lia|].
    destruct (timer_active h w); [|cbn; lia].
    pose proof (creation_callback_requests env url sha MAX h s w) as Hc.
    pose proof (creation_callback_elapsed env url sha MAX h s w) as He.
    destruct (Creation.callback env url sha MAX h s w) as [s' w'].
    cbn [fst snd] in *. specialize (IH s' w'). rewrite He in IH.
    pose proof (ticks_left_mono MAX (Creation.elapsedTimeSeconds s) 15
                                ltac:(lia)) as Hm.
    destruct (MAX <=? Creation.elapsedTimeSeconds s + 15) eqn:E.
    + lia.
    + apply Z.leb_gt in E.
      rewrite (ticks_left_step MAX (Creation.elapsedTimeSeconds s) 15)
        by lia.
      lia.
Qed.

Lemma readiness_poll_requests env url MAX h :
  forall fuel s w,
    (api_calls (snd (poll Readiness.settled
                          (Readiness.callback env url MAX h) h fuel s w))
     <= api_calls w
        + Z.to_nat ((MAX - Readiness.elapsedTimeSeconds s - 1) / 30))%nat.
Proof.
  induction fuel as [|fuel IH]; intros s w; cbn [poll].
  - destruct (Readiness.settled s); cbn; lia.
  - destruct (Readiness.settled s); [cbn; lia|].
    destruct (timer_active h w); [|cbn; lia].
    pose proof (readiness_callback_requests env url MAX h s w) as Hc.
    pose proof (readiness_callback_elapsed env url MAX h s w) as He.
    destruct (Readiness.callback env url MAX h s w) as [s' w'].
    cbn [fst snd] in *. specialize (IH s' w'). rewrite He in IH.
    pose proof (ticks_left_mono MAX (Readiness.elapsedTimeSeconds s) 30
                                ltac:(lia)) as Hm.
    destruct (MAX <=? Readiness.elapsedTimeSeconds s + 30) eqn:E.
    + lia.
    + apply Z.leb_gt in E.
      rewrite (ticks_left_step MAX (Readiness.elapsedTimeSeconds s) 30)
        by lia.
      lia.
Qed.

Lemma waitForDeployCreation_requests env url sha MAX :
  bounded api_calls (Z.to_nat ((MAX - 1) / 15))
          (waitForDeployCreation env url sha MAX).
Proof.
  intros w. rewrite waitForDeployCreation_unfold. cbv zeta.
  rewrite await_world.
  pose proof (creation_poll_requests env url sha MAX (next_handle w)
                (Creation.ticks_bound MAX) Creation.initial
                (snd (setInterval 15000 w))) as H.
  cbn [Creation.initial Creation.elapsedTimeSeconds setInterval snd api_calls]
    in H.
  now replace (MAX - 0 - 1) with (MAX - 1) in H by lia.
Qed.

Lemma waitForReadiness_requests env url MAX :
  bounded api_calls (Z.to_nat ((MAX - 1) / 30))
          (waitForReadiness env url MAX).
Proof.
  intros w. rewrite waitForReadiness_unfold. cbv zeta.
  rewrite await_world.
  pose proof (readiness_poll_requests env url MAX (next_handle w)
                (Readiness.ticks_bound MAX) Readiness.initial
                (snd (setInterval 30000 w))) as H.
  cbn [Readiness.initial Readiness.elapsedTimeSeconds setInterval snd
                         api_calls] in H.
  now replace (MAX - 0 - 1) with (MAX - 1) in H by lia.
Qed.

(** X3. The waiters poll a bounded number of times: the creation waiter
    issues at most (MAX-1)/15 listing requests and the readiness waiter at
    most (MAX-1)/30 deployment requests (none at all for a budget of one
    period or less), whatever the endpoints answer; neither ever issues a
    plain request to the site or touches the response interceptors. *)
Theorem waiters_request_bounds
        (env : Env) (url : string) (sha : jsval) (MAX : Z) (w : World) :
  (api_calls (snd (waitForDeployCreation env url sha MAX w))
   <= api_calls w + Z.to_nat ((MAX - 1) / 15))%nat
  /\ (api_calls (snd (waitForReadiness env url MAX w))
      <= api_calls w + Z.to_nat ((MAX - 1) / 30))%nat
  /\ site_calls (snd (waitForDeployCreation env url sha MAX w)) = site_calls w
  /\ site_calls (snd (waitForReadiness env url MAX w)) = site_calls w
  /\ interceptors (snd (waitForDeployCreation env url sha MAX w))
     = interceptors w
  /\ interceptors (snd (waitForReadiness env url MAX w)) = interceptors w.
Proof.
  destruct (waitForDeployCreation_frame env url sha MAX w) as [[A1 B1] _].
  destruct (waitForReadiness_frame env url MAX w) as [[A2 B2] _].
  repeat split; try assumption.
  - apply waitForDeployCreation_requests.
  - apply waitForReadiness_requests.
Qed.

(** ** Timers of the waiters *)

(** X4. The readiness waiter always leaves its timer inactive, and so does
    the creation waiter on every exit other than the not-found rejection:
    when the awaited promise has settled by a resolution or by the timeout,
    the interval registered for it has been cancelled (and where a request
    failed inside the callback, it is gone with the process). *)
Theorem waiters_cancel_their_timer
        (env : Env) (url : string) (sha : jsval) (MAX : Z) (w : World) :
  timer_active (next_handle w) (snd (waitForReadiness env url MAX w)) = false
  /\ (fst (waitForDeployCreation env url sha MAX w)
      <> Throw (ThrownStr Creation.not_found_message) ->
      timer_active (next_handle w)
                   (snd (waitForDeployCreation env url sha MAX w)) = false).
Proof.
  split.
  - rewrite waitForReadiness_unfold. cbv zeta. rewrite await_world.
    apply readiness_poll_ends; [reflexivity|].
    apply readiness_ticks_bound_enough.
  - rewrite waitForDeployCreation_unfold. cbv zeta. rewrite await_world.
    destruct (creation_poll_ends env url sha MAX (next_handle w)
                (Creation.ticks_bound MAX) Creation.initial
                (snd (setInterval 15000 w)) eq_refl
                (creation_ticks_bound_enough MAX)) as [H|H].
    + rewrite H. cbn [await fst throw]. intros Hn. now destruct Hn.
    + intros _. exact H.
Qed.

Lemma waiters_cancel_their_timer_witness :
  timer_active 0
    (snd (waitForDeployCreation env_empty_listings "deploys" (JStr "abc123")
                                300 initial_world)) = false.
Proof.
  apply (proj2 (waiters_cancel_their_timer env_empty_listings "deploys"
                                           (JStr "abc123") 300 initial_world)).
  vm_compute. discriminate.
Defined.

(** ** More on the prober *)

Lemma loop_succeeds_after env url it :
  forall k fuel i w,
    (1 <= interceptors w)%nat ->
    (k < fuel)%nat ->
    i + Z.of_nat k < Qceiling it ->
    (forall j, (j < k)%nat ->
               answers_ok (site env (site_calls w + j)) = false) ->
    answers_ok (site env (site_calls w + k)) = true ->
    waitForUrl_loop env url it false fuel i w
    = (Normal tt,
       mkWorld (api_calls w) (site_calls w + k + 1) (interceptors w)
               (timers w) (next_handle w)
               (trace w ++ List.concat (repeat (retry_events url) k)
                      ++ [AxiosGet url])).
Proof.
  induction k as [|k IH]; intros fuel i w Hi Hf Hk Hw Hok;
    (destruct fuel as [|fuel]; [lia|]).
  - rewrite Nat.add_0_r in Hok.
    rewrite loop_attempt_ok;
      [| exact Hi | apply lt_iterations_true; lia | exact Hok].
    cbn [axios_get snd repeat List.concat app]. f_equal. f_equal. lia.
  - rewrite loop_attempt_fails;
      [| exact Hi | apply lt_iterations_true; lia
       | rewrite <- (Nat.add_0_r (site_calls w)); apply Hw; lia].
    rewrite IH.
    + cbn [emit axios_get snd api_calls site_calls interceptors timers
                next_handle trace repeat List.concat].
      f_equal. f_equal; [lia|].
      rewrite <- !app_assoc. reflexivity.
    + exact Hi.
    + lia.
    + lia.
    + intros j Hj. cbn [emit axios_get snd site_calls].
      replace (S (site_calls w) + j)%nat with (site_calls w + S j)%nat by lia.
      apply Hw. lia.
    + cbn [emit axios_get snd site_calls].
      replace (S (site_calls w) + k)%nat with (site_calls w + S k)%nat by lia.
      exact Hok.
Qed.

(** X5. Without the flag, on a budget on which the loop counts as the exact
    division does: when the first [k] attempts fail and attempt [k+1],
    still within the ceil(budget/3) slots, is answered, the prober returns
    normally after exactly [k] retries (each a request, the retry notice
    and the 3-unit sleep) and the answered request: it reports no
    failure. *)
Theorem prober_succeeds_after_retries
        (env : Env) (url : string) (MAX : Q) (w : World) (k : nat) :
  exact_budget MAX ->
  (k < Z.to_nat (Qceiling (MAX / 3)))%nat ->
  (forall j, (j < k)%nat ->
             answers_ok (site env (site_calls w + j)) = false) ->
  answers_ok (site env (site_calls w + k)) = true ->
  waitForUrl env url MAX false w
  = (Normal tt,
     mkWorld (api_calls w) (site_calls w + k + 1) (S (interceptors w))
             (timers w) (next_handle w)
             (trace w
                ++ InterceptorUse
                :: List.concat (repeat [AxiosGet url;
                                        ConsoleLog (unavailable_message url);
                                        SetTimeout 3000] k)
                ++ [AxiosGet url])).
Proof.
  intros _ Hk Hw Hok. unfold waitForUrl. cbv zeta.
  rewrite (loop_succeeds_after env url (MAX / 3) k).
  - cbn [use_interceptor api_calls site_calls interceptors timers
                         next_handle trace].
    now rewrite <- app_assoc.
  - cbn. lia.
  - exact Hk.
  - lia.
  - exact Hw.
  - exact Hok.
Qed.

Lemma prober_succeeds_after_retries_witness :
  waitForUrl env_third_attempt "https://x" 60%Q false initial_world
  = (Normal tt,
     mkWorld 0 3 1 [] 0
             [InterceptorUse;
              AxiosGet "https://x";
              ConsoleLog "URL https://x unavailable, retrying...";
              SetTimeout 3000;
              AxiosGet "https://x";
              ConsoleLog "URL https://x unavailable, retrying...";
              SetTimeout 3000;
              AxiosGet "https://x"]).
Proof.
  apply (prober_succeeds_after_retries env_third_attempt "https://x" 60%Q
                                       initial_world 2).
  - split; [vm_compute; reflexivity | vm_compute; discriminate].
  - vm_compute. lia.
  - intros [|[|j]] Hj; [reflexivity | reflexivity | lia].
  - reflexivity.
Defined.

Lemma nonpositive_budget_iterations (MAX : Q) :
  (MAX <= 0)%Q -> Qceiling (MAX / 3) <= 0.
Proof.
  intros H. rewrite <- (Qceiling_Z 0). apply Qceiling_resp_le.
  apply Qle_shift_div_r; [reflexivity|]. now rewrite Qmult_0_l.
Qed.

(** X6. With a budget of zero or less the prober issues no request at all:
    it registers its interceptor, reports the timeout failure and returns
    normally, and this also under the single-attempt flag, which then
    rejects nothing. *)
Theorem prober_without_budget_only_reports
        (env : Env) (url : string) (MAX : Q) (flag : bool) (w : World) :
  (MAX <= 0)%Q ->
  waitForUrl env url MAX flag w
  = (Normal tt,
     mkWorld (api_calls w) (site_calls w) (S (interceptors w)) (timers w)
             (next_handle w)
             (trace w ++ [InterceptorUse;
                          SetFailed ("Timeout reached: Unable to connect to "
                                       ++ url)])).
Proof.
  intros H. pose proof (nonpositive_budget_iterations MAX H) as Hc.
  unfold waitForUrl. cbv zeta.
  replace (Z.to_nat (Qceiling (MAX / 3))) with O by lia.
  cbn [waitForUrl_loop]. rewrite lt_iterations_false by exact Hc.
  unfold emit, use_interceptor, unable_message.
  cbn [api_calls site_calls interceptors timers next_handle trace].
  now rewrite <- app_assoc.
Qed.

Lemma prober_without_budget_witness :
  waitForUrl env_protected_site "https://x" (-5)%Q true initial_world
  = (Normal tt,
     mkWorld 0 0 1 [] 0
             [InterceptorUse;
              SetFailed "Timeout reached: Unable to connect to https://x"]).
Proof.
  apply (prober_without_budget_only_reports env_protected_site "https://x"
                                            (-5)%Q true initial_world).
  discriminate.
Defined.

Lemma lt_iterations_ceiling i (it : Q) :
  lt_iterations i it = true -> i < Qceiling it.
Proof.
  intros H. apply lt_iterations_spec in H. rewrite Zlt_Qlt.
  eapply Qlt_le_trans; [exact H | apply Qle_ceiling].
Qed.

(** What the loop leaves alone, and how far its guard lets it go, whatever
    the fuel. *)
Lemma waitForUrl_loop_counters env url it flag :
  forall fuel i w,
    let w' := snd (waitForUrl_loop env url it flag fuel i w) in
    api_calls w' = api_calls w
    /\ interceptors w' = interceptors w
    /\ timers w' = timers w
    /\ (site_calls w' <= site_calls w + Z.to_nat (Qceiling it - i))%nat
    /\ (flag = true -> site_calls w' <= site_calls w + 1)%nat.
Proof.
  induction fuel as [|fuel IH]; intros i w; cbn [waitForUrl_loop].
  - destruct (lt_iterations i it); cbn; repeat split; lia.
  - destruct (lt_iterations i it) eqn:Hlt; [|cbn; repeat split; lia].
    apply lt_iterations_ceiling in Hlt.
    unfold axios_get.
    destruct (Nat.iter _ _ _) as [st|e]; [cbn; repeat split; lia|].
    destruct flag; [cbn; repeat split; lia|].
    match goal with
    | |- context [waitForUrl_loop _ _ _ _ _ _ ?w1] =>
        destruct (IH (i + 1) w1) as [A [B [C [D _]]]]
    end.
    cbv zeta. cbn [emit api_calls site_calls interceptors timers] in *.
    repeat split; try assumption; try lia; try discriminate.
Qed.

(** X7. The prober issues at most ceil(budget/3) plain requests, and at most
    one under the single-attempt flag; it issues no authenticated request
    and touches no timer. *)
Theorem prober_request_bounds
        (env : Env) (url : string) (MAX : Q) (flag : bool) (w : World) :
  (site_calls (snd (waitForUrl env url MAX flag w))
   <= site_calls w + Z.to_nat (Qceiling (MAX / 3)))%nat
  /\ (flag = true ->
      site_calls (snd (waitForUrl env url MAX flag w)) <= site_calls w + 1)%nat
  /\ api_calls (snd (waitForUrl env url MAX flag w)) = api_calls w
  /\ timers (snd (waitForUrl env url MAX flag w)) = timers w.
Proof.
  unfold waitForUrl. cbv zeta.
  destruct (waitForUrl_loop_counters env url (MAX / 3) flag
              (Z.to_nat (Qceiling (MAX / 3))) 0 (use_interceptor w))
    as [A [_ [C [D E]]]].
  cbv zeta in *. cbn [use_interceptor api_calls site_calls timers] in *.
  rewrite Z.sub_0_r in D. repeat split; assumption.
Qed.

Lemma prober_request_bounds_witness :
  (site_calls (snd (waitForUrl env_site_down "https://x" 60%Q true
                               initial_world)) <= 1)%nat.
Proof.
  apply (proj1 (proj2 (prober_request_bounds env_site_down "https://x" 60%Q
                                             true initial_world))).
  reflexivity.
Defined.

(** X8. Every call of the prober registers one more response handler pair
    and none is ever removed; and the answer a request gets is the same
    under any positive number of registered pairs, so the pairs piled up by
    earlier calls change nothing. *)
Theorem interceptors_pile_up_harmlessly
        (env : Env) (url : string) (MAX : Q) (flag : bool) (w : World) :
  interceptors (snd (waitForUrl env url MAX flag w)) = S (interceptors w)
  /\ forall u w1 w2,
      (1 <= interceptors w1)%nat ->
      (1 <= interceptors w2)%nat ->
      site_calls w1 = site_calls w2 ->
      fst (axios_get env u w1) = fst (axios_get env u w2).
Proof.
  split.
  - unfold waitForUrl. cbv zeta.
    destruct (waitForUrl_loop_counters env url (MAX / 3) flag
                (Z.to_nat (Qceiling (MAX / 3))) 0 (use_interceptor w))
      as [_ [B _]].
    cbv zeta in B. now rewrite B.
  - intros u w1 w2 H1 H2 Hs.
    rewrite !axios_get_eq by assumption. cbn [fst]. now rewrite Hs.
Qed.

Lemma interceptors_pile_up_witness :
  fst (axios_get env_protected_site "https://x"
                 (use_interceptor initial_world))
  = fst (axios_get env_protected_site "https://x"
                   (use_interceptor (use_interceptor initial_world))).
Proof.
  apply (proj2 (interceptors_pile_up_harmlessly
                  env_protected_site "https://x" 60%Q false initial_world)
               "https://x" (use_interceptor initial_world)
               (use_interceptor (use_interceptor initial_world))).
  - cbn. lia.
  - cbn. lia.
  - reflexivity.
Defined.

(** ** Requests of a whole run *)

Lemma waitForUrl_api env url MAX flag :
  bounded api_calls 0 (waitForUrl env url MAX flag).
Proof.
  intros w. unfold waitForUrl. cbv zeta.
  destruct (waitForUrl_loop_counters env url (MAX / 3) flag
              (Z.to_nat (Qceiling (MAX / 3))) 0 (use_interceptor w))
    as [A _].
  cbv zeta in A. rewrite A. cbn. lia.
Qed.

Lemma waitForUrl_site env url MAX flag :
  bounded site_calls (Z.to_nat (Qceiling (MAX / 3)))
          (waitForUrl env url MAX flag).
Proof.
  intros w. unfold waitForUrl. cbv zeta.
  destruct (waitForUrl_loop_counters env url (MAX / 3) flag
              (Z.to_nat (Qceiling (MAX / 3))) 0 (use_interceptor w))
    as [_ [_ [_ [D _]]]].
  cbv zeta in D. rewrite Z.sub_0_r in D. exact D.
Qed.

Lemma waitForUrl_site_once env url MAX :
  bounded site_calls 1 (waitForUrl env url MAX true).
Proof.
  intros w. unfold waitForUrl. cbv zeta.
  destruct (waitForUrl_loop_counters env url (MAX / 3) true
              (Z.to_nat (Qceiling (MAX / 3))) 0 (use_interceptor w))
    as [_ [_ [_ [_ E]]]].
  cbv zeta in E. now apply E.
Qed.

Lemma waitForDeployCreation_site env url sha MAX :
  bounded site_calls 0 (waitForDeployCreation env url sha MAX).
Proof.
  intros w.
  destruct (waitForDeployCreation_frame env url sha MAX w) as [[A _] _]. lia.
Qed.

Lemma waitForReadiness_site env url MAX :
  bounded site_calls 0 (waitForReadiness env url MAX).
Proof.
  intros w. destruct (waitForReadiness_frame env url MAX w) as [[A _] _]. lia.
Qed.

Ltac quiet_steps count :=
  repeat first
    [ apply (bounded_ret count)
    | apply (bounded_throw count)
    | apply (bounded_perform count); reflexivity
    | apply (bounded_bind count 0 0); [|intros ?] ].

Lemma check_config_bounded count cfg :
  (forall e w, count (emit e w) = count w) ->
  bounded count 0 (check_config cfg).
Proof.
  intros Hc. unfold check_config, when.
  destruct (negb (truthy (NETLIFY_TOKEN cfg))),
    (negb (truthy (commitSha cfg))), (negb (truthy (JStr (site_id cfg))));
    repeat first
      [ apply (bounded_ret count)
      | apply (bounded_perform count); apply Hc
      | apply (bounded_bind count 0 0); [|intros ?] ].
Qed.

Lemma publish_and_wait_api env cfg d url :
  bounded api_calls 29 (publish_and_wait env cfg d url).
Proof.
  unfold publish_and_wait.
  apply (bounded_bind api_calls 0 29); [quiet_steps api_calls | intros _].
  apply (bounded_bind api_calls 0 29); [quiet_steps api_calls | intros _].
  apply (bounded_bind api_calls 0 29); [quiet_steps api_calls | intros _].
  apply (bounded_bind api_calls 29 0);
    [apply (bounded_weaken api_calls
              (Z.to_nat ((MAX_WAIT_TIMEOUT - 1) / 30)));
     [vm_compute; lia | apply waitForReadiness_requests]
    | intros _].
  apply (bounded_bind api_calls 0 0); [quiet_steps api_calls | intros _].
  apply waitForUrl_api.
Qed.

Lemma publish_and_wait_site env cfg d url :
  bounded site_calls (ready_slots cfg) (publish_and_wait env cfg d url).
Proof.
  unfold publish_and_wait.
  apply (bounded_bind site_calls 0 _); [quiet_steps site_calls | intros _].
  apply (bounded_bind site_calls 0 _); [quiet_steps site_calls | intros _].
  apply (bounded_bind site_calls 0 _); [quiet_steps site_calls | intros _].
  apply (bounded_bind site_calls 0 _);
    [apply waitForReadiness_site | intros _].
  apply (bounded_bind site_calls 0 _); [quiet_steps site_calls | intros _].
  apply waitForUrl_site.
Qed.

Lemma no_preview_bounded count d :
  (forall e w, count (emit e w) = count w) ->
  bounded count 0 (no_preview d).
Proof.
  intros Hc. unfold no_preview.
  repeat first
    [ apply (bounded_perform count); apply Hc
    | apply (bounded_bind count 0 0); [|intros ?] ].
Qed.

Lemma after_creation_api env cfg d :
  bounded api_calls 29 (after_creation env cfg d).
Proof.
  unfold after_creation.
  destruct (strict_eq (deploy_state d) (JStr "error"));
    [|apply publish_and_wait_api].
  destruct (matcher_test (error_message d));
    [|apply (bounded_weaken api_calls 0); [lia | apply bounded_throw]].
  cbv zeta. apply (bounded_bind api_calls 0 29).
  - apply (bounded_try_catch api_calls 0 0).
    + apply (bounded_bind api_calls 0 0);
        [apply waitForUrl_api | intros _; apply bounded_ret].
    + intros _. apply (bounded_bind api_calls 0 0);
        [now apply no_preview_bounded | intros _; apply bounded_ret].
  - intros [|]; [|apply publish_and_wait_api].
    apply (bounded_weaken api_calls 0); [lia | apply bounded_ret].
Qed.

Lemma after_creation_site env cfg d :
  bounded site_calls (1 + ready_slots cfg) (after_creation env cfg d).
Proof.
  unfold after_creation.
  destruct (strict_eq (deploy_state d) (JStr "error"));
    [|apply (bounded_weaken site_calls (ready_slots cfg));
      [lia | apply publish_and_wait_site]].
  destruct (matcher_test (error_message d));
    [|apply (bounded_weaken site_calls 0); [lia | apply bounded_throw]].
  cbv zeta. apply (bounded_bind site_calls 1 (ready_slots cfg)).
  - apply (bounded_try_catch site_calls 1 0).
    + apply (bounded_bind site_calls 1 0);
        [apply waitForUrl_site_once | intros _; apply bounded_ret].
    + intros _. apply (bounded_bind site_calls 0 0);
        [now apply no_preview_bounded | intros _; apply bounded_ret].
  - intros [|]; [|apply publish_and_wait_site].
    apply (bounded_weaken site_calls 0); [lia | apply bounded_ret].
Qed.

(** X9. A run is bounded in what it asks of the outside: at most 48
    authenticated requests (19 of the listing within the 300-unit creation
    budget, 29 of the deployment within the 900-unit readiness budget) and
    at most one plain request more than the slots of the final probe,
    whatever the endpoints and the site answer. *)
Theorem run_request_bounds (env : Env) (cfg : Config) :
  (api_calls (snd (run env cfg initial_world)) <= 48)%nat
  /\ (site_calls (snd (run env cfg initial_world)) <= 1 + ready_slots cfg)%nat.
Proof.
  split.
  - assert (B : bounded api_calls 48 (run env cfg)); [|exact (B initial_world)].
    unfold run, run_try.
    apply (bounded_try_catch api_calls 48 0);
      [|intros e; apply bounded_perform; reflexivity].
    apply (bounded_bind api_calls 0 48);
      [now apply check_config_bounded | intros _].
    apply (bounded_bind api_calls 0 48); [quiet_steps api_calls | intros _].
    apply (bounded_bind api_calls 19 29);
      [|intros d; apply after_creation_api].
    apply (bounded_weaken api_calls
             (Z.to_nat ((MAX_CREATE_TIMEOUT - 1) / 15)));
      [vm_compute; lia | apply waitForDeployCreation_requests].
  - assert (B : bounded site_calls (1 + ready_slots cfg) (run env cfg));
      [|exact (B initial_world)].
    unfold run, run_try.
    apply (bounded_weaken site_calls (1 + ready_slots cfg + 0)); [lia|].
    apply (bounded_try_catch site_calls _ 0);
      [|intros e; apply bounded_perform; reflexivity].
    apply (bounded_bind site_calls 0 _);
      [now apply check_config_bounded | intros _].
    apply (bounded_bind site_calls 0 _); [quiet_steps site_calls | intros _].
    apply (bounded_bind site_calls 0 _);
      [apply waitForDeployCreation_site | intros d; apply after_creation_site].
Qed.

(** ** Paths of a run *)

Lemma creation_rejection_reasons env url sha MAX w e :
  fst (waitForDeployCreation env url sha MAX w) = Throw e ->
  e = ThrownStr Creation.not_found_message
  \/ e = ThrownStr (Creation.timeout_message MAX).
Proof.
  rewrite waitForDeployCreation_unfold. cbv zeta.
  pose proof (creation_poll_outcome env url sha MAX (next_handle w)
                (Creation.ticks_bound MAX) Creation.initial
                (snd (setInterval 15000 w)) eq_refl) as H.
  destruct (Creation.promise _) as [[d|r]|]; cbn [await fst ret throw];
    intros E; try discriminate.
  injection E as <-. destruct H as [->| ->]; auto.
Qed.

(** X10. When the creation waiter rejects, the run ends there: it reports
    the waiter's reason through [SetFailed] as its last act and returns.
    The reason is the not-found message or the timeout message of the
    300-unit budget.  Nothing is published, the site is never requested
    and no readiness timer is registered. *)
Theorem creation_failure_ends_run (env : Env) (cfg : Config) (e : thrown) :
  fst (creation env cfg) = Throw e ->
  run env cfg initial_world
  = (Normal tt, emit (SetFailed (failure_text e)) (snd (creation env cfg)))
  /\ (failure_text e = "Failed to get deployments for site"
      \/ failure_text e
         = "Timeout reached: Deployment was not created within 300 seconds.")
  /\ filter is_output (trace (snd (run env cfg initial_world))) = []
  /\ filter is_probe (trace (snd (run env cfg initial_world))) = []
  /\ forall h, ~ In (SetInterval h 30000)
                    (trace (snd (run env cfg initial_world))).
Proof.
  intros Hc.
  destruct (creation_trace env cfg) as [To [Tp [_ [_ [_ Ti]]]]].
  cbv zeta in To, Tp, Ti.
  pose proof (creation_rejection_reasons env (deploys_url (site_id cfg))
                (commitSha cfg) MAX_CREATE_TIMEOUT (before_creation cfg) e Hc)
    as Hr.
  rewrite run_unfold.
  destruct (creation env cfg) as [c w]. cbn [fst snd] in *. subst c.
  split; [reflexivity|]. split; [|split; [|split]].
  - destruct Hr as [->| ->]; [now left | now right].
  - cbn. now rewrite filter_app, To.
  - cbn. now rewrite filter_app, Tp.
  - intros h Hin. cbn in Hin. apply in_app_iff in Hin.
    destruct Hin as [Hin|[Hin|[]]]; [|discriminate].
    apply Ti in Hin. discriminate.
Qed.

Lemma creation_failure_ends_run_witness :
  run env_never_created push_abc123 initial_world
  = (Normal tt,
     emit (SetFailed
             "Timeout reached: Deployment was not created within 300 seconds.")
          (snd (creation env_never_created push_abc123))).
Proof.
  assert (H : fst (creation env_never_created push_abc123)
              = Throw (ThrownStr
                         "Timeout reached: Deployment was not created within 300 seconds."))
    by (vm_compute; reflexivity).
  exact (proj1 (creation_failure_ends_run env_never_created push_abc123 _ H)).
Defined.

(** X11. A deployment in state "error" that carries no error message is
    fatal: the skip phrase is searched in the printed form of the missing
    message and not found, and the failure the run reports is the empty
    string for an undefined message and "null" for a null one. *)
Theorem error_without_message_is_fatal
        (env : Env) (cfg : Config) (d : Deployment) :
  fst (creation env cfg) = Normal d ->
  deploy_state d = JStr "error" ->
  (error_message d = JUndefined ->
   run env cfg initial_world
   = (Normal tt, emit (SetFailed "") (snd (creation env cfg))))
  /\ (error_message d = JNull ->
      run env cfg initial_world
      = (Normal tt, emit (SetFailed "null") (snd (creation env cfg)))).
Proof.
  intros Hc Hs. rewrite run_unfold.
  destruct (creation env cfg) as [c w]. cbn [fst snd] in *. subst c.
  split; intros Hm; unfold try_catch;
    (rewrite after_creation_error; [|exact Hs | now rewrite Hm]);
    now rewrite Hm.
Qed.

Lemma error_without_message_witness :
  run (env_with unnamed_failure (AxResolved 200)) push_abc123 initial_world
  = (Normal tt,
     emit (SetFailed "")
          (snd (creation (env_with unnamed_failure (AxResolved 200))
                         push_abc123))).
Proof.
  apply (proj1 (error_without_message_is_fatal
                  (env_with unnamed_failure (AxResolved 200)) push_abc123
                  unnamed_failure eq_refl eq_refl) eq_refl).
Defined.

(** ** What follows the creation wait *)

Ltac grows :=
  repeat first
    [ apply frames_ret
    | apply frames_throw
    | apply frames_perform; reflexivity
    | apply frames_bind; [|intros ?]
    | apply frames_try_catch; [|intros ?]
    | eapply frames_weaken;
      [|apply frames_waitForReadiness]; intros; reflexivity
    | eapply frames_weaken;
      [|apply frames_waitForUrl]; intros; reflexivity
    | match goal with
      | |- frames _ (if ?b then _ else _) => destruct b
      end ].

Lemma after_creation_grows env cfg d :
  frames (fun _ => true)
         (try_catch (after_creation env cfg d) top_level_catch).
Proof.
  unfold after_creation, publish_and_wait, no_preview, top_level_catch.
  cbv zeta. grows.
Qed.

(** The trace of the creation wait is a prefix of the trace of the run. *)
Lemma run_extends_creation env cfg :
  extends (fun _ => true) (snd (creation env cfg))
          (snd (run env cfg initial_world)).
Proof.
  rewrite run_unfold.
  destruct (creation env cfg) as [[d|e|] w]; cbn [snd].
  - apply after_creation_grows.
  - eapply extends_one; reflexivity.
  - apply extends_refl.
Qed.

Lemma creation_callback_fetches env url sha MAX h s w :
  Creation.elapsedTimeSeconds s + 15 < MAX ->
  exists evs,
    trace (snd (Creation.callback env url sha MAX h s w))
    = (trace w ++ NetlifyGet url :: evs)%list.
Proof.
  intros H. unfold Creation.callback, Creation.increment.
  apply Z.leb_gt in H. rewrite H. unfold getNetlifyUrl.
  destruct (api env (api_calls w)) as [|[| |l|d]]; try (now exists []);
    try destruct (Creation.find_commit sha l);
    cbn [snd clearInterval emit unhandled_rejection trace]; eexists;
      rewrite <- app_assoc; reflexivity.
Qed.

(** With a budget of more than one period the creation waiter registers
    its timer and requests the listing at least once. *)
Lemma creation_first_fetch env url sha MAX w :
  15 < MAX ->
  exists evs,
    trace (snd (waitForDeployCreation env url sha MAX w))
    = (trace w ++ SetInterval (next_handle w) 15000 :: NetlifyGet url :: evs)%list.
Proof.
  intros H. rewrite waitForDeployCreation_unfold. cbv zeta.
  rewrite await_world. unfold Creation.ticks_bound.
  rewrite poll_fire by (reflexivity || apply timer_active_setInterval).
  destruct (creation_callback_fetches env url sha MAX (next_handle w)
              Creation.initial (snd (setInterval 15000 w))) as [e1 E1];
    [cbn; lia|].
  destruct (poll_preserves (extends (waiter_event url 15000))
              Creation.settled
              (Creation.callback env url sha MAX (next_handle w))
              (next_handle w) (extends_refl _) (extends_trans _)
              (fun s w0 => proj2 (creation_callback_frame
                                    env url 15000 sha MAX (next_handle w) s w0))
              (Z.to_nat (MAX / Creation.increment))
              (fst (Creation.callback env url sha MAX (next_handle w)
                      Creation.initial (snd (setInterval 15000 w))))
              (snd (Creation.callback env url sha MAX (next_handle w)
                      Creation.initial (snd (setInterval 15000 w)))))
    as [e2 [E2 _]].
  exists (e1 ++ e2)%list. rewrite E2, E1. cbn [setInterval snd trace].
  rewrite <- !app_assoc. reflexivity.
Qed.

(** X12. The configuration checks report and go on.  Whatever is missing,
    the run still announces the wait, registers the creation timer and
    requests the listing endpoint: its trace starts with the reports of
    the missing items (the token, then the commit, then the site
    identifier, each when it is falsy), then the announcement, the
    15-unit timer and the first listing request. *)
Theorem config_checks_do_not_stop_the_run (env : Env) (cfg : Config) :
  (exists evs,
      trace (snd (run env cfg initial_world))
      = ((if truthy (NETLIFY_TOKEN cfg) then []
          else [SetFailed
                  "Please set NETLIFY_TOKEN env variable to your Netlify Personal Access Token secret"])
           ++ (if truthy (commitSha cfg) then []
               else [SetFailed "Could not determine GitHub commit"])
           ++ (if negb (String.eqb (site_id cfg) "") then []
               else [SetFailed "Required field `site_id` was not provided"])
           ++ [ConsoleLog
                 ("Waiting for Netlify to create a deployment for git SHA "
                    ++ ToString (commitSha cfg));
               SetInterval 0 15000;
               NetlifyGet ("https://api.netlify.com/api/v1/sites/"
                             ++ site_id cfg ++ "/deploys")]
           ++ evs)%list)
  /\ (truthy (NETLIFY_TOKEN cfg) = false ->
      In (SetFailed token_message) (trace (snd (run env cfg initial_world)))
      /\ In (NetlifyGet (deploys_url (site_id cfg)))
            (trace (snd (run env cfg initial_world)))).
Proof.
  destruct (run_extends_creation env cfg) as [e2 [E2 _]].
  destruct (creation_first_fetch env (deploys_url (site_id cfg))
              (commitSha cfg) MAX_CREATE_TIMEOUT (before_creation cfg))
    as [e1 E1]; [reflexivity|].
  fold (creation env cfg) in E1.
  assert (E : trace (snd (run env cfg initial_world))
              = (config_failures cfg
                   ++ [ConsoleLog
                         ("Waiting for Netlify to create a deployment for git SHA "
                            ++ ToString (commitSha cfg));
                       SetInterval 0 15000;
                       NetlifyGet (deploys_url (site_id cfg))]
                   ++ e1 ++ e2)%list).
  { rewrite E2, E1. cbn [before_creation trace next_handle].
    rewrite <- !app_assoc. reflexivity. }
  split.
  - exists (e1 ++ e2)%list. rewrite E. unfold config_failures.
    cbn [truthy]. rewrite <- !app_assoc. reflexivity.
  - intros Ht. rewrite E. split.
    + apply in_app_iff. left. unfold config_failures. rewrite Ht.
      now left.
    + apply in_app_iff. right. cbn. auto.
Qed.

Lemma config_checks_witness :
  In (SetFailed token_message)
     (trace (snd (run env_never_created no_token initial_world)))
  /\ In (NetlifyGet (deploys_url (site_id no_token)))
        (trace (snd (run env_never_created no_token initial_world))).
Proof.
  apply (proj2 (config_checks_do_not_stop_the_run env_never_created no_token)).
  reflexivity.
Defined.

(** ** The path of a live deployment *)

Lemma run_live env cfg d :
  fst (creation env cfg) = Normal d ->
  strict_eq (deploy_state d) (JStr "error") = false ->
  run env cfg initial_world
  = try_catch (wait_and_probe env cfg d (netlify_app_url d)) top_level_catch
              (published d (netlify_app_url d) (snd (creation env cfg))).
Proof.
  intros Hc Hs. rewrite run_unfold.
  destruct (creation env cfg) as [c w]. cbn [fst snd] in *. subst c.
  unfold try_catch. now rewrite after_creation_live by exact Hs.
Qed.

(** X13. For a deployment that is not in state "error" the run publishes
    [deploy_id] and [url] (the address built from the identifier and the
    site name) before it starts the readiness wait: the two outputs are
    followed by the registration of the 30-unit timer and the first request
    to the deployment endpoint, and nothing is published after them,
    however the waits end. *)
Theorem live_outputs_precede_readiness
        (env : Env) (cfg : Config) (d : Deployment) :
  fst (creation env cfg) = Normal d ->
  strict_eq (deploy_state d) (JStr "error") = false ->
  exists evs,
    trace (snd (run env cfg initial_world))
    = (trace (snd (creation env cfg))
         ++ [SetOutput "deploy_id" (JStr (deploy_id d));
             SetOutput "url"
                       (JStr ("https://" ++ deploy_id d ++ "--"
                                ++ deploy_name d ++ ".netlify.app"));
             ConsoleLog ("Waiting for Netlify deployment " ++ deploy_id d
                           ++ " in site " ++ deploy_name d ++ " to be ready");
             SetInterval (next_handle (snd (creation env cfg))) 30000;
             NetlifyGet (deploy_url (site_id cfg) (deploy_id d))]
         ++ evs)%list
    /\ filter is_output evs = [].
Proof.
  intros Hc Hs. rewrite (run_live env cfg d Hc Hs).
  set (w := snd (creation env cfg)).
  set (w' := published d (netlify_app_url d) w).
  destruct (wait_and_probe_after_readiness env cfg d (netlify_app_url d) w')
    as [e2 [E2 F2]].
  destruct (waitForReadiness_frame env (deploy_url (site_id cfg) (deploy_id d))
              MAX_WAIT_TIMEOUT w') as [_ [eF [EF FF]]].
  destruct (readiness_first_fetch env (deploy_url (site_id cfg) (deploy_id d))
              MAX_WAIT_TIMEOUT w') as [e0 E0]; [reflexivity|].
  rewrite EF in E0. apply app_inv_head in E0. subst eF.
  cbn [forallb] in FF. apply andb_true_iff in FF. destruct FF as [_ FF].
  apply andb_true_iff in FF. destruct FF as [_ FF].
  exists (e0 ++ e2)%list. split.
  - rewrite E2, EF. subst w'. cbn [published emit trace next_handle].
    unfold netlify_app_url. rewrite <- !app_assoc. reflexivity.
  - rewrite filter_app, !filter_none; [reflexivity| |].
    + intros e He. rewrite forallb_forall in F2. specialize (F2 e He).
      unfold quiet in F2. now apply negb_true_iff in F2.
    + intros e He. rewrite forallb_forall in FF. specialize (FF e He).
      apply waiter_event_quiet in FF. unfold quiet in FF.
      now apply negb_true_iff in FF.
Qed.

Lemma live_outputs_precede_readiness_witness :
  exists evs,
    trace (snd (run (env_with live_deployment (AxResolved 200)) push_abc123
                    initial_world))
    = (trace (snd (creation (env_with live_deployment (AxResolved 200))
                            push_abc123))
         ++ [SetOutput "deploy_id" (JStr "64f0");
             SetOutput "url" (JStr "https://64f0--docs.netlify.app");
             ConsoleLog
               "Waiting for Netlify deployment 64f0 in site docs to be ready";
             SetInterval 1 30000;
             NetlifyGet
               "https://api.netlify.com/api/v1/sites/site-1/deploys/64f0"]
         ++ evs)%list
    /\ filter is_output evs = [].
Proof.
  exact (live_outputs_precede_readiness
           (env_with live_deployment (AxResolved 200)) push_abc123
           live_deployment eq_refl eq_refl).
Defined.

(** X14. For a deployment that is not in state "error": when each of the
    29 answers of the deployment endpoint fetched within the 900-unit
    budget is a record in a state outside the ready set, the run ends with
    the readiness timeout as its failure, which prints the state of the
    last of these records, and the site is never requested; the two
    outputs published before the wait stay published. *)
Theorem readiness_timeout_ends_run
        (env : Env) (cfg : Config) (d : Deployment) :
  fst (creation env cfg) = Normal d ->
  strict_eq (deploy_state d) (JStr "error") = false ->
  (forall j, 30 * (Z.of_nat j + 1) < 900 ->
             exists dj,
               api env (api_calls (snd (creation env cfg)) + j)
               = FetchData (BObject dj)
               /\ ~ ready_state (deploy_state dj)) ->
  prints_digits (last_state env (api_calls (snd (creation env cfg))) 29) ->
  fst (run env cfg initial_world) = Normal tt
  /\ last (trace (snd (run env cfg initial_world))) InterceptorUse
     = SetFailed
         ("Timeout reached: Deployment was not ready within 900 seconds. Last known deployment state: "
            ++ ToString (last_state env
                           (api_calls (snd (creation env cfg))) 29)
            ++ ".")
  /\ filter is_probe (trace (snd (run env cfg initial_world))) = []
  /\ site_calls (snd (run env cfg initial_world)) = O
  /\ filter is_output (trace (snd (run env cfg initial_world)))
     = [SetOutput "deploy_id" (JStr (deploy_id d));
        SetOutput "url" (JStr (netlify_app_url d))].
Proof.
  intros Hc Hs Hw _.
  destruct (creation_trace env cfg) as [To [Tp _]]. cbv zeta in To, Tp.
  destruct (creation_site_calls env cfg) as [S0 _].
  rewrite (run_live env cfg d Hc Hs).
  set (w := snd (creation env cfg)) in *.
  set (w' := published d (netlify_app_url d) w).
  pose proof (waitForReadiness_times_out_records env
                (deploy_url (site_id cfg) (deploy_id d)) MAX_WAIT_TIMEOUT w' Hw)
    as Ht.
  destruct (waitForReadiness_frame env (deploy_url (site_id cfg) (deploy_id d))
              MAX_WAIT_TIMEOUT w') as [[Fs _] [eF [EF FF]]].
  assert (R : try_catch (wait_and_probe env cfg d (netlify_app_url d))
                        top_level_catch w'
              = (Normal tt,
                 emit (SetFailed
                         (Readiness.timeout_message MAX_WAIT_TIMEOUT
                            (last_state env (api_calls w') 29)))
                      (snd (waitForReadiness env
                              (deploy_url (site_id cfg) (deploy_id d))
                              MAX_WAIT_TIMEOUT w')))).
  { unfold try_catch, wait_and_probe. unfold bind at 1.
    destruct (waitForReadiness _ _ _ _) as [c wr]. cbn [fst snd] in *.
    subst c. reflexivity. }
  rewrite R. clear R Ht.
  set (wr := snd (waitForReadiness _ _ _ _)) in *.
  cbn [fst snd emit trace site_calls].
  split; [reflexivity|]. split; [apply last_last|].
  rewrite forallb_forall in FF.
  split; [|split].
  - rewrite EF. subst w'. cbn [published emit trace].
    rewrite !filter_app, Tp. cbn.
    rewrite filter_none; [reflexivity|].
    intros e He. specialize (FF e He). now destruct e.
  - rewrite Fs. subst w'. cbn. exact S0.
  - rewrite EF. subst w'. cbn [published emit trace].
    rewrite !filter_app, To. cbn.
    rewrite filter_none; [reflexivity|].
    intros e He. specialize (FF e He). now destruct e.
Qed.

Lemma readiness_timeout_ends_run_witness :
  last (trace (snd (run env_never_ready push_abc123 initial_world)))
       InterceptorUse
  = SetFailed
      "Timeout reached: Deployment was not ready within 900 seconds. Last known deployment state: building.".
Proof.
  assert (H : fst (creation env_never_ready push_abc123)
              = Normal building_deployment) by (vm_compute; reflexivity).
  assert (A : api_calls (snd (creation env_never_ready push_abc123)) = 1%nat)
    by (vm_compute; reflexivity).
  destruct (readiness_timeout_ends_run env_never_ready push_abc123
              building_deployment H eq_refl) as [_ [H2 _]].
  - intros j _. rewrite A. exists building_deployment.
    split; [reflexivity|]. intros [E|[E|E]]; discriminate.
  - rewrite A. exact I.
  - rewrite H2, A. reflexivity.
Defined.

(** With a positive budget, an answered first attempt ends the prober. *)
Lemma waitForUrl_first_ok env url (MAX : Q) flag w :
  (0 < MAX)%Q ->
  answers_ok (site env (site_calls w)) = true ->
  waitForUrl env url MAX flag w = (Normal tt, probed url w).
Proof.
  intros H A. unfold waitForUrl. cbv zeta.
  pose proof (positive_budget_iterations MAX H) as Hc.
  destruct (Z.to_nat (Qceiling (MAX / 3))) as [|fuel] eqn:E; [lia|].
  rewrite loop_attempt_ok;
    [| cbn; lia | apply lt_iterations_true; lia | exact A].
  unfold probed. cbn. now rewrite <- app_assoc.
Qed.

(** X15. The run succeeds silently when every stage does: for a deployment
    that is not in state "error", when a record fetched from the deployment
    endpoint within the 900-unit budget is in a ready state (the answers
    before it being records), the probe budget is one on which the loop
    counts as the exact division does, and the site answers the first
    request (a 401 included), the run returns normally, its two outputs
    are [deploy_id] and [url], its one plain request goes to that address
    and is its last event, and it reports no failure other than those of
    the configuration checks. *)
Theorem run_succeeds
        (env : Env) (cfg : Config) (d : Deployment) (k : nat)
        (dk : Deployment) :
  fst (creation env cfg) = Normal d ->
  strict_eq (deploy_state d) (JStr "error") = false ->
  30 * (Z.of_nat k + 1) < 900 ->
  (forall j, (j < k)%nat ->
             exists dj,
               api env (api_calls (snd (creation env cfg)) + j)
               = FetchData (BObject dj)) ->
  api env (api_calls (snd (creation env cfg)) + k) = FetchData (BObject dk) ->
  ready_state (deploy_state dk) ->
  exact_budget (MAX_READY_TIMEOUT cfg) ->
  answers_ok (site env 0) = true ->
  fst (run env cfg initial_world) = Normal tt
  /\ filter is_output (trace (snd (run env cfg initial_world)))
     = [SetOutput "deploy_id" (JStr (deploy_id d));
        SetOutput "url" (JStr (netlify_app_url d))]
  /\ filter is_probe (trace (snd (run env cfg initial_world)))
     = [AxiosGet (netlify_app_url d)]
  /\ last (trace (snd (run env cfg initial_world))) InterceptorUse
     = AxiosGet (netlify_app_url d)
  /\ filter is_failure (trace (snd (run env cfg initial_world)))
     = config_failures cfg
  /\ (config_complete cfg = true ->
      forall msg, ~ In (SetFailed msg)
                       (trace (snd (run env cfg initial_world)))).
Proof.
  intros Hc Hs Hk Hrec Hr Hrs Hb Ha. apply exact_budget_positive in Hb.
  destruct (creation_trace env cfg) as [To [Tp [Tf _]]].
  cbv zeta in To, Tp, Tf.
  destruct (creation_site_calls env cfg) as [S0 _].
  rewrite (run_live env cfg d Hc Hs).
  set (w := snd (creation env cfg)) in *.
  set (url := netlify_app_url d).
  set (w' := published d url w).
  pose proof (readiness_resolves_at_record env
                (deploy_url (site_id cfg) (deploy_id d)) MAX_WAIT_TIMEOUT w' k
                dk Hk Hrec Hr Hrs) as Hn.
  destruct (waitForReadiness_frame env (deploy_url (site_id cfg) (deploy_id d))
              MAX_WAIT_TIMEOUT w') as [[Fs _] [eF [EF FF]]].
  assert (R : try_catch (wait_and_probe env cfg d url) top_level_catch w'
              = (Normal tt,
                 probed url
                   (emit (ConsoleLog ("Waiting for a 200 or 401 from: " ++ url))
                      (snd (waitForReadiness env
                              (deploy_url (site_id cfg) (deploy_id d))
                              MAX_WAIT_TIMEOUT w'))))).
  { unfold try_catch, wait_and_probe. unfold bind at 1.
    destruct (waitForReadiness _ _ _ _) as [c wr]. cbn [fst snd] in *.
    subst c. unfold bind, perform.
    rewrite waitForUrl_first_ok; [reflexivity | exact Hb|].
    cbn [emit site_calls]. rewrite Fs. subst w'. cbn. now rewrite S0. }
  rewrite R. clear R Hn.
  set (wr := snd (waitForReadiness _ _ _ _)) in *.
  rewrite forallb_forall in FF.
  assert (T : trace (probed url
                       (emit (ConsoleLog
                                ("Waiting for a 200 or 401 from: " ++ url)) wr))
              = (trace w
                   ++ [SetOutput "deploy_id" (JStr (deploy_id d));
                       SetOutput "url" (JStr url);
                       ConsoleLog ("Waiting for Netlify deployment "
                                     ++ deploy_id d ++ " in site "
                                     ++ deploy_name d ++ " to be ready")]
                   ++ eF
                   ++ [ConsoleLog ("Waiting for a 200 or 401 from: " ++ url);
                       InterceptorUse]
                   ++ [AxiosGet url])%list).
  { cbn [probed emit trace]. rewrite EF. subst w'.
    cbn [published emit trace]. rewrite <- !app_assoc. reflexivity. }
  cbn [fst snd]. rewrite T.
  assert (Fl : forall P, (forall e, waiter_event
                                      (deploy_url (site_id cfg) (deploy_id d))
                                      30000 e = true -> P e = false) ->
                         filter P eF = []).
  { intros P HP. apply filter_none. intros e He. apply HP, FF, He. }
  split; [reflexivity|]. split; [|split; [|split; [|split]]].
  - rewrite !filter_app, To, Fl by (now intros []). reflexivity.
  - rewrite !filter_app, Tp, Fl by (now intros []). reflexivity.
  - rewrite !app_assoc. apply last_last.
  - rewrite !filter_app, Tf, Fl by (now intros []). cbn.
    now rewrite app_nil_r.
  - intros Hcc msg Hin.
    assert (In (SetFailed msg) (config_failures cfg)) as Hin'.
    { rewrite <- Tf. apply filter_In. split; [|reflexivity].
      rewrite !in_app_iff in Hin.
      destruct Hin as [Hin|[Hin|[Hin|[Hin|Hin]]]]; [exact Hin| | | |].
      - cbn in Hin. repeat (destruct Hin as [Hin|Hin]; [discriminate|]).
        destruct Hin.
      - specialize (FF _ Hin). discriminate.
      - cbn in Hin. repeat (destruct Hin as [Hin|Hin]; [discriminate|]).
        destruct Hin.
      - cbn in Hin. repeat (destruct Hin as [Hin|Hin]; [discriminate|]).
        destruct Hin. }
    now rewrite (config_complete_no_failures cfg Hcc) in Hin'.
Qed.

Lemma run_succeeds_witness :
  fst (run env_ready_protected push_abc123 initial_world) = Normal tt
  /\ filter is_output
       (trace (snd (run env_ready_protected push_abc123 initial_world)))
     = [SetOutput "deploy_id" (JStr "64f0");
        SetOutput "url" (JStr "https://64f0--docs.netlify.app")]
  /\ forall msg,
      ~ In (SetFailed msg)
           (trace (snd (run env_ready_protected push_abc123 initial_world))).
Proof.
  assert (H : fst (creation env_ready_protected push_abc123)
              = Normal live_deployment) by (vm_compute; reflexivity).
  assert (A : api_calls (snd (creation env_ready_protected push_abc123))
              = 1%nat) by (vm_compute; reflexivity).
  destruct (run_succeeds env_ready_protected push_abc123 live_deployment 1
              live_deployment H eq_refl eq_refl)
    as [H1 [H2 [_ [_ [_ H6]]]]].
  - intros [|j] Hj; [|lia]. rewrite A. now exists building_deployment.
  - rewrite A. reflexivity.
  - left. reflexivity.
  - split; [vm_compute; reflexivity | vm_compute; discriminate].
  - reflexivity.
  - split; [exact H1|]. split; [exact H2 | exact (H6 eq_refl)].
Defined.

(** ** How often a run reports a failure *)

Lemma failures_emit e w :
  failures (emit e w)
  = (failures w + (if is_failure e then 1 else 0))%nat.
Proof.
  unfold failures, emit. cbn [trace]. rewrite filter_app, List.length_app.
  cbn. now destruct (is_failure e).
Qed.

Lemma failures_extends P w w' :
  (forall e, P e = true -> is_failure e = false) ->
  extends P w w' -> failures w' = failures w.
Proof.
  intros HP H. unfold failures.
  now rewrite (extends_filter P is_failure w w' HP H).
Qed.

Lemma failures_waitForReadiness env url MAX w :
  failures (snd (waitForReadiness env url MAX w)) = failures w.
Proof.
  apply (failures_extends (waiter_event url 30000)).
  - now intros [].
  - apply waitForReadiness_frame.
Qed.

(** Without the flag the loop never throws, and it reports at most once. *)
Lemma waitForUrl_loop_reports env url it :
  forall fuel i w,
    (forall e, fst (waitForUrl_loop env url it false fuel i w) <> Throw e)
    /\ (failures (snd (waitForUrl_loop env url it false fuel i w))
        <= failures w + 1)%nat.
Proof.
  induction fuel as [|fuel IH]; intros i w; cbn [waitForUrl_loop].
  - destruct (lt_iterations i it); cbn [fst snd].
    + split; [discriminate | lia].
    + split; [discriminate|]. rewrite failures_emit. cbn. lia.
  - destruct (lt_iterations i it); cbn [fst snd];
      [|split; [discriminate|]; rewrite failures_emit; cbn; lia].
    unfold axios_get.
    set (w1 := mkWorld _ _ _ _ _ _).
    assert (F1 : failures w1 = failures w).
    { change w1 with (mkWorld (api_calls w) (S (site_calls w))
                              (interceptors w) (timers w) (next_handle w)
                              (trace (emit (AxiosGet url) w))).
      unfold failures at 1. cbn [trace].
      change (List.length (filter is_failure (trace (emit (AxiosGet url) w))))
        with (failures (emit (AxiosGet url) w)).
      rewrite failures_emit. cbn. lia. }
    destruct (Nat.iter _ _ _) as [st|e]; cbn [fst snd];
      [split; [discriminate | lia]|].
    match goal with
    | |- context [waitForUrl_loop _ _ _ _ _ _ ?w3] =>
        destruct (IH (i + 1) w3) as [A B];
        assert (F3 : failures w3 = failures w)
          by (rewrite !failures_emit; cbn [is_failure]; lia)
    end.
    split; [exact A | lia].
Qed.

Lemma waitForUrl_reports env url MAX w :
  (forall e, fst (waitForUrl env url MAX false w) <> Throw e)
  /\ (failures (snd (waitForUrl env url MAX false w)) <= failures w + 1)%nat.
Proof.
  unfold waitForUrl. cbv zeta.
  destruct (waitForUrl_loop_reports env url (MAX / 3)
              (Z.to_nat (Qceiling (MAX / 3))) 0 (use_interceptor w))
    as [A B].
  split; [exact A|].
  assert (failures (use_interceptor w) = failures w) as F.
  { change (use_interceptor w)
      with (mkWorld (api_calls w) (site_calls w) (S (interceptors w))
                    (timers w) (next_handle w)
                    (trace (emit InterceptorUse w))).
    unfold failures at 1. cbn [trace].
    change (List.length (filter is_failure (trace (emit InterceptorUse w))))
      with (failures (emit InterceptorUse w)).
    rewrite failures_emit. cbn. lia. }
  lia.
Qed.

Lemma publish_and_wait_reports env cfg d url w :
  (failures (snd (try_catch (publish_and_wait env cfg d url)
                            top_level_catch w))
   <= failures w + 1)%nat.
Proof.
  change (try_catch (publish_and_wait env cfg d url) top_level_catch w)
    with (try_catch (wait_and_probe env cfg d url) top_level_catch
                    (published d url w)).
  assert (Fp : failures (published d url w) = failures w)
    by (unfold published; rewrite !failures_emit; cbn [is_failure]; lia).
  rewrite <- Fp. generalize (published d url w). clear Fp w. intros w.
  unfold try_catch, wait_and_probe. unfold bind at 1.
  pose proof (failures_waitForReadiness env
                (deploy_url (site_id cfg) (deploy_id d)) MAX_WAIT_TIMEOUT w)
    as Fr.
  destruct (waitForReadiness _ _ _ _) as [[[]|e|] wr]; cbn [snd] in *.
  - unfold bind, perform.
    destruct (waitForUrl_reports env url (MAX_READY_TIMEOUT cfg)
                (emit (ConsoleLog ("Waiting for a 200 or 401 from: " ++ url))
                      wr)) as [A B].
    rewrite failures_emit in B. cbn [is_failure] in B.
    destruct (waitForUrl _ _ _ _ _) as [[[]|e|] w2]; cbn [fst snd] in *.
    + lia.
    + now destruct (A e).
    + lia.
  - cbn [top_level_catch perform snd]. rewrite failures_emit.
    cbn [is_failure]. lia.
  - lia.
Qed.

(** X16. Besides the reports of the configuration checks, a run reports at
    most one failure, on whichever path it ends: with a complete
    configuration [SetFailed] is called at most once. *)
Theorem run_reports_at_most_once (env : Env) (cfg : Config) :
  (failures (snd (run env cfg initial_world))
   <= List.length (config_failures cfg) + 1)%nat
  /\ (config_complete cfg = true ->
      failures (snd (run env cfg initial_world)) <= 1)%nat.
Proof.
  assert (H : (failures (snd (run env cfg initial_world))
               <= List.length (config_failures cfg) + 1)%nat).
  { destruct (creation_trace env cfg) as [_ [_ [Tf _]]]. cbv zeta in Tf.
    assert (Fc : failures (snd (creation env cfg))
                 = List.length (config_failures cfg))
      by (unfold failures; now rewrite Tf).
    destruct (creation_site_calls env cfg) as [S0 _].
    rewrite run_unfold.
    destruct (creation env cfg) as [[d|e|] w]; cbn [fst snd] in *.
    - destruct (strict_eq (deploy_state d) (JStr "error")) eqn:Es.
      + apply strict_eq_str in Es.
        destruct (matcher_test (error_message d)) eqn:Em.
        * unfold try_catch. rewrite after_creation_fallback by assumption.
          destruct (answers_ok (site env (site_calls w))).
          -- pose proof (publish_and_wait_reports env cfg d (deploy_ssl_url d)
                           (probed (deploy_ssl_url d) w)) as P.
             unfold try_catch in P.
             assert (failures (probed (deploy_ssl_url d) w) = failures w)
               as Fp.
             { unfold failures, probed. cbn [trace].
               rewrite filter_app. cbn. now rewrite app_nil_r. }
             lia.
          -- cbn [snd]. unfold no_preview_world, failures.
             cbn [emit probed trace]. rewrite !filter_app. cbn.
             rewrite !app_nil_r. fold (failures w). lia.
        * unfold try_catch. rewrite after_creation_error by assumption.
          cbn [top_level_catch perform snd]. rewrite failures_emit.
          cbn [is_failure]. lia.
      + pose proof (publish_and_wait_reports env cfg d (netlify_app_url d) w)
          as P.
        unfold try_catch in *. rewrite after_creation_live by exact Es.
        lia.
    - rewrite failures_emit. cbn [is_failure]. lia.
    - lia. }
  split; [exact H|].
  intros Hc. now rewrite (config_complete_no_failures cfg Hc) in H.
Qed.

Lemma run_reports_at_most_once_witness :
  (failures (snd (run env_never_ready push_abc123 initial_world)) <= 1)%nat.
Proof.
  apply (proj2 (run_reports_at_most_once env_never_ready push_abc123)).
  reflexivity.
Defined.

(** ** The matcher *)

Lemma prefix_ci_spec p :
  forall s,
    prefix_ci p s = true <-> exists q r, s = q ++ r /\ ci_eq p q = true.
Proof.
  induction p as [|a p IH]; intros s.
  - split; [intros _; now exists "", s | reflexivity].
  - destruct s as [|b s]; cbn [prefix_ci].
    + split; [discriminate|].
      intros [[|b q] [r [E H]]]; cbn in *; discriminate.
    + rewrite andb_true_iff, IH. split.
      * intros [Hab [q [r [E H]]]]. exists (String b q), r. cbn.
        rewrite Hab, H. now subst.
      * intros [[|b' q] [r [E H]]]; cbn in *; [discriminate|].
        injection E as <- ->. apply andb_true_iff in H. destruct H as [Hab H].
        split; [exact Hab | now exists q, r].
Qed.

Lemma search_ci_spec p :
  forall s,
    search_ci p s = true
    <-> exists a q b, s = a ++ q ++ b /\ ci_eq p q = true.
Proof.
  induction s as [|c s IH]; cbn [search_ci]; rewrite orb_true_iff.
  - rewrite prefix_ci_spec. split.
    + intros [[q [r [E H]]]|H]; [|discriminate]. now exists "", q, r.
    + intros [[|c a] [q [b [E H]]]]; [|discriminate]. left. now exists q, b.
  - rewrite prefix_ci_spec, IH. split.
    + intros [[q [r [E H]]]|[a [q [b [E H]]]]].
      * now exists "", q, r.
      * exists (String c a), q, b. cbn. now rewrite E.
    + intros [[|c' a] [q [b [E H]]]].
      * left. now exists q, b.
      * right. cbn in E. injection E as <- ->. now exists a, q, b.
Qed.

Lemma ci_eq_refl p : ci_eq p p = true.
Proof.
  induction p as [|a p IH]; [reflexivity|].
  cbn. now rewrite Ascii.eqb_refl, IH.
Qed.

Lemma letters_fold_together n :
  (97 <= n <= 122)%nat ->
  canonicalize (ascii_of_nat n) = canonicalize (ascii_of_nat (n - 32)).
Proof.
  intros H.
  assert (A : forallb (fun k => Ascii.eqb
                                  (canonicalize (ascii_of_nat k))
                                  (canonicalize (ascii_of_nat (k - 32))))
                      (seq 97 26) = true) by (vm_compute; reflexivity).
  rewrite forallb_forall in A. apply Ascii.eqb_eq. apply A.
  apply in_seq. lia.
Qed.

(** X17. The matcher is a case-insensitive search for the skip phrase: a
    value matches exactly when its printed form contains, at any position,
    a string that equals the phrase up to the case of its letters.  The
    phrase itself matches inside any text; a small letter and its capital
    count as the same character, and a character that is not a small
    letter counts as itself. *)
Theorem matcher_is_case_insensitive_containment :
  (forall v,
      matcher_test v = true
      <-> exists a q b, ToString v = a ++ q ++ b
                        /\ ci_eq skip_phrase q = true)
  /\ (forall a b, matcher_test (JStr (a ++ skip_phrase ++ b)) = true)
  /\ (forall n, (97 <= n <= 122)%nat ->
                canonicalize (ascii_of_nat n)
                = canonicalize (ascii_of_nat (n - 32)))
  /\ (forall c, (nat_of_ascii c < 97 \/ 122 < nat_of_ascii c)%nat ->
                canonicalize c = c).
Proof.
  split; [|split; [|split]].
  - intros v. apply search_ci_spec.
  - intros a b. apply (search_ci_spec skip_phrase).
    exists a, skip_phrase, b. split; [reflexivity | apply ci_eq_refl].
  - exact letters_fold_together.
  - intros c H. unfold canonicalize.
    destruct ((97 <=? nat_of_ascii c)%nat && (nat_of_ascii c <=? 122)%nat)
      eqn:E; [|reflexivity].
    apply andb_true_iff in E. destruct E as [E1 E2].
    apply Nat.leb_le in E1, E2. lia.
Qed.

Lemma matcher_witness :
  matcher_test (JStr "Build: CANCELED build due to No Content Change (skipped)")
  = true.
Proof.
  apply (proj1 matcher_is_case_insensitive_containment).
  exists "Build: ", "CANCELED build due to No Content Change", " (skipped)".
  split; reflexivity.
Defined.

(** ** The budget of the final probe *)

Lemma waitForUrl_without_budget env url (MAX : Q) flag w :
  (MAX <= 0)%Q ->
  waitForUrl env url MAX flag w
  = (Normal tt, emit (SetFailed (unable_message url)) (use_interceptor w)).
Proof.
  intros H. pose proof (nonpositive_budget_iterations MAX H) as Hc.
  unfold waitForUrl. cbv zeta.
  replace (Z.to_nat (Qceiling (MAX / 3))) with O by lia.
  cbn [waitForUrl_loop]. now rewrite lt_iterations_false by exact Hc.
Qed.

Lemma negative_budget_is_kept cfg n :
  max_timeout cfg = Some n -> (n < 0)%Q -> MAX_READY_TIMEOUT cfg = n.
Proof.
  intros E Hn. unfold MAX_READY_TIMEOUT. rewrite E.
  destruct (Qeq_bool n 0) eqn:Q0; [|reflexivity].
  apply Qeq_bool_iff in Q0. rewrite Q0 in Hn. now apply Qlt_irrefl in Hn.
Qed.

(** X18. A negative [max_timeout] is not replaced by the default of 60 (only
    a missing number and zero are): for a deployment that becomes ready,
    the run then requests the site not once, and still ends with the
    failure of the prober as its last event. *)
Theorem negative_probe_budget_fails_unprobed
        (env : Env) (cfg : Config) (n : Q) (d : Deployment) (k : nat)
        (dk : Deployment) :
  max_timeout cfg = Some n ->
  (n < 0)%Q ->
  fst (creation env cfg) = Normal d ->
  strict_eq (deploy_state d) (JStr "error") = false ->
  30 * (Z.of_nat k + 1) < 900 ->
  (forall j, (j < k)%nat ->
             exists dj,
               api env (api_calls (snd (creation env cfg)) + j)
               = FetchData (BObject dj)) ->
  api env (api_calls (snd (creation env cfg)) + k) = FetchData (BObject dk) ->
  ready_state (deploy_state dk) ->
  fst (run env cfg initial_world) = Normal tt
  /\ filter is_probe (trace (snd (run env cfg initial_world))) = []
  /\ site_calls (snd (run env cfg initial_world)) = O
  /\ last (trace (snd (run env cfg initial_world))) InterceptorUse
     = SetFailed ("Timeout reached: Unable to connect to "
                    ++ netlify_app_url d).
Proof.
  intros Em Hneg Hc Hs Hk Hrec Hr Hrs.
  assert (Hb : (MAX_READY_TIMEOUT cfg <= 0)%Q).
  { rewrite (negative_budget_is_kept cfg n Em Hneg). now apply Qlt_le_weak. }
  destruct (creation_trace env cfg) as [_ [Tp _]]. cbv zeta in Tp.
  destruct (creation_site_calls env cfg) as [S0 _].
  rewrite (run_live env cfg d Hc Hs).
  set (w := snd (creation env cfg)) in *.
  set (url := netlify_app_url d).
  set (w' := published d url w).
  pose proof (readiness_resolves_at_record env
                (deploy_url (site_id cfg) (deploy_id d)) MAX_WAIT_TIMEOUT
                w' k dk Hk Hrec Hr Hrs) as Hn.
  destruct (waitForReadiness_frame env
              (deploy_url (site_id cfg) (deploy_id d)) MAX_WAIT_TIMEOUT w')
    as [[Fs _] [eF [EF FF]]].
  assert (R : try_catch (wait_and_probe env cfg d url) top_level_catch w'
              = (Normal tt,
                 emit (SetFailed (unable_message url))
                   (use_interceptor
                      (emit (ConsoleLog
                               ("Waiting for a 200 or 401 from: " ++ url))
                         (snd (waitForReadiness env
                                 (deploy_url (site_id cfg) (deploy_id d))
                                 MAX_WAIT_TIMEOUT w')))))).
  { unfold try_catch, wait_and_probe. unfold bind at 1.
    destruct (waitForReadiness _ _ _ _) as [c wr]. cbn [fst snd] in *.
    subst c. unfold bind, perform.
    now rewrite waitForUrl_without_budget by exact Hb. }
  rewrite R. clear R Hn.
  set (wr := snd (waitForReadiness _ _ _ _)) in *.
  rewrite forallb_forall in FF.
  cbn [fst snd emit use_interceptor trace site_calls].
  split; [reflexivity|]. split; [|split; [|apply last_last]].
  - rewrite EF. subst w'. cbn [published emit trace].
    rewrite !filter_app, Tp. cbn.
    rewrite filter_none; [reflexivity|].
    intros e He. specialize (FF e He). now destruct e.
  - rewrite Fs. subst w'. cbn. exact S0.
Qed.

Lemma negative_probe_budget_witness :
  last (trace (snd (run (env_with live_deployment (AxResolved 200))
                        negative_budget initial_world))) InterceptorUse
  = SetFailed
      "Timeout reached: Unable to connect to https://64f0--docs.netlify.app".
Proof.
  assert (H : fst (creation (env_with live_deployment (AxResolved 200))
                            negative_budget)
              = Normal live_deployment) by (vm_compute; reflexivity).
  assert (A : api_calls (snd (creation (env_with live_deployment
                                                 (AxResolved 200))
                                       negative_budget)) = 1%nat)
    by (vm_compute; reflexivity).
  destruct (negative_probe_budget_fails_unprobed
              (env_with live_deployment (AxResolved 200)) negative_budget
              (-1)%Q live_deployment O live_deployment eq_refl eq_refl H
              eq_refl eq_refl) as [_ [_ [_ H4]]].
  - intros j Hj. lia.
  - rewrite A. reflexivity.
  - left. reflexivity.
  - exact H4.
Defined.

(** ** Requests that fail inside a timer callback *)

Lemma creation_poll_crashes env url sha MAX h :
  forall k fuel e w,
    (k < fuel)%nat ->
    timer_active h w = true ->
    e + 15 * (Z.of_nat k + 1) < MAX ->
    (forall j, (j < k)%nat ->
               listing_without sha (api env (api_calls w + j)) = true) ->
    listing_or_falsy (api env (api_calls w + k)) = false ->
    let r := poll Creation.settled (Creation.callback env url sha MAX h) h
                  fuel (Creation.mkSession e None) w in
    Creation.promise (fst r) = None
    /\ timers (snd r) = []
    /\ last (trace (snd r)) InterceptorUse = UnhandledRejection.
Proof.
  induction k as [|k IH]; intros fuel e w Hf Ha He Hw Hm;
    (destruct fuel as [|fuel]; [lia|]);
    rewrite poll_fire by (reflexivity || assumption).
  - rewrite Nat.add_0_r in Hm.
    rewrite creation_tick_unreadable by (cbn; lia || assumption).
    cbn [fst snd]. rewrite poll_idle by reflexivity. cbn [fst snd].
    split; [reflexivity|]. split; [reflexivity|].
    apply last_unhandled_rejection.
  - rewrite creation_tick_without;
      [| cbn; lia | rewrite <- (Nat.add_0_r (api_calls w)); apply Hw; lia].
    cbn [fst snd Creation.elapsedTimeSeconds Creation.promise].
    set (w' := emit _ _).
    assert (Hc : api_calls w' = S (api_calls w)) by reflexivity.
    apply IH.
    + lia.
    + exact Ha.
    + lia.
    + intros j Hj. rewrite Hc. replace (S (api_calls w) + j)%nat
        with (api_calls w + S j)%nat by lia. apply Hw. lia.
    + rewrite Hc. replace (S (api_calls w) + k)%nat
        with (api_calls w + S k)%nat by lia. exact Hm.
Qed.

Lemma readiness_poll_crashes env url MAX h :
  forall k fuel e st w,
    (k < fuel)%nat ->
    timer_active h w = true ->
    e + 30 * (Z.of_nat k + 1) < MAX ->
    (forall j, (j < k)%nat ->
               ready_answer (api env (api_calls w + j)) = false
               /\ readable (api env (api_calls w + j)) = true) ->
    readable (api env (api_calls w + k)) = false ->
    let r := poll Readiness.settled (Readiness.callback env url MAX h) h
                  fuel (Readiness.mkSession e st None) w in
    Readiness.promise (fst r) = None
    /\ timers (snd r) = []
    /\ last (trace (snd r)) InterceptorUse = UnhandledRejection.
Proof.
  induction k as [|k IH]; intros fuel e st w Hf Ha He Hw Hm;
    (destruct fuel as [|fuel]; [lia|]);
    rewrite poll_fire by (reflexivity || assumption).
  - rewrite Nat.add_0_r in Hm.
    rewrite readiness_tick_unreadable by (cbn; lia || assumption).
    cbn [fst snd]. rewrite poll_idle by reflexivity. cbn [fst snd].
    split; [reflexivity|]. split; [reflexivity|].
    apply last_unhandled_rejection.
  - destruct (Hw O ltac:(lia)) as [W1 W2]. rewrite Nat.add_0_r in W1, W2.
    rewrite readiness_tick_waiting by (cbn; lia || assumption).
    cbn [fst snd Readiness.elapsedTimeSeconds Readiness.state
             Readiness.promise].
    set (w' := emit _ _).
    assert (Hc : api_calls w' = S (api_calls w)) by reflexivity.
    apply IH.
    + lia.
    + exact Ha.
    + lia.
    + intros j Hj. rewrite Hc. replace (S (api_calls w) + j)%nat
        with (api_calls w + S j)%nat by lia. apply Hw. lia.
    + rewrite Hc. replace (S (api_calls w) + k)%nat
        with (api_calls w + S k)%nat by lia. exact Hm.
Qed.

(** X19. A request that fails inside a timer callback is reported by
    nobody.  When a listing request of the creation waiter is rejected (or
    answered with a single record instead of a listing) at a tick before
    the budget, after listings without the commit, the rejection of the
    callback's promise is unhandled: the process ends there with all its
    timers, the awaited promise is never settled, and the last event is the
    unhandled rejection.  The same holds for the readiness waiter when a
    request is rejected or answered with a null body after records that
    were not ready.  A run whose creation wait ends this way ends with it:
    its [try] and [catch] see nothing, so it reports no failure. *)
Theorem failed_request_ends_the_process
        (env : Env) (cfg : Config) (url : string) (sha : jsval) (MAX : Z)
        (w : World) (k : nat) :
  (15 * (Z.of_nat k + 1) < MAX ->
   (forall j, (j < k)%nat ->
              without_commit sha (api env (api_calls w + j))) ->
   api env (api_calls w + k) = FetchRejected
   \/ (exists d, api env (api_calls w + k) = FetchData (BObject d)) ->
   fst (waitForDeployCreation env url sha MAX w) = Pending
   /\ timers (snd (waitForDeployCreation env url sha MAX w)) = []
   /\ last (trace (snd (waitForDeployCreation env url sha MAX w)))
           InterceptorUse
      = UnhandledRejection)
  /\ (30 * (Z.of_nat k + 1) < MAX ->
      (forall j, (j < k)%nat ->
                 exists dj,
                   api env (api_calls w + j) = FetchData (BObject dj)
                   /\ ~ ready_state (deploy_state dj)) ->
      api env (api_calls w + k) = FetchRejected
      \/ api env (api_calls w + k) = FetchData BNull ->
      fst (waitForReadiness env url MAX w) = Pending
      /\ timers (snd (waitForReadiness env url MAX w)) = []
      /\ last (trace (snd (waitForReadiness env url MAX w))) InterceptorUse
         = UnhandledRejection)
  /\ (fst (creation env cfg) = Pending ->
      run env cfg initial_world = (Pending, snd (creation env cfg))
      /\ filter is_failure (trace (snd (run env cfg initial_world)))
         = config_failures cfg).
Proof.
  split; [|split].
  - intros Hk Hw Hu. rewrite waitForDeployCreation_unfold. cbv zeta.
    rewrite await_world.
    destruct (creation_poll_crashes env url sha MAX (next_handle w) k
                (Creation.ticks_bound MAX) 0 (snd (setInterval 15000 w)))
      as [P [T L]].
    + unfold Creation.ticks_bound, Creation.increment.
      assert (Z.of_nat k + 1 <= MAX / 15)
        by (apply Z.div_le_lower_bound; lia).
      lia.
    + apply timer_active_setInterval.
    + lia.
    + intros j Hj. apply without_commit_listing. now apply Hw.
    + cbn [setInterval snd api_calls].
      destruct Hu as [->|[d ->]]; reflexivity.
    + fold Creation.initial in P, T, L. rewrite P. now split.
  - intros Hk Hw Hu. rewrite waitForReadiness_unfold. cbv zeta.
    rewrite await_world.
    destruct (readiness_poll_crashes env url MAX (next_handle w) k
                (Readiness.ticks_bound MAX) 0 JUndefined
                (snd (setInterval 30000 w)))
      as [P [T L]].
    + unfold Readiness.ticks_bound, Readiness.increment.
      assert (Z.of_nat k + 1 <= MAX / 30)
        by (apply Z.div_le_lower_bound; lia).
      lia.
    + apply timer_active_setInterval.
    + lia.
    + intros j Hj. destruct (Hw j Hj) as [dj [Hd Hn]].
      now apply (record_not_ready _ dj).
    + cbn [setInterval snd api_calls].
      destruct Hu as [->| ->]; reflexivity.
    + fold Readiness.initial in P, T, L. rewrite P. now split.
  - intros Hp. destruct (creation_trace env cfg) as [_ [_ [Tf _]]].
    cbv zeta in Tf. rewrite run_unfold.
    destruct (creation env cfg) as [c wc]. cbn [fst snd] in *. subst c.
    now split.
Qed.

Lemma failed_request_witness :
  run env_unreachable_api push_abc123 initial_world
  = (Pending, snd (creation env_unreachable_api push_abc123))
  /\ last (trace (snd (creation env_unreachable_api push_abc123)))
          InterceptorUse
     = UnhandledRejection.
Proof.
  destruct (proj1 (failed_request_ends_the_process
                     env_unreachable_api push_abc123
                     (deploys_url (site_id push_abc123))
                     (commitSha push_abc123) MAX_CREATE_TIMEOUT
                     (before_creation push_abc123) O))
    as [P [_ L]].
  - reflexivity.
  - intros j Hj. lia.
  - left. reflexivity.
  - split; [|exact L].
    exact (proj1 (proj2 (proj2 (failed_request_ends_the_process
                     env_unreachable_api push_abc123
                     (deploys_url (site_id push_abc123))
                     (commitSha push_abc123) MAX_CREATE_TIMEOUT
                     (before_creation push_abc123) O)) P)).
Defined.
